(** * Slot scheduling and prediction evaluation engine

    A shallow embedding of the slot clock, the lock gate, the prediction
    life cycle and the evaluator of the platform, followed by the properties
    its specification states about them.

    Conventions.
    - A JavaScript [Date] and a Luxon [DateTime] denote an instant: the number
      of milliseconds since the epoch, a [Z].
    - Prices are JavaScript numbers: IEEE 754 binary64, [float].
    - Integers that the code keeps in JavaScript numbers (slot numbers, points,
      counters) stay far below 2^53 and are [Z].
    - A database table is the list of its rows. *)

From Stdlib Require Import ZArith List String Bool Lia Floats.
From Stdlib Require Import DecimalString Sorted.
Import ListNotations.
Set Warnings "-inexact-float".
Open Scope Z_scope.

(* ================================================================== *)
(** * Calendar arithmetic shared by the two date libraries *)

Module Calendar.

Definition msPerMinute : Z := 60000.
Definition msPerHour : Z := 3600000.
Definition msPerDay : Z := 86400000.

(** Day number (days since 1970-01-01) of the civil date [y]-[m]-[d],
    [m] in 1..12, proleptic Gregorian calendar. *)
Definition dayFromCivil (y m d : Z) : Z :=
  let y' := if m <=? 2 then y - 1 else y in
  let era := y' / 400 in
  let yoe := y' - era * 400 in
  let mp := if m >? 2 then m - 3 else m + 9 in
  let doy := (153 * mp + 2) / 5 + d - 1 in
  let doe := yoe * 365 + yoe / 4 - yoe / 100 + doy in
  era * 146097 + doe - 719468.

(** Civil date (year, month 1..12, day of month) of a day number. *)
Definition civilFromDay (z : Z) : Z * Z * Z :=
  let z' := z + 719468 in
  let era := z' / 146097 in
  let doe := z' - era * 146097 in
  let yoe := (doe - doe / 1460 + doe / 36524 - doe / 146096) / 365 in
  let doy := doe - (365 * yoe + yoe / 4 - yoe / 100) in
  let mp := (5 * doy + 2) / 153 in
  let d := doy - (153 * mp + 2) / 5 + 1 in
  let m := if mp <? 10 then mp + 3 else mp - 9 in
  let y := yoe + era * 400 in
  ((if m <=? 2 then y + 1 else y), m, d).

Definition yearOf (day : Z) : Z := fst (fst (civilFromDay day)).
Definition monthOf (day : Z) : Z := snd (fst (civilFromDay day)).
Definition dateOf (day : Z) : Z := snd (civilFromDay day).

(** 0 = Sunday .. 6 = Saturday; 1970-01-01 was a Thursday. *)
Definition weekDayOf (day : Z) : Z := (day + 4) mod 7.

Definition Day (t : Z) : Z := t / msPerDay.
Definition TimeWithinDay (t : Z) : Z := t mod msPerDay.

End Calendar.

(* ================================================================== *)
(** * ECMAScript [Date], as far as the slot service uses it

    The methods below read and write the fields of a date in the local time
    zone of the server process. A zone is given, as in the language
    definition, by the offset in force at an instant and the offset chosen
    for a local time value. *)

Module JSDate.
Import Calendar.

Record TimeZone := {
  utcOffsetAt : Z -> Z;    (* ms to add to a UTC instant *)
  localOffsetAt : Z -> Z   (* ms to subtract from a local time value *)
}.

(** A zone without daylight saving: [minutes] east of Greenwich. *)
Definition fixedZone (minutes : Z) : TimeZone :=
  {| utcOffsetAt := fun _ => minutes * msPerMinute;
     localOffsetAt := fun _ => minutes * msPerMinute |}.

Definition LocalTime (tz : TimeZone) (t : Z) : Z := t + utcOffsetAt tz t.
Definition UTC (tz : TimeZone) (t : Z) : Z := t - localOffsetAt tz t.

Definition MakeTime (hour min sec ms : Z) : Z :=
  hour * msPerHour + min * msPerMinute + sec * 1000 + ms.

(** [month] is 0-based and may lie outside 0..11; [date] may lie outside
    the month. *)
Definition MakeDay (year month date : Z) : Z :=
  let ym := year + month / 12 in
  let mn := month mod 12 in
  dayFromCivil ym (mn + 1) 1 + date - 1.

Definition MakeDate (day time : Z) : Z := day * msPerDay + time.

Definition YearFromTime (t : Z) : Z := yearOf (Day t).
Definition MonthFromTime (t : Z) : Z := monthOf (Day t) - 1.
Definition DateFromTime (t : Z) : Z := dateOf (Day t).
Definition WeekDay (t : Z) : Z := weekDayOf (Day t).
Definition HourFromTime (t : Z) : Z := (t / msPerHour) mod 24.
Definition MinFromTime (t : Z) : Z := (t / msPerMinute) mod 60.
Definition SecFromTime (t : Z) : Z := (t / 1000) mod 60.

Section Methods.
Variable tz : TimeZone.

Definition getFullYear (d : Z) : Z := YearFromTime (LocalTime tz d).
Definition getMonth (d : Z) : Z := MonthFromTime (LocalTime tz d).
Definition getDate (d : Z) : Z := DateFromTime (LocalTime tz d).
Definition getDay (d : Z) : Z := WeekDay (LocalTime tz d).
Definition getHours (d : Z) : Z := HourFromTime (LocalTime tz d).
Definition getMinutes (d : Z) : Z := MinFromTime (LocalTime tz d).

(** Minutes to add to local time to reach UTC. *)
Definition getTimezoneOffset (d : Z) : Z :=
  (d - LocalTime tz d) / msPerMinute.

(** [new Date(year, month, date)] *)
Definition newDate (year month date : Z) : Z :=
  UTC tz (MakeDate (MakeDay year month date) 0).

(** [d.setHours(hour, min, sec, ms)] *)
Definition setHours (d hour min sec ms : Z) : Z :=
  let t := LocalTime tz d in
  UTC tz (MakeDate (Day t) (MakeTime hour min sec ms)).

(** [d.setDate(date)] *)
Definition setDate (d date : Z) : Z :=
  let t := LocalTime tz d in
  UTC tz (MakeDate (MakeDay (YearFromTime t) (MonthFromTime t) date)
                   (TimeWithinDay t)).

(** [d.setMonth(month)] *)
Definition setMonth (d month : Z) : Z :=
  let t := LocalTime tz d in
  UTC tz (MakeDate (MakeDay (YearFromTime t) month (DateFromTime t))
                   (TimeWithinDay t)).

(** [d.setMilliseconds(ms)] *)
Definition setMilliseconds (d ms : Z) : Z :=
  let t := LocalTime tz d in
  UTC tz (MakeDate (Day t)
            (MakeTime (HourFromTime t) (MinFromTime t) (SecFromTime t) ms)).
End Methods.

End JSDate.

(* ================================================================== *)
(** * Luxon [DateTime], as far as the slot service uses it *)

Module Luxon.
Import Calendar.

(** A zone maps an instant to its offset from UTC in minutes. *)
Definition Zone := Z -> Z.

Record DateTime := { ts : Z; zone : Zone }.

Inductive StartUnit := UDay | UWeek | UMonth | UYear.

(** [DateTime.fromJSDate(date).setZone(z)]: the same instant, read in [z]. *)
Definition fromJSDate (date : Z) (z : Zone) : DateTime :=
  {| ts := date; zone := z |}.

Definition toJSDate (dt : DateTime) : Z := ts dt.

Definition offset (dt : DateTime) : Z := zone dt (ts dt).
Definition localTS (dt : DateTime) : Z := ts dt + offset dt * msPerMinute.

Definition year (dt : DateTime) : Z := yearOf (Day (localTS dt)).
Definition month (dt : DateTime) : Z := monthOf (Day (localTS dt)).
Definition day (dt : DateTime) : Z := dateOf (Day (localTS dt)).
Definition hour (dt : DateTime) : Z := (localTS dt / msPerHour) mod 24.
Definition minute (dt : DateTime) : Z := (localTS dt / msPerMinute) mod 60.

(** 1 = Monday .. 7 = Sunday *)
Definition weekday (dt : DateTime) : Z := (Day (localTS dt) + 3) mod 7 + 1.

(** The instant of a local time value: the library guesses with the offset
    [o] it already knows and corrects the guess at most twice. *)
Definition fixOffset (local o : Z) (tz : Zone) : Z :=
  let utcGuess := local - o * msPerMinute in
  let o2 := tz utcGuess in
  if o =? o2 then utcGuess
  else
    let utcGuess' := utcGuess - (o2 - o) * msPerMinute in
    let o3 := tz utcGuess' in
    if o2 =? o3 then utcGuess'
    else local - Z.min o2 o3 * msPerMinute.

Definition ofLocal (dt : DateTime) (local : Z) : DateTime :=
  {| ts := fixOffset local (offset dt) (zone dt); zone := zone dt |}.

(** [dt.startOf(unit)] *)
Definition startOf (dt : DateTime) (u : StartUnit) : DateTime :=
  let d := Day (localTS dt) in
  let d' := match u with
            | UDay => d
            | UWeek => d - (weekday dt - 1)
            | UMonth => dayFromCivil (yearOf d) (monthOf d) 1
            | UYear => dayFromCivil (yearOf d) 1 1
            end in
  ofLocal dt (d' * msPerDay).

(** [dt.set({ month: m, day: d })] *)
Definition setMonthDay (dt : DateTime) (m d : Z) : DateTime :=
  let l := localTS dt in
  ofLocal dt (dayFromCivil (yearOf (Day l)) m d * msPerDay + TimeWithinDay l).

(** [dt.plus({ minutes: n })] *)
Definition plusMinutes (dt : DateTime) (n : Z) : DateTime :=
  {| ts := ts dt + n * msPerMinute; zone := zone dt |}.

(** [a.diff(b, 'minutes').minutes] is the elapsed time in minutes, with
    its fraction. It is kept exact here as a number of milliseconds. *)
Definition diffMillis (a b : DateTime) : Z := ts a - ts b.

Definition digit (n : Z) : string :=
  String (Ascii.ascii_of_nat (48 + Z.to_nat n)) EmptyString.
Definition pad2 (n : Z) : string := (digit (n / 10) ++ digit (n mod 10))%string.

(** [dt.toFormat('HH:mm')] *)
Definition toFormatHHmm (dt : DateTime) : string :=
  (pad2 (hour dt) ++ ":" ++ pad2 (minute dt))%string.

(** Europe/Berlin as the time zone database has it since 1996: UTC+1, and
    UTC+2 from 01:00 UTC on the last Sunday of March until 01:00 UTC on
    the last Sunday of October. *)
Definition lastSundayOf (y m : Z) : Z :=
  let d := dayFromCivil y m 31 in d - weekDayOf d.

Definition EuropeBerlin : Zone := fun t =>
  let y := yearOf (Day t) in
  let dstStart := lastSundayOf y 3 * msPerDay + msPerHour in
  let dstEnd := lastSundayOf y 10 * msPerDay + msPerHour in
  if (dstStart <=? t) && (t <? dstEnd) then 120 else 60.

End Luxon.

(* ================================================================== *)
(** * server/slot-service.ts *)

Inductive DurationKey :=
  D1h | D3h | D6h | D24h | D48h | D1w | D1m | D3m | D6m | D1y.

Record SlotConfiguration := {
  intervals : Z;
  intervalDuration : Z;   (* minutes *)
  points : list Z         (* earliest slot first *)
}.

Definition SLOT_CONFIGURATIONS (duration : DurationKey) : SlotConfiguration :=
  match duration with
  | D1h => {| intervals := 4; intervalDuration := 15; points := [10; 5; 2; 1] |}
  | D3h => {| intervals := 6; intervalDuration := 30;
              points := [20; 15; 10; 5; 2; 1] |}
  | D6h => {| intervals := 6; intervalDuration := 60;
              points := [30; 20; 15; 10; 5; 1] |}
  | D24h => {| intervals := 8; intervalDuration := 180;
               points := [40; 30; 20; 15; 10; 5; 2; 1] |}
  | D48h => {| intervals := 8; intervalDuration := 360;
               points := [50; 40; 30; 20; 15; 10; 5; 1] |}
  | D1w => {| intervals := 7; intervalDuration := 1440;
              points := [60; 50; 40; 30; 20; 10; 5] |}
  | D1m => {| intervals := 4; intervalDuration := 10080;
              points := [80; 60; 40; 20] |}
  | D3m => {| intervals := 3; intervalDuration := 43200;
              points := [100; 60; 30] |}
  | D6m => {| intervals := 6; intervalDuration := 43200;
              points := [120; 100; 80; 60; 40; 20] |}
  | D1y => {| intervals := 4; intervalDuration := 129600;
              points := [150; 100; 50; 20] |}
  end.

Definition LOCK_BEFORE_START_MINUTES : Z := 5.

Record SlotInfo := {
  slotNumber : Z;
  startTime : string;
  endTime : string;
  pointsIfCorrect : Z;
  penaltyIfWrong : Z;
  isActive : bool
}.

Record SlotTimes := { start : Z; end_ : Z }.

Record LockStatus := {
  isLocked : bool;
  timeUntilStart : Z;
  timeUntilUnlock : Z
}.

(** [Math.max(1, Math.floor(points / 2))] *)
Definition penaltyFor (pts : Z) : Z := Z.max 1 (pts / 2).

(** [config.points[i] || 0] *)
Definition pointsAt (config : SlotConfiguration) (i : Z) : Z :=
  if i <? 0 then 0 else nth (Z.to_nat i) (points config) 0.

Definition getPointsForSlot (duration : DurationKey) (slotNumber : Z) : Z :=
  let config := SLOT_CONFIGURATIONS duration in
  if (slotNumber <? 1) || (slotNumber >? Z.of_nat (List.length (points config)))
  then 0
  else nth (Z.to_nat (slotNumber - 1)) (points config) 0.

Section SlotClock.
Import Calendar Luxon.

(** What the time zone database of the runtime gives for 'Europe/Berlin'. *)
Variable Berlin : Zone.

(** [DateTime.now().setZone('Europe/Berlin').toJSDate()] *)
Definition getCurrentCESTTime (clock : Z) : Z :=
  toJSDate (fromJSDate clock Berlin).

(** The [switch] of [getSlotForDate]. *)
Definition periodStartFor (now : DateTime) (duration : DurationKey) : DateTime :=
  match duration with
  | D1h | D3h | D6h | D24h | D48h => startOf now UDay
  | D1w => startOf now UWeek
  | D1m => startOf now UMonth
  | D3m | D6m =>
      let quarter := (month now - 1) / 3 in
      startOf (setMonthDay now (quarter * 3 + 1) 1) UDay
  | D1y => startOf now UYear
  end.

(** [minutesSinceStart] is the elapsed time in minutes with its fraction,
    the milliseconds over 60000; dividing it by a whole number of minutes
    and rounding down is dividing the milliseconds by that many minutes and
    rounding down (the quotients at hand are far too small for the rounding
    of the two binary64 divisions to reach the next whole number). *)
Definition slotNumberFor (now periodStart : DateTime)
    (config : SlotConfiguration) : Z :=
  let millisSinceStart := diffMillis now periodStart in
  let slotIndex := millisSinceStart / (intervalDuration config * msPerMinute) in
  Z.min (Z.max (slotIndex + 1) 1) (intervals config).

Definition slotStartFor (periodStart : DateTime) (config : SlotConfiguration)
    (slotNumber : Z) : DateTime :=
  let slotStartMinutes := (slotNumber - 1) * intervalDuration config in
  plusMinutes periodStart slotStartMinutes.

Definition slotEndFor (periodStart : DateTime) (config : SlotConfiguration)
    (slotNumber : Z) : DateTime :=
  let slotEndMinutes := slotNumber * intervalDuration config - 1 in
  plusMinutes periodStart slotEndMinutes.

Definition getSlotForDate (date : Z) (duration : DurationKey) : SlotInfo :=
  let now := fromJSDate date Berlin in
  let periodStart := periodStartFor now duration in
  let config := SLOT_CONFIGURATIONS duration in
  let slotNumber := slotNumberFor now periodStart config in
  let slotStart := slotStartFor periodStart config slotNumber in
  let slotEnd := slotEndFor periodStart config slotNumber in
  {| slotNumber := slotNumber;
     startTime := toFormatHHmm slotStart;
     endTime := toFormatHHmm slotEnd;
     pointsIfCorrect := pointsAt config (slotNumber - 1);
     penaltyIfWrong := penaltyFor (pointsAt config (slotNumber - 1));
     isActive := false |}.

(** [getCurrentActiveSlot] is [getSlotForDate(new Date(), duration)]. *)
Definition getCurrentActiveSlot (clock : Z) (duration : DurationKey) : SlotInfo :=
  getSlotForDate clock duration.

(** [isSlotValid]: only the current slot or a later one. *)
Definition isSlotValid (clock : Z) (duration : DurationKey) (n : Z) : bool :=
  let now := fromJSDate clock Berlin in
  let currentSlot := getSlotForDate (toJSDate now) duration in
  n >=? slotNumber currentSlot.

(** The server's own zone, which the [Date] methods use. *)
Variable tz : JSDate.TimeZone.

Definition getCurrentSlot (clock : Z) (duration : DurationKey) : Z :=
  let now := clock in
  let currentTime := now in
  let config := SLOT_CONFIGURATIONS duration in
  let slotDuration := intervalDuration config * 60 * 1000 in
  let startOfDay :=
    JSDate.newDate tz (JSDate.getFullYear tz now) (JSDate.getMonth tz now)
                      (JSDate.getDate tz now) in
  let timeSinceStartOfDay := currentTime - startOfDay in
  let slotNumber := timeSinceStartOfDay / slotDuration + 1 in
  Z.min slotNumber (intervals config).

Definition getSlotTimes (clock : Z) (duration : DurationKey) (n : Z)
    : SlotTimes :=
  let now := getCurrentCESTTime clock in
  match duration with
  | D1h =>
      let startMinutes := (n - 1) * 15 in
      let endMinutes := n * 15 - 1 in
      {| start := JSDate.setHours tz now (startMinutes / 60)
                    (Z.rem startMinutes 60) 0 0;
         end_ := JSDate.setHours tz now (endMinutes / 60)
                    (Z.rem endMinutes 60) 59 999 |}
  | D3h =>
      let startMinutes := (n - 1) * 30 in
      let endMinutes := n * 30 - 1 in
      {| start := JSDate.setHours tz now (startMinutes / 60)
                    (Z.rem startMinutes 60) 0 0;
         end_ := JSDate.setHours tz now (endMinutes / 60)
                    (Z.rem endMinutes 60) 59 999 |}
  | D6h =>
      let startHour := n - 1 in
      let endHour := n - 1 in
      {| start := JSDate.setHours tz now startHour 0 0 0;
         end_ := JSDate.setHours tz now endHour 59 59 999 |}
  | D24h =>
      let startHour := (n - 1) * 3 in
      let endHour := n * 3 - 1 in
      {| start := JSDate.setHours tz now startHour 0 0 0;
         end_ := JSDate.setHours tz now endHour 59 59 999 |}
  | D48h =>
      let startHour := (n - 1) * 6 in
      let endHour := n * 6 - 1 in
      {| start := JSDate.setHours tz now startHour 0 0 0;
         end_ := JSDate.setHours tz now endHour 59 59 999 |}
  | D1w =>
      let start0 := JSDate.setDate tz now
                      (JSDate.getDate tz now - JSDate.getDay tz now + n - 1) in
      let start := JSDate.setHours tz start0 0 0 0 0 in
      let end0 := JSDate.setDate tz start (JSDate.getDate tz start + 1) in
      {| start := start; end_ := JSDate.setMilliseconds tz end0 (-1) |}
  | D1m =>
      let start0 := JSDate.newDate tz (JSDate.getFullYear tz now)
                      (JSDate.getMonth tz now) 1 in
      let start := JSDate.setDate tz start0 ((n - 1) * 7 + 1) in
      let end0 := JSDate.setDate tz start (JSDate.getDate tz start + 7) in
      {| start := start; end_ := JSDate.setMilliseconds tz end0 (-1) |}
  | D3m | D6m =>
      let start := JSDate.newDate tz (JSDate.getFullYear tz now) (n - 1) 1 in
      let end0 := JSDate.setMonth tz start (JSDate.getMonth tz start + 1) in
      {| start := start; end_ := JSDate.setMilliseconds tz end0 (-1) |}
  | D1y =>
      let startMonth := (n - 1) * 3 in
      let start := JSDate.newDate tz (JSDate.getFullYear tz now) startMonth 1 in
      let end0 := JSDate.setMonth tz start (JSDate.getMonth tz start + 3) in
      {| start := start; end_ := JSDate.setMilliseconds tz end0 (-1) |}
  end.

Definition isSlotLocked (clock : Z) (duration : DurationKey) (n : Z) : bool :=
  let now := getCurrentCESTTime clock in
  let slotTimes := getSlotTimes clock duration n in
  let timeUntilStart := start slotTimes - now in
  timeUntilStart <=? LOCK_BEFORE_START_MINUTES * 60 * 1000.

Definition getSlotLockStatus (clock : Z) (duration : DurationKey) (n : Z)
    : LockStatus :=
  let now := getCurrentCESTTime clock in
  let slotTimes := getSlotTimes clock duration n in
  let timeUntilStart := start slotTimes - now in
  let timeUntilUnlock :=
    timeUntilStart - LOCK_BEFORE_START_MINUTES * 60 * 1000 in
  {| isLocked := timeUntilStart <=? LOCK_BEFORE_START_MINUTES * 60 * 1000;
     timeUntilStart := Z.max 0 timeUntilStart;
     timeUntilUnlock := Z.max 0 timeUntilUnlock |}.

(** The answers of [validateSlotSelection]; a lock status comes with the
    last two. *)
Inductive Validation :=
  | InvalidSlotNumber   (* `Invalid slot number ... for duration ...` *)
  | PastSlot            (* 'Cannot select past slots. ...' *)
  | SlotIsLocked (lockStatus : LockStatus)
                        (* `Slot is locked. Predictions are disabled ...` *)
  | ValidSelection (lockStatus : LockStatus).

Definition validateSlotSelection (clock : Z) (duration : DurationKey) (n : Z)
    : Validation :=
  let points := getPointsForSlot duration n in
  if points =? 0 then InvalidSlotNumber
  else if negb (isSlotValid clock duration n) then PastSlot
  else
    let lockStatus := getSlotLockStatus clock duration n in
    if isLocked lockStatus then SlotIsLocked lockStatus
    else ValidSelection lockStatus.

End SlotClock.

(** The earlier variant of the slot service computes "CEST" by hand. *)
Module LegacySlotService.

Definition getCurrentCESTTime (tz : JSDate.TimeZone) (clock : Z) : Z :=
  let now := clock in
  let cestOffset := 2 in
  let utc := now + JSDate.getTimezoneOffset tz now * 60000 in
  utc + cestOffset * 3600000.

End LegacySlotService.

(* ================================================================== *)
(** * The database and the outside world *)

Inductive Direction := Up | Down.
Inductive Status := Active | Expired | Evaluated.
Inductive Result := Pending | Correct | Incorrect.

Module User.
Record t := { id : string; emailVerified : bool }.
End User.

Module Asset.
Record t := { id : string; symbol : string; isActive : bool }.
End Asset.

Module Prediction.
(** The decimal columns [priceStart] and [priceEnd] hold the number that
    [toString] wrote and [parseFloat] reads back. *)
Record t := {
  id : string;
  userId : string;
  assetId : string;
  direction : Direction;
  duration : DurationKey;
  slotNumber : Z;
  slotStart : Z;
  slotEnd : Z;
  timestampCreated : Z;
  timestampExpiration : Z;
  status : Status;
  result : Result;
  pointsAwarded : option Z;
  priceStart : option float;
  priceEnd : option float;
  evaluatedAt : option Z
}.
End Prediction.

Module UserProfile.
Record t := {
  userId : string;
  totalPredictions : Z;
  correctPredictions : Z;
  monthlyScore : Z;
  totalScore : Z
}.
End UserProfile.

Record Db := {
  users : list User.t;
  assets : list Asset.t;
  predictions : list Prediction.t;
  userProfiles : list UserProfile.t
}.

Definition withPredictions (db : Db) (ps : list Prediction.t) : Db :=
  {| users := users db; assets := assets db; predictions := ps;
     userProfiles := userProfiles db |}.

Definition withUserProfiles (db : Db) (us : list UserProfile.t) : Db :=
  {| users := users db; assets := assets db; predictions := predictions db;
     userProfiles := us |}.

(** Every [throw new Error(...)] of the prediction service. *)
Inductive Error :=
  | UserNotFound
  | EmailVerificationRequired
  | AssetNotFound
  | AssetNotAvailable
  | SlotNotValid
  | DuplicatePrediction
  | NoActiveSlot
  | PriceUnavailable
  | PredictionNotFound
  | PredictionNotActive
  | EndPriceUnavailable
  | StartPriceUnavailable
  | PointsCalculationFailed.

Definition message (e : Error) : string :=
  match e with
  | UserNotFound => "User not found"
  | EmailVerificationRequired =>
      "Email verification required. Please verify your email before making predictions."
  | AssetNotFound => "Asset not found"
  | AssetNotAvailable => "Asset is not available for predictions"
  | SlotNotValid =>
      "Current slot is not valid for predictions - only current and future slots are allowed"
  | DuplicatePrediction =>
      "You already have a prediction for this asset in the current slot"
  | NoActiveSlot => "No active slot available for this duration"
  | PriceUnavailable => "Unable to get current asset price"
  | PredictionNotFound => "Prediction not found"
  | PredictionNotActive => "Prediction is not active"
  | EndPriceUnavailable => "Unable to get end price for evaluation"
  | StartPriceUnavailable => "Start price not available for evaluation"
  | PointsCalculationFailed => "Failed to calculate prediction points"
  end.

(** A handler runs against the database and returns or throws. *)
Inductive Outcome (A : Type) :=
  | Returned (a : A)
  | Thrown (e : Error).
Arguments Returned {A} a.
Arguments Thrown {A} e.

Definition M (A : Type) : Type := Db -> Outcome A * Db.

Definition ret {A} (a : A) : M A := fun db => (Returned a, db).
Definition throw {A} (e : Error) : M A := fun db => (Thrown e, db).
Definition bind {A B} (m : M A) (k : A -> M B) : M B :=
  fun db => match m db with
            | (Returned a, db') => k a db'
            | (Thrown e, db') => (Thrown e, db')
            end.
Definition query {A} (f : Db -> A) : M A := fun db => (Returned (f db), db).
Definition modify (f : Db -> Db) : M unit := fun db => (Returned tt, f db).
Definition when_ (c : bool) (e : Error) : M unit :=
  if c then throw e else ret tt.

Declare Scope handler_scope.
Delimit Scope handler_scope with handler.
Notation "x <- m ;; k" := (bind m (fun x => k))
  (at level 61, m at next level, right associativity) : handler_scope.
Notation "m ;;; k" := (bind m (fun _ => k))
  (at level 61, right associativity) : handler_scope.

(** The slot of [lib/slots]: its bounds are instants. *)
Record ActiveSlot := {
  as_slotNumber : Z;
  as_slotStart : Z;
  as_slotEnd : Z
}.

(** What the prediction service imports: the price service and [lib/slots].
    Each answer may depend on the instant of the call. *)
Record Env := {
  getLiveAssetPrice : Z -> string -> option float;
  getAssetPrice : Z -> string -> option float;
  env_getCurrentActiveSlot : Z -> DurationKey -> ActiveSlot;
  env_isSlotValid : Z -> DurationKey -> Z -> bool;
  env_isWithinActiveSlot : Z -> Z -> DurationKey -> bool;
  (** [None] when the call throws *)
  env_getPointsForSlot : DurationKey -> Z -> option Z
}.

(** JavaScript truth of a [number | null]. *)
Definition truthy (v : option float) : bool :=
  match v with
  | None => false
  | Some f => negb ((f =? 0)%float || is_nan f)
  end.

(** [a || b] *)
Definition orElse (a b : option float) : option float :=
  if truthy a then a else b.

Definition DurationKey_eqb (a b : DurationKey) : bool :=
  match a, b with
  | D1h, D1h | D3h, D3h | D6h, D6h | D24h, D24h | D48h, D48h
  | D1w, D1w | D1m, D1m | D3m, D3m | D6m, D6m | D1y, D1y => true
  | _, _ => false
  end.

Definition isActiveStatus (s : Status) : bool :=
  match s with Active => true | _ => false end.

(* ================================================================== *)
(** * server/prediction-service.ts *)

Module CreatePredictionInput.
Record t := {
  userId : string;
  assetSymbol : string;
  direction : Direction;
  duration : DurationKey
}.
End CreatePredictionInput.

Module Evaluation.
(** What [evaluatePrediction] returns. *)
Record t := {
  predictionId : string;
  isCorrect : bool;
  pointsAwarded : Z;
  startPrice : float;
  endPrice : float
}.
End Evaluation.

Section PredictionService.
Variable env : Env.
Open Scope handler_scope.
Open Scope string_scope.

Definition findUser (uid : string) : M (option User.t) :=
  query (fun db => find (fun u => User.id u =? uid) (users db)).

Definition findAssetBySymbol (sym : string) : M (option Asset.t) :=
  query (fun db => find (fun a => Asset.symbol a =? sym) (assets db)).

Definition findAssetById (aid : string) : M (option Asset.t) :=
  query (fun db => find (fun a => Asset.id a =? aid) (assets db)).

Definition findPrediction (pid : string) : M (option Prediction.t) :=
  query (fun db => find (fun p => Prediction.id p =? pid) (predictions db)).

Definition findProfile (uid : string) : M (option UserProfile.t) :=
  query (fun db => find (fun p => UserProfile.userId p =? uid)
                        (userProfiles db)).

(** The [where] clause of the duplicate check. *)
Definition sameSlotBooking (uid aid : string) (d : DurationKey)
    (slot : ActiveSlot) (p : Prediction.t) : bool :=
  (Prediction.userId p =? uid) && (Prediction.assetId p =? aid)
  && DurationKey_eqb (Prediction.duration p) d
  && (Prediction.slotNumber p =? as_slotNumber slot)%Z
  && (Prediction.slotStart p =? as_slotStart slot)%Z.

(** The row of [db.insert(predictions).values({...})]; the columns not
    given take their defaults: a key [freshId] from the database, the
    creation time, status active, result pending. *)
Definition newPrediction (freshId : string) (now : Z) (uid aid : string)
    (dir : Direction) (d : DurationKey) (slot : ActiveSlot)
    (price : float) : Prediction.t :=
  {| Prediction.id := freshId;
     Prediction.userId := uid;
     Prediction.assetId := aid;
     Prediction.direction := dir;
     Prediction.duration := d;
     Prediction.slotNumber := as_slotNumber slot;
     Prediction.slotStart := as_slotStart slot;
     Prediction.slotEnd := as_slotEnd slot;
     Prediction.timestampCreated := now;
     Prediction.timestampExpiration := as_slotEnd slot;
     Prediction.status := Active;
     Prediction.result := Pending;
     Prediction.pointsAwarded := None;
     Prediction.priceStart := Some price;
     Prediction.priceEnd := None;
     Prediction.evaluatedAt := None |}.

(** [db.insert(predictions).values(row).returning()] *)
Definition insertPrediction (row : Prediction.t) : M Prediction.t :=
  modify (fun db => withPredictions db (predictions db ++ [row])) ;;;
  ret row.

(** The [try] block that counts the new prediction in the user's profile. *)
Definition countPrediction (uid : string) : M unit :=
  existingProfile <- findProfile uid ;;
  match existingProfile with
  | None =>
      modify (fun db => withUserProfiles db
        (userProfiles db ++
           [{| UserProfile.userId := uid;
               UserProfile.totalPredictions := 1;
               UserProfile.correctPredictions := 0;
               UserProfile.monthlyScore := 0;
               UserProfile.totalScore := 0 |}]))
  | Some _ =>
      modify (fun db => withUserProfiles db
        (map (fun p =>
                if UserProfile.userId p =? uid then
                  {| UserProfile.userId := UserProfile.userId p;
                     UserProfile.totalPredictions :=
                       UserProfile.totalPredictions p + 1;
                     UserProfile.correctPredictions :=
                       UserProfile.correctPredictions p;
                     UserProfile.monthlyScore := UserProfile.monthlyScore p;
                     UserProfile.totalScore := UserProfile.totalScore p |}
                else p)
             (userProfiles db)))
  end.

(** A live quote, else the cached one; [e] when neither is usable. *)
Definition fetchPrice (now : Z) (sym : string) (e : Error) : M float :=
  let livePrice := getLiveAssetPrice env now sym in
  when_ (negb (truthy livePrice) && negb (truthy (getAssetPrice env now sym))) e ;;;
  let currentPrice := orElse livePrice (getAssetPrice env now sym) in
  match currentPrice with
  | Some price => if truthy currentPrice then ret price else throw e
  | None => throw e
  end.

(** [now] is the reading of the clock while the request is handled: the
    handler and its helpers read the clock several times in a row, and these
    readings are taken to be the same instant. [freshId] is the key that the
    database gives to the new row. *)
Definition createPrediction (now : Z) (freshId : string)
    (input : CreatePredictionInput.t) : M Prediction.t :=
  let userId := CreatePredictionInput.userId input in
  let assetSymbol := CreatePredictionInput.assetSymbol input in
  let direction := CreatePredictionInput.direction input in
  let duration := CreatePredictionInput.duration input in
  user <- findUser userId ;;
  match user with
  | None => throw UserNotFound
  | Some user =>
  when_ (negb (User.emailVerified user)) EmailVerificationRequired ;;;
  asset <- findAssetBySymbol assetSymbol ;;
  match asset with
  | None => throw AssetNotFound
  | Some asset =>
  when_ (negb (Asset.isActive asset)) AssetNotAvailable ;;;
  let activeSlot := env_getCurrentActiveSlot env now duration in
  let isValid := env_isSlotValid env now duration (as_slotNumber activeSlot) in
  when_ (negb isValid) SlotNotValid ;;;
  existingPrediction <-
    query (fun db => find (sameSlotBooking userId (Asset.id asset) duration
                             activeSlot) (predictions db)) ;;
  match existingPrediction with
  | Some _ => throw DuplicatePrediction
  | None =>
  when_ (negb (env_isWithinActiveSlot env now now duration)) NoActiveSlot ;;;
  currentPrice <- fetchPrice now assetSymbol PriceUnavailable ;;
  prediction <- insertPrediction
                  (newPrediction freshId now userId (Asset.id asset)
                     direction duration activeSlot currentPrice) ;;
  countPrediction userId ;;;
  ret prediction
  end end end.

Definition priceChangePercent (endPrice startPriceNum : float) : float :=
  abs ((endPrice - startPriceNum) / startPriceNum * 100)%float.

(** The body of the [try] block, once [basePoints] is known. *)
Definition awardPoints (basePoints : Z) (isCorrect : bool)
    (endPrice startPriceNum : float) : Z :=
  if isCorrect then
    let pct := priceChangePercent endPrice startPriceNum in
    if (pct <=? 0.1)%float then basePoints + 10
    else if (pct <=? 0.5)%float then basePoints + 5
    else if (pct <=? 1.0)%float then basePoints + 2
    else basePoints
  else - Z.max 1 (basePoints / 2).

Definition judge (direction : Direction) (endPrice startPriceNum : float)
    : bool :=
  match direction with
  | Up => (startPriceNum <? endPrice)%float      (* endPrice > startPriceNum *)
  | Down => (endPrice <? startPriceNum)%float
  end.

(** The [set] of the update of the prediction. *)
Definition markEvaluated (p : Prediction.t) (isCorrect : bool)
    (pointsAwarded : Z) (endPrice : float) (now : Z) : Prediction.t :=
  {| Prediction.id := Prediction.id p;
     Prediction.userId := Prediction.userId p;
     Prediction.assetId := Prediction.assetId p;
     Prediction.direction := Prediction.direction p;
     Prediction.duration := Prediction.duration p;
     Prediction.slotNumber := Prediction.slotNumber p;
     Prediction.slotStart := Prediction.slotStart p;
     Prediction.slotEnd := Prediction.slotEnd p;
     Prediction.timestampCreated := Prediction.timestampCreated p;
     Prediction.timestampExpiration := Prediction.timestampExpiration p;
     Prediction.status := Evaluated;
     Prediction.result := if isCorrect then Correct else Incorrect;
     Prediction.pointsAwarded := Some pointsAwarded;
     Prediction.priceStart := Prediction.priceStart p;
     Prediction.priceEnd := Some endPrice;
     Prediction.evaluatedAt := Some now |}.

(** [db.update(predictions).set({...}).where(eq(predictions.id, pid))] *)
Definition evaluatedRows (now : Z) (pid : string) (isCorrect : bool)
    (pointsAwarded : Z) (endPrice : float) (ps : list Prediction.t)
    : list Prediction.t :=
  map (fun p => if Prediction.id p =? pid
                then markEvaluated p isCorrect pointsAwarded endPrice now
                else p) ps.

(** The read-modify-write of the owner's profile. *)
Definition creditProfile (uid : string) (isCorrect : bool)
    (pointsAwarded : Z) : M unit :=
  profile <- findProfile uid ;;
  match profile with
  | Some profile =>
      let newCorrectPredictions :=
        UserProfile.correctPredictions profile + (if isCorrect then 1 else 0) in
      let newTotalPredictions := UserProfile.totalPredictions profile + 1 in
      let newMonthlyScore := UserProfile.monthlyScore profile + pointsAwarded in
      let newTotalScore := UserProfile.totalScore profile + pointsAwarded in
      modify (fun db => withUserProfiles db
        (map (fun p =>
                if UserProfile.userId p =? uid then
                  {| UserProfile.userId := UserProfile.userId p;
                     UserProfile.totalPredictions := newTotalPredictions;
                     UserProfile.correctPredictions := newCorrectPredictions;
                     UserProfile.monthlyScore := newMonthlyScore;
                     UserProfile.totalScore := newTotalScore |}
                else p)
             (userProfiles db)))
  | None => ret tt
  end.

(** [now] is the reading of the clock while the prediction is evaluated. *)
Definition evaluatePrediction (now : Z) (predictionId : string)
    : M Evaluation.t :=
  prediction <- findPrediction predictionId ;;
  match prediction with
  | None => throw PredictionNotFound
  | Some prediction =>
  when_ (negb (isActiveStatus (Prediction.status prediction)))
        PredictionNotActive ;;;
  asset <- findAssetById (Prediction.assetId prediction) ;;
  match asset with
  | None => throw AssetNotFound
  | Some asset =>
  endPrice <- fetchPrice now (Asset.symbol asset) EndPriceUnavailable ;;
  match Prediction.priceStart prediction with
  | None => throw StartPriceUnavailable
  | Some startPriceNum =>
  let isCorrect := judge (Prediction.direction prediction) endPrice
                         startPriceNum in
  match env_getPointsForSlot env (Prediction.duration prediction)
                             (Prediction.slotNumber prediction) with
  | None => throw PointsCalculationFailed
  | Some basePoints =>
  let pointsAwarded := awardPoints basePoints isCorrect endPrice
                                   startPriceNum in
  modify (fun db => withPredictions db
    (evaluatedRows now predictionId isCorrect pointsAwarded endPrice
                   (predictions db))) ;;;
  creditProfile (Prediction.userId prediction) isCorrect pointsAwarded ;;;
  ret {| Evaluation.predictionId := predictionId;
         Evaluation.isCorrect := isCorrect;
         Evaluation.pointsAwarded := pointsAwarded;
         Evaluation.startPrice := startPriceNum;
         Evaluation.endPrice := endPrice |}
  end end end end.

(** [evaluateExpiredPredictions]: every active prediction whose expiry has
    passed is evaluated; a failure is logged and the sweep goes on. *)
Definition evaluateExpiredPredictions (now : Z) : M unit :=
  fun db =>
    let expiredPredictions :=
      filter (fun p => isActiveStatus (Prediction.status p)
                       && (Prediction.timestampExpiration p <? now)%Z)
             (predictions db) in
    (Returned tt,
     fold_left (fun db' p => snd (evaluatePrediction now (Prediction.id p) db'))
               expiredPredictions db).

End PredictionService.

(* ================================================================== *)
(** * The administrator's evaluation route

    [POST /admin/predictions/:id/evaluate], after the administrator check. *)

Module Routes.

(** The fields read from the request body; [None] is a field left out. *)
Record EvaluateBody := {
  result : option string;
  pointsAwarded : option Z;
  priceStart : option float;
  priceEnd : option float
}.

Inductive Response :=
  | InvalidResultValue                      (* 400 *)
  | PredictionNotFound404                   (* 404 *)
  | EvaluatedOk (predictionId : string) (result : Result)
                (pointsAwarded : option Z). (* 200 *)

(** [['correct', 'incorrect', 'pending'].includes(result)] *)
Definition parseResult (r : option string) : option Result :=
  match r with
  | None => None
  | Some s =>
      if (s =? "correct")%string then Some Correct
      else if (s =? "incorrect")%string then Some Incorrect
      else if (s =? "pending")%string then Some Pending
      else None
  end.

(** [pointsAwarded || 0] *)
Definition orZero (v : option Z) : Z :=
  match v with Some n => n | None => 0 end.

Definition overrideRow (pred : Prediction.t) (res : Result)
    (body : EvaluateBody) (now : Z) (p : Prediction.t) : Prediction.t :=
  {| Prediction.id := Prediction.id p;
     Prediction.userId := Prediction.userId p;
     Prediction.assetId := Prediction.assetId p;
     Prediction.direction := Prediction.direction p;
     Prediction.duration := Prediction.duration p;
     Prediction.slotNumber := Prediction.slotNumber p;
     Prediction.slotStart := Prediction.slotStart p;
     Prediction.slotEnd := Prediction.slotEnd p;
     Prediction.timestampCreated := Prediction.timestampCreated p;
     Prediction.timestampExpiration := Prediction.timestampExpiration p;
     Prediction.status := Evaluated;
     Prediction.result := res;
     Prediction.pointsAwarded := Some (orZero (pointsAwarded body));
     Prediction.priceStart :=
       if truthy (priceStart body) then priceStart body
       else Prediction.priceStart pred;
     Prediction.priceEnd :=
       if truthy (priceEnd body) then priceEnd body
       else Prediction.priceEnd pred;
     Prediction.evaluatedAt := Some now |}.

Definition adjustProfile (res : Result) (pointsDiff : Z)
    (p : UserProfile.t) : UserProfile.t :=
  {| UserProfile.userId := UserProfile.userId p;
     UserProfile.totalPredictions := UserProfile.totalPredictions p + 1;
     UserProfile.correctPredictions :=
       UserProfile.correctPredictions p
       + (match res with Correct => 1 | _ => 0 end);
     UserProfile.monthlyScore := UserProfile.monthlyScore p + pointsDiff;
     UserProfile.totalScore := UserProfile.totalScore p + pointsDiff |}.

Definition option_Z_eqb (a b : option Z) : bool :=
  match a, b with
  | Some x, Some y => x =? y
  | None, None => true
  | _, _ => false
  end.

Definition adminEvaluate (now : Z) (id : string) (body : EvaluateBody)
    (db : Db) : Response * Db :=
  match parseResult (result body) with
  | None => (InvalidResultValue, db)
  | Some res =>
    match find (fun p => Prediction.id p =? id)%string (predictions db) with
    | None => (PredictionNotFound404, db)
    | Some pred =>
      let db1 := withPredictions db
        (map (fun p => if (Prediction.id p =? id)%string
                       then overrideRow pred res body now p else p)
             (predictions db)) in
      let db2 :=
        match pointsAwarded body with
        | Some pts =>
            if negb (option_Z_eqb (Some pts) (Prediction.pointsAwarded pred))
            then
              let pointsDiff := pts - orZero (Prediction.pointsAwarded pred) in
              withUserProfiles db1
                (map (fun p =>
                        if (UserProfile.userId p =? Prediction.userId pred)%string
                        then adjustProfile res pointsDiff p else p)
                     (userProfiles db1))
            else db1
        | None => db1
        end in
      (EvaluatedOk id res (pointsAwarded body), db2)
    end
  end.

End Routes.

(* ================================================================== *)
(** * server/lib/slots

    The prediction service imports its slot functions from this module,
    which is not among the sources at hand. *)

Module Slots.
Section Lib.
Import Calendar Luxon.
Variable Berlin : Zone.

(** Modelled from the spec: [lib/slots.getCurrentActiveSlot] is missing.
    The slot number is the one of the slot clock (period start, elapsed
    minutes over the slot length, rounded down, plus one, clamped), and
    the bounds are start = periodStart + (n-1)*slotLength and
    end = periodStart + n*slotLength - 1ms. *)
Definition getCurrentActiveSlot (clock : Z) (duration : DurationKey)
    : ActiveSlot :=
  let now := fromJSDate clock Berlin in
  let periodStart := periodStartFor now duration in
  let config := SLOT_CONFIGURATIONS duration in
  let n := slotNumberFor now periodStart config in
  {| as_slotNumber := n;
     as_slotStart :=
       ts periodStart + (n - 1) * intervalDuration config * msPerMinute;
     as_slotEnd :=
       ts periodStart + n * intervalDuration config * msPerMinute - 1 |}.

(** Modelled from the spec: [lib/slots.isSlotValid] is missing. A slot is
    valid for new submissions when its number is the current one or a
    later one relative to now. *)
Definition isSlotValid (clock : Z) (duration : DurationKey) (n : Z) : bool :=
  n >=? as_slotNumber (getCurrentActiveSlot clock duration).

(** Modelled from the spec: [lib/slots.isWithinActiveSlot] is missing.
    A slot has a computed boundary; we are within the active slot when
    the present instant lies between the bounds of the slot active at
    [date] (the call site describes the check as being within the active
    slot window, and passes the present instant as [date]). *)
Definition isWithinActiveSlot (clock date : Z) (duration : DurationKey)
    : bool :=
  let slot := getCurrentActiveSlot date duration in
  (as_slotStart slot <=? clock) && (clock <=? as_slotEnd slot).

(** Modelled from the spec: [lib/slots.getPointsForSlot] is missing. The
    base points of a slot come from the duration catalog. *)
Definition getPointsForSlot (duration : DurationKey) (n : Z) : option Z :=
  Some (getPointsForSlot duration n).

Definition env (live cached : Z -> string -> option float) : Env :=
  {| getLiveAssetPrice := live;
     getAssetPrice := cached;
     env_getCurrentActiveSlot := getCurrentActiveSlot;
     env_isSlotValid := isSlotValid;
     env_isWithinActiveSlot := isWithinActiveSlot;
     env_getPointsForSlot := getPointsForSlot |}.
End Lib.
End Slots.

(* ================================================================== *)
(** * server/slot-service.ts: the slot table and the legacy queries *)

(** [n.toString()] of a whole number. *)
Definition toString (n : Z) : string := NilZero.string_of_int (Z.to_int n).

(** [s.padStart(2, '0')] *)
Definition padStart2 (s : string) : string :=
  match String.length s with
  | O => "00"
  | S O => ("0" ++ s)%string
  | _ => s
  end.

Module SlotConfig.
(** A row of [slotConfigs], without the key that the database adds. *)
Record t := {
  duration : DurationKey;
  slotNumber : Z;
  startTime : string;
  endTime : string;
  pointsIfCorrect : Z;
  penaltyIfWrong : Z
}.
End SlotConfig.

(** [Object.entries(SLOT_CONFIGURATIONS)] lists the keys as written. *)
Definition allDurations : list DurationKey :=
  [D1h; D3h; D6h; D24h; D48h; D1w; D1m; D3m; D6m; D1y].

(** Hours and minutes of a number of minutes, both padded to two digits. *)
Definition hoursMinutes (minutes : Z) : string :=
  (padStart2 (toString (minutes / 60)) ++ ":"
   ++ padStart2 (toString (Z.rem minutes 60)))%string.

(** The [if] chain of [initializeSlotConfigs] that labels slot [i + 1]. *)
Definition slotLabels (duration : DurationKey) (i : Z) : string * string :=
  match duration with
  | D1h =>
      let startMinutes := i * 15 in
      let endMinutes := (i + 1) * 15 - 1 in
      (hoursMinutes startMinutes, hoursMinutes endMinutes)
  | D3h =>
      let startMinutes := i * 30 in
      let endMinutes := (i + 1) * 30 - 1 in
      (hoursMinutes startMinutes, hoursMinutes endMinutes)
  | D6h =>
      ((padStart2 (toString i) ++ ":00")%string,
       (padStart2 (toString i) ++ ":59")%string)
  | D24h =>
      let startHour := i * 3 in
      let endHour := (i + 1) * 3 - 1 in
      ((padStart2 (toString startHour) ++ ":00")%string,
       (padStart2 (toString endHour) ++ ":59")%string)
  | D48h =>
      let startHour := i * 6 in
      let endHour := (i + 1) * 6 - 1 in
      ((padStart2 (toString startHour) ++ ":00")%string,
       (padStart2 (toString endHour) ++ ":59")%string)
  | D1w =>
      let days := ["Sunday"; "Monday"; "Tuesday"; "Wednesday"; "Thursday";
                   "Friday"; "Saturday"]%string in
      (nth (Z.to_nat i) days ""%string, nth (Z.to_nat i) days ""%string)
  | D1m =>
      (("Week " ++ toString (i + 1))%string, ("Week " ++ toString (i + 1))%string)
  | D3m | D6m =>
      let monthNames := ["Jan"; "Feb"; "Mar"; "Apr"; "May"; "Jun"; "Jul";
                         "Aug"; "Sep"; "Oct"; "Nov"; "Dec"]%string in
      (nth (Z.to_nat i) monthNames ""%string,
       nth (Z.to_nat i) monthNames ""%string)
  | D1y =>
      let quarters := ["Q1"; "Q2"; "Q3"; "Q4"]%string in
      (nth (Z.to_nat i) quarters ""%string, nth (Z.to_nat i) quarters ""%string)
  end.

(** The rows that the inner loop pushes for one duration. *)
Definition slotsOf (duration : DurationKey) : list SlotConfig.t :=
  let config := SLOT_CONFIGURATIONS duration in
  map (fun k =>
         let i := Z.of_nat k in
         let slotNumber := i + 1 in
         let pointsIfCorrect := nth k (points config) 0 in
         let penaltyIfWrong := Z.max 1 (pointsIfCorrect / 2) in
         {| SlotConfig.duration := duration;
            SlotConfig.slotNumber := slotNumber;
            SlotConfig.startTime := fst (slotLabels duration i);
            SlotConfig.endTime := snd (slotLabels duration i);
            SlotConfig.pointsIfCorrect := pointsIfCorrect;
            SlotConfig.penaltyIfWrong := penaltyIfWrong |})
      (seq 0 (Z.to_nat (intervals config))).

Definition allSlots : list SlotConfig.t := flat_map slotsOf allDurations.

(** [initializeSlotConfigs], on the table [slotConfigs]. *)
Definition initializeSlotConfigs (slotConfigs : list SlotConfig.t)
    : list SlotConfig.t :=
  match slotConfigs with
  | _ :: _ => slotConfigs                 (* already initialized *)
  | [] => (slotConfigs ++ allSlots)%list
  end.

(** [findFirst] on duration and slot number. *)
Definition findSlotConfig (slotConfigs : list SlotConfig.t)
    (duration : DurationKey) (n : Z) : option SlotConfig.t :=
  find (fun c => DurationKey_eqb (SlotConfig.duration c) duration
                 && (SlotConfig.slotNumber c =? n))
       slotConfigs.

Module LegacyActiveSlot.
(** The interface [ActiveSlot] of the slot service: its times are instants. *)
Record t := {
  slotNumber : Z;
  startTime : Z;
  endTime : Z;
  pointsIfCorrect : Z;
  penaltyIfWrong : Z;
  timeRemaining : Z
}.
End LegacyActiveSlot.

(** Rows in the order of [orderBy: asc(slotNumber)]; rows with the same
    number keep the order of the table. *)
Fixpoint insertConfig (c : SlotConfig.t) (l : list SlotConfig.t)
    : list SlotConfig.t :=
  match l with
  | [] => [c]
  | c' :: l' =>
      if SlotConfig.slotNumber c <=? SlotConfig.slotNumber c'
      then c :: l else c' :: insertConfig c l'
  end.

Definition orderBySlotNumber (l : list SlotConfig.t) : list SlotConfig.t :=
  fold_right insertConfig [] l.

Section LegacyQueries.
Variable Berlin : Luxon.Zone.
Variable tz : JSDate.TimeZone.
Variable slotConfigs : list SlotConfig.t.

Definition getActiveSlot (clock : Z) (duration : DurationKey)
    : option LegacyActiveSlot.t :=
  let currentSlotNumber := getCurrentSlot tz clock duration in
  let slotTimes := getSlotTimes Berlin tz clock duration currentSlotNumber in
  match findSlotConfig slotConfigs duration currentSlotNumber with
  | None => None
  | Some slotConfig =>
      let now := getCurrentCESTTime Berlin clock in
      let timeRemaining := end_ slotTimes - now in
      Some {| LegacyActiveSlot.slotNumber := SlotConfig.slotNumber slotConfig;
              LegacyActiveSlot.startTime := start slotTimes;
              LegacyActiveSlot.endTime := end_ slotTimes;
              LegacyActiveSlot.pointsIfCorrect :=
                SlotConfig.pointsIfCorrect slotConfig;
              LegacyActiveSlot.penaltyIfWrong :=
                SlotConfig.penaltyIfWrong slotConfig;
              LegacyActiveSlot.timeRemaining := Z.max 0 timeRemaining |}
  end.

Definition getAllSlots (clock : Z) (duration : DurationKey) : list SlotInfo :=
  let slots :=
    orderBySlotNumber
      (filter (fun c => DurationKey_eqb (SlotConfig.duration c) duration)
              slotConfigs) in
  let currentSlotNumber := getCurrentSlot tz clock duration in
  map (fun config =>
         {| slotNumber := SlotConfig.slotNumber config;
            startTime := SlotConfig.startTime config;
            endTime := SlotConfig.endTime config;
            pointsIfCorrect := SlotConfig.pointsIfCorrect config;
            penaltyIfWrong := SlotConfig.penaltyIfWrong config;
            isActive := SlotConfig.slotNumber config =? currentSlotNumber |})
      slots.

Definition isSlotActive (clock : Z) (duration : DurationKey) (n : Z) : bool :=
  let currentSlot := getCurrentSlot tz clock duration in
  currentSlot =? n.

Definition isSlotUpcoming (clock : Z) (duration : DurationKey) (n : Z) : bool :=
  let currentSlot := getCurrentSlot tz clock duration in
  n >? currentSlot.

Definition isSlotExpired (clock : Z) (duration : DurationKey) (n : Z) : bool :=
  let currentSlot := getCurrentSlot tz clock duration in
  n <? currentSlot.

Definition getNextSlot (clock : Z) (duration : DurationKey)
    : option LegacyActiveSlot.t :=
  let currentSlotNumber := getCurrentSlot tz clock duration in
  let config := SLOT_CONFIGURATIONS duration in
  let nextSlotNumber :=
    if currentSlotNumber =? intervals config then 1
    else currentSlotNumber + 1 in
  let slotTimes := getSlotTimes Berlin tz clock duration nextSlotNumber in
  match findSlotConfig slotConfigs duration nextSlotNumber with
  | None => None
  | Some slotConfig =>
      let now := getCurrentCESTTime Berlin clock in
      let timeUntilNext := start slotTimes - now in
      Some {| LegacyActiveSlot.slotNumber := SlotConfig.slotNumber slotConfig;
              LegacyActiveSlot.startTime := start slotTimes;
              LegacyActiveSlot.endTime := end_ slotTimes;
              LegacyActiveSlot.pointsIfCorrect :=
                SlotConfig.pointsIfCorrect slotConfig;
              LegacyActiveSlot.penaltyIfWrong :=
                SlotConfig.penaltyIfWrong slotConfig;
              LegacyActiveSlot.timeRemaining := Z.max 0 timeUntilNext |}
  end.

End LegacyQueries.

(** [getValidSlotsForDuration]: the loop runs [i] from the current slot's
    index to the last one; the times count from the start of today. *)
Definition getValidSlotsForDuration (Berlin : Luxon.Zone) (clock : Z)
    (duration : DurationKey) : list SlotInfo :=
  let now := Luxon.fromJSDate clock Berlin in
  let currentSlot := getSlotForDate Berlin (Luxon.toJSDate now) duration in
  let config := SLOT_CONFIGURATIONS duration in
  let first := slotNumber currentSlot - 1 in
  map (fun k =>
         let i := first + Z.of_nat k in
         let n := i + 1 in
         let slotStartMinutes := i * intervalDuration config in
         let slotEndMinutes := (i + 1) * intervalDuration config - 1 in
         let periodStart := Luxon.startOf now Luxon.UDay in
         let slotStart := Luxon.plusMinutes periodStart slotStartMinutes in
         let slotEnd := Luxon.plusMinutes periodStart slotEndMinutes in
         {| slotNumber := n;
            startTime := Luxon.toFormatHHmm slotStart;
            endTime := Luxon.toFormatHHmm slotEnd;
            pointsIfCorrect := pointsAt config i;
            penaltyIfWrong := penaltyFor (pointsAt config i);
            isActive := n =? slotNumber currentSlot |})
      (seq 0 (Z.to_nat (intervals config - first))).

(** [formatTimeRemaining], for a whole number of milliseconds. *)
Definition formatTimeRemaining (milliseconds : Z) : string :=
  if milliseconds <=? 0 then "Expired"%string
  else
    let seconds := milliseconds / 1000 in
    let minutes := seconds / 60 in
    let hours := minutes / 60 in
    let days := hours / 24 in
    if days >? 0 then
      (toString days ++ "d " ++ toString (Z.rem hours 24) ++ "h "
       ++ toString (Z.rem minutes 60) ++ "m")%string
    else if hours >? 0 then
      (toString hours ++ "h " ++ toString (Z.rem minutes 60) ++ "m "
       ++ toString (Z.rem seconds 60) ++ "s")%string
    else if minutes >? 0 then
      (toString minutes ++ "m " ++ toString (Z.rem seconds 60) ++ "s")%string
    else (toString seconds ++ "s")%string.

(* ================================================================== *)
(** * server/prediction-service.ts: the read side *)

Module SentimentData.
Record t := {
  slotNumber : Z;
  upCount : Z;
  downCount : Z;
  totalCount : Z
}.
End SentimentData.

(** A value of the map [slotData]. *)
Record Tally := { up : Z; down : Z }.

(** One turn of the [forEach]: the map keeps its keys in the order in which
    they were first set. *)
Definition countInSlot (slotData : list (Z * Tally)) (prediction : Prediction.t)
    : list (Z * Tally) :=
  let key := Prediction.slotNumber prediction in
  let slotData :=
    if existsb (fun e => fst e =? key) slotData then slotData
    else (slotData ++ [(key, {| up := 0; down := 0 |})])%list in
  map (fun e =>
         if fst e =? key then
           (fst e,
            match Prediction.direction prediction with
            | Up => {| up := up (snd e) + 1; down := down (snd e) |}
            | Down => {| up := up (snd e); down := down (snd e) + 1 |}
            end)
         else e)
      slotData.

(** [.sort((a, b) => a.slotNumber - b.slotNumber)] *)
Fixpoint insertSentiment (x : SentimentData.t) (l : list SentimentData.t)
    : list SentimentData.t :=
  match l with
  | [] => [x]
  | y :: l' =>
      if SentimentData.slotNumber x <=? SentimentData.slotNumber y
      then x :: l else y :: insertSentiment x l'
  end.

Definition sortBySlotNumber (l : list SentimentData.t) : list SentimentData.t :=
  fold_right insertSentiment [] l.

(** The predictions that [getSentimentData] reads. *)
Definition predictionsFor (aid : string) (duration : DurationKey) (db : Db)
    : list Prediction.t :=
  filter (fun p => (Prediction.assetId p =? aid)%string
                   && DurationKey_eqb (Prediction.duration p) duration)
         (predictions db).

Definition getSentimentData (assetSymbol : string) (duration : DurationKey)
    : M (list SentimentData.t) :=
  (asset <- findAssetBySymbol assetSymbol ;;
   match asset with
   | None => throw AssetNotFound
   | Some asset =>
       allPredictions <- query (predictionsFor (Asset.id asset) duration) ;;
       let slotData := fold_left countInSlot allPredictions [] in
       ret (sortBySlotNumber
              (map (fun e =>
                      {| SentimentData.slotNumber := fst e;
                         SentimentData.upCount := up (snd e);
                         SentimentData.downCount := down (snd e);
                         SentimentData.totalCount := up (snd e) + down (snd e) |})
                   slotData))
   end)%handler.

Definition getActivePredictionsCount (userId : string) : M Z :=
  query (fun db =>
           Z.of_nat (List.length
             (filter (fun p => (Prediction.userId p =? userId)%string
                               && isActiveStatus (Prediction.status p))
                     (predictions db)))).

(* ================================================================== *)
(** * Signs of binary64 numbers *)

(** A number above zero, as its binary64 datum. *)
Definition positiveSF (b : spec_float) : Prop :=
  match b with
  | S754_infinity false | S754_finite false _ _ => True
  | _ => False
  end.

(* ================================================================== *)
(** * Checking the calendar by computation *)

(** [f] holds on the 2^k integers from [lo] on. *)
Fixpoint holdsOnRange (k : nat) (lo : Z) (f : Z -> bool) : bool :=
  match k with
  | O => f lo
  | S k' => holdsOnRange k' lo f && holdsOnRange k' (lo + 2 ^ Z.of_nat k') f
  end.

(** For day [doe] of a 400-year era, the civil date found for it is a date
    and leads back to [doe]. *)
Definition eraDayOK (doe : Z) : bool :=
  (146097 <=? doe)
  || (let yoe := (doe - doe / 1460 + doe / 36524 - doe / 146096) / 365 in
      let doy := doe - (365 * yoe + yoe / 4 - yoe / 100) in
      let mp := (5 * doy + 2) / 153 in
      let d := doy - (153 * mp + 2) / 5 + 1 in
      let m := if mp <? 10 then mp + 3 else mp - 9 in
      (0 <=? yoe) && (yoe <? 400) && (1 <=? m) && (m <=? 12)
      && (1 <=? d) && (d <=? 31)
      && ((if m >? 2 then m - 3 else m + 9) =? mp)
      && (yoe * 365 + yoe / 4 - yoe / 100 + ((153 * mp + 2) / 5 + d - 1) =? doe)).

(** For year [i / 12] of a 400-year era and month [i mod 12] counted from
    March, the civil date found for the day number of the first of the month
    is that first of the month. *)
Definition firstDayOK (i : Z) : bool :=
  (4800 <=? i)
  || (let yoe := i / 12 in
      let mp := i mod 12 in
      let doe := yoe * 365 + yoe / 4 - yoe / 100 + (153 * mp + 2) / 5 in
      let yoe' := (doe - doe / 1460 + doe / 36524 - doe / 146096) / 365 in
      let doy' := doe - (365 * yoe' + yoe' / 4 - yoe' / 100) in
      let mp' := (5 * doy' + 2) / 153 in
      (0 <=? doe) && (doe <? 146097) && (yoe' =? yoe) && (mp' =? mp)
      && (doy' - (153 * mp' + 2) / 5 + 1 =? 1)).

(* ================================================================== *)
(** * Anchors of the legacy slot functions *)

(** Midnight, in the server's zone, of the local day of [t]. *)
Definition startOfLocalDay (tz : JSDate.TimeZone) (t : Z) : Z :=
  JSDate.UTC tz
    (JSDate.MakeDate (Calendar.Day (JSDate.LocalTime tz t)) 0).

(** Midnight, in the server's zone, of the Sunday on or before the local
    day of [t]. *)
Definition startOfLocalWeek (tz : JSDate.TimeZone) (t : Z) : Z :=
  let local := JSDate.LocalTime tz t in
  JSDate.UTC tz
    (JSDate.MakeDate (Calendar.Day local - JSDate.WeekDay local) 0).

(** The anchor and the slot length, in milliseconds, of [getSlotTimes] for
    the durations whose slots have a fixed length. *)
Definition legacyAnchor (tz : JSDate.TimeZone) (t : Z) (d : DurationKey) : Z :=
  match d with
  | D1w => startOfLocalWeek tz t
  | _ => startOfLocalDay tz t
  end.

Definition slotMillis (d : DurationKey) : Z :=
  intervalDuration (SLOT_CONFIGURATIONS d) * Calendar.msPerMinute.

Definition fixedLength (d : DurationKey) : bool :=
  match d with
  | D1h | D3h | D6h | D24h | D48h | D1w => true
  | _ => false
  end.

(** Midnight, in the server's zone, of the first day of month [k] of year
    [y]; [k] counts from 0 and runs on into the following years. *)
Definition firstOfMonth (tz : JSDate.TimeZone) (y k : Z) : Z :=
  JSDate.UTC tz (JSDate.MakeDate (JSDate.MakeDay y k 1) 0).

(* ================================================================== *)
(** * Shapes of the store that the properties speak about *)

(** [id] is the primary key of [predictions]. *)
Definition uniqueIds (db : Db) : Prop :=
  NoDup (map Prediction.id (predictions db)).

(** What one step may do to the status of a row: leave it, or move it from
    active to evaluated. *)
Definition statusStep (q q' : Prediction.t) : Prop :=
  Prediction.id q' = Prediction.id q
  /\ (Prediction.status q' = Prediction.status q
      \/ (Prediction.status q = Active /\ Prediction.status q' = Evaluated)).

(** At most one active prediction for each user, asset, duration, slot
    number and slot start. *)
Definition atMostOneActive (db : Db) : Prop :=
  forall uid aid d slot,
    (List.length
       (filter (fun p => sameSlotBooking uid aid d slot p
                         && isActiveStatus (Prediction.status p))
               (predictions db)) <= 1)%nat.

(** Everything of a row that an evaluation has no business with. *)
Definition sameBet (q q' : Prediction.t) : Prop :=
  Prediction.id q' = Prediction.id q
  /\ Prediction.userId q' = Prediction.userId q
  /\ Prediction.assetId q' = Prediction.assetId q
  /\ Prediction.direction q' = Prediction.direction q
  /\ Prediction.duration q' = Prediction.duration q
  /\ Prediction.slotNumber q' = Prediction.slotNumber q
  /\ Prediction.slotStart q' = Prediction.slotStart q
  /\ Prediction.slotEnd q' = Prediction.slotEnd q
  /\ Prediction.timestampCreated q' = Prediction.timestampCreated q
  /\ Prediction.timestampExpiration q' = Prediction.timestampExpiration q
  /\ Prediction.priceStart q' = Prediction.priceStart q.

(** The same, but for the entry price: what is left of a row when the
    columns an evaluation may write, and the entry price, are set aside. *)
Definition sameButPrice (q q' : Prediction.t) : Prop :=
  Prediction.id q' = Prediction.id q
  /\ Prediction.userId q' = Prediction.userId q
  /\ Prediction.assetId q' = Prediction.assetId q
  /\ Prediction.direction q' = Prediction.direction q
  /\ Prediction.duration q' = Prediction.duration q
  /\ Prediction.slotNumber q' = Prediction.slotNumber q
  /\ Prediction.slotStart q' = Prediction.slotStart q
  /\ Prediction.slotEnd q' = Prediction.slotEnd q
  /\ Prediction.timestampCreated q' = Prediction.timestampCreated q
  /\ Prediction.timestampExpiration q' = Prediction.timestampExpiration q.

(** The administrator's route answered 200. *)
Definition answeredOk (r : Routes.Response) : bool :=
  match r with
  | Routes.EvaluatedOk _ _ _ => true
  | _ => false
  end.

(** The [where] clause of the sweep: active, and expired before [now]. *)
Definition isDue (now : Z) (p : Prediction.t) : bool :=
  isActiveStatus (Prediction.status p)
  && (Prediction.timestampExpiration p <? now).

(** Nothing stands in the way of evaluating [p] at [now]: its asset is
    there, a usable price is quoted for it, it has an entry price, and its
    slot has points. *)
Definition evaluable (env : Env) (now : Z) (db : Db) (p : Prediction.t) : Prop :=
  exists a e s base,
    find (fun x => Asset.id x =? Prediction.assetId p)%string (assets db) = Some a
    /\ orElse (getLiveAssetPrice env now (Asset.symbol a))
              (getAssetPrice env now (Asset.symbol a)) = Some e
    /\ truthy (Some e) = true
    /\ Prediction.priceStart p = Some s
    /\ env_getPointsForSlot env (Prediction.duration p)
         (Prediction.slotNumber p) = Some base.

(** The profile of [uid], or the one a new user starts from. *)
Definition profileOf (uid : string) (db : Db) : UserProfile.t :=
  match find (fun u => UserProfile.userId u =? uid)%string (userProfiles db) with
  | Some u => u
  | None => {| UserProfile.userId := uid;
               UserProfile.totalPredictions := 0;
               UserProfile.correctPredictions := 0;
               UserProfile.monthlyScore := 0;
               UserProfile.totalScore := 0 |}
  end.

(** The number of predictions in [ps] that call [dir]. *)
Definition calls (dir : Direction) (ps : list Prediction.t) : Z :=
  Z.of_nat (List.length
    (filter (fun p => match Prediction.direction p, dir with
                      | Up, Up | Down, Down => true
                      | _, _ => false
                      end) ps)).

(* ================================================================== *)
(** * A small world to run the handlers in *)

Module Scenario.
Open Scope string_scope.

Definition alice : User.t := {| User.id := "alice"; User.emailVerified := true |}.

Definition btc : Asset.t :=
  {| Asset.id := "asset-btc"; Asset.symbol := "BTC"; Asset.isActive := true |}.

(** A price service that quotes [price] live for every symbol. *)
Definition quoting (price : float) : Env :=
  Slots.env Luxon.EuropeBerlin (fun _ _ => Some price) (fun _ _ => None).

(** An active bet of alice on BTC. *)
Definition bet (pid : string) (d : DurationKey) (n : Z) (dir : Direction)
    (price : float) (slotStart slotEnd : Z) : Prediction.t :=
  {| Prediction.id := pid;
     Prediction.userId := "alice";
     Prediction.assetId := "asset-btc";
     Prediction.direction := dir;
     Prediction.duration := d;
     Prediction.slotNumber := n;
     Prediction.slotStart := slotStart;
     Prediction.slotEnd := slotEnd;
     Prediction.timestampCreated := slotStart;
     Prediction.timestampExpiration := slotEnd;
     Prediction.status := Active;
     Prediction.result := Pending;
     Prediction.pointsAwarded := None;
     Prediction.priceStart := Some price;
     Prediction.priceEnd := None;
     Prediction.evaluatedAt := None |}.

Definition profile (total correct monthly score : Z) : UserProfile.t :=
  {| UserProfile.userId := "alice";
     UserProfile.totalPredictions := total;
     UserProfile.correctPredictions := correct;
     UserProfile.monthlyScore := monthly;
     UserProfile.totalScore := score |}.

Definition world (ps : list Prediction.t) (us : list UserProfile.t) : Db :=
  {| users := [alice]; assets := [btc]; predictions := ps;
     userProfiles := us |}.

(** 2024-01-15 00:00:00 in Berlin (CET), as epoch milliseconds. *)
Definition midnight : Z := 1705273200000.
Definition minutes (n : Z) : Z := n * 60000.

(** A bet on the first quarter of an hour of that day, entered at 100. *)
Definition hourBet (dir : Direction) : Prediction.t :=
  bet "p1" D1h 1 dir 100 midnight (midnight + minutes 15 - 1).

(** Alice asks for a bet on BTC going up. *)
Definition request (d : DurationKey) : CreatePredictionInput.t :=
  {| CreatePredictionInput.userId := "alice";
     CreatePredictionInput.assetSymbol := "BTC";
     CreatePredictionInput.direction := Up;
     CreatePredictionInput.duration := d |}.

(** A server whose own zone is UTC+1 all year. *)
Definition serverZone : JSDate.TimeZone := JSDate.fixedZone 60.

(** Wednesday 2024-01-17 12:00:00 in Berlin; the 15th is a Monday. *)
Definition wednesdayNoon : Z := midnight + minutes (2 * 1440 + 720).

(** A bet on the last three hours of that day. *)
Definition dayBet (dir : Direction) : Prediction.t :=
  bet "p8" D24h 8 dir 100 (midnight + minutes (7 * 180))
      (midnight + minutes (8 * 180) - 1).

(** A server that runs with TZ=Europe/Berlin. The offset in force at an
    instant is the one that luxon has for the zone. Of a local time that the
    clocks show twice the earlier instant is meant, and a local time that
    the clocks skip is read with the offset from before the change, as the
    language definition has it. *)
Definition berlinServer : JSDate.TimeZone :=
  {| JSDate.utcOffsetAt :=
       fun t => (Luxon.EuropeBerlin t * Calendar.msPerMinute)%Z;
     JSDate.localOffsetAt :=
       fun l =>
         if (Luxon.EuropeBerlin (l - 120 * Calendar.msPerMinute) =? 120)%Z
         then (120 * Calendar.msPerMinute)%Z
         else (60 * Calendar.msPerMinute)%Z |}.

(** 2024-03-31 00:00:00 in Berlin; the clocks go from 02:00 to 03:00 that
    day. *)
Definition springForward : Z := 1711839600000.

End Scenario.

(* ================================================================== *)
(** * Properties *)

(** ** Facts about binary64 comparison and sign *)

Section FloatFacts.
Open Scope float_scope.

Lemma SFcompare_Eq_sym a b :
  SFcompare a b = Some Eq -> SFcompare b a = Some Eq.
Proof.
  destruct a as [sa|sa| |sa ma ea], b as [sb|sb| |sb mb eb]; simpl;
    try discriminate; try reflexivity;
    try (destruct sa; discriminate); try (destruct sb; discriminate).
  - destruct sa, sb; try discriminate; reflexivity.
  - destruct sa, sb; try discriminate.
    + destruct (Z.compare ea eb) eqn:He; try discriminate.
      apply Z.compare_eq in He; subst eb. rewrite Z.compare_refl.
      intros H. injection H as H.
      destruct (Pos.compare_cont Eq ma mb) eqn:Hm; try discriminate.
      apply Pos.compare_eq in Hm; subst mb.
      change (Pos.compare_cont Eq ma ma) with (Pos.compare ma ma).
      rewrite Pos.compare_refl. reflexivity.
    + destruct (Z.compare ea eb) eqn:He; try discriminate.
      apply Z.compare_eq in He; subst eb. rewrite Z.compare_refl.
      intros H. injection H as H.
      apply Pos.compare_eq in H; subst mb.
      change (Pos.compare_cont Eq ma ma) with (Pos.compare ma ma).
      rewrite Pos.compare_refl. reflexivity.
Qed.

(** Two numbers that [===] holds equal are not in the relation [<],
    either way round. *)
Lemma eqb_not_ltb (x y : float) :
  (x =? y) = true -> (x <? y) = false /\ (y <? x) = false.
Proof.
  rewrite eqb_spec, !ltb_spec. unfold SFeqb, SFltb. intros H.
  destruct (SFcompare (Prim2SF x) (Prim2SF y)) as [[| |]|] eqn:Hc;
    try discriminate.
  rewrite (SFcompare_Eq_sym _ _ Hc). split; reflexivity.
Qed.

Lemma SFabs_round_aux prec emax s m e l :
  SFabs (binary_round_aux prec emax s m e l)
  = binary_round_aux prec emax false m e l.
Proof.
  unfold binary_round_aux.
  destruct (shr_fexp prec emax m e l) as [mrs' e'].
  destruct (shr_fexp prec emax _ e' loc_Exact) as [mrs'' e''].
  destruct (shr_m mrs''); try reflexivity.
  destruct (e'' <=? emax - prec)%Z; reflexivity.
Qed.

Lemma positive_of_ltb (s : float) : (0 <? s) = true -> positiveSF (Prim2SF s).
Proof.
  rewrite ltb_spec. unfold SFltb.
  destruct (Prim2SF s) as [sg|sg| |sg m e]; cbn; try discriminate;
    destruct sg; cbn; try discriminate; exact (fun _ => I).
Qed.

Lemma SFabs_div prec emax a b :
  positiveSF b ->
  SFabs (SFdiv prec emax a b) = SFdiv prec emax (SFabs a) b.
Proof.
  destruct b as [sb|sb| |sb mb eb]; cbn; try contradiction;
    destruct sb; try contradiction; intros _;
    destruct a as [sa|sa| |sa ma ea]; cbn; try reflexivity.
  destruct (SFdiv_core_binary prec emax (Z.pos ma) ea (Z.pos mb) eb)
    as [[mz ez] lz].
  rewrite SFabs_round_aux. destruct sa; reflexivity.
Qed.

Lemma SFabs_mul prec emax a b :
  positiveSF b ->
  SFabs (SFmul prec emax a b) = SFmul prec emax (SFabs a) b.
Proof.
  destruct b as [sb|sb| |sb mb eb]; cbn; try contradiction;
    destruct sb; try contradiction; intros _;
    destruct a as [sa|sa| |sa ma ea]; cbn; try reflexivity.
  rewrite SFabs_round_aux. destruct sa; reflexivity.
Qed.

(** For a positive start price, the absolute value of the percentage
    change is the percentage of the absolute change. *)
Lemma abs_percent (x s : float) :
  (0 <? s) = true -> abs (x / s * 100) = abs x / s * 100.
Proof.
  intros Hs. apply Prim2SF_inj.
  rewrite abs_spec, !mul_spec, !div_spec, abs_spec.
  unfold SF64mul, SF64div.
  rewrite SFabs_mul by (apply positive_of_ltb; reflexivity).
  rewrite SFabs_div by (apply positive_of_ltb; exact Hs).
  reflexivity.
Qed.

End FloatFacts.

(** ** The evaluator, step by step *)

Section EvaluatorFacts.
Variable env : Env.
Open Scope string_scope.

Lemma fetchPrice_db now sym e db :
  snd (fetchPrice env now sym e db) = db.
Proof.
  unfold fetchPrice, bind, when_, throw, ret.
  destruct (negb (truthy (getLiveAssetPrice env now sym))
            && negb (truthy (getAssetPrice env now sym))); cbv beta iota;
    auto.
  destruct (orElse _ _) as [price|] eqn:Ho; cbv beta iota; auto.
  destruct (truthy (Some price)); reflexivity.
Qed.

Lemma fetchPrice_returned now sym e db price db' :
  fetchPrice env now sym e db = (Returned price, db') ->
  db' = db
  /\ orElse (getLiveAssetPrice env now sym) (getAssetPrice env now sym)
     = Some price
  /\ truthy (Some price) = true.
Proof.
  intros H. pose proof (fetchPrice_db now sym e db) as Hdb.
  rewrite H in Hdb. simpl in Hdb. split; [exact Hdb|].
  revert H. unfold fetchPrice, bind, when_, throw, ret.
  destruct (negb (truthy (getLiveAssetPrice env now sym))
            && negb (truthy (getAssetPrice env now sym))); cbv beta iota;
    [discriminate|].
  destruct (orElse _ _) as [q|] eqn:Ho; cbv beta iota; [|discriminate].
  destruct (truthy (Some q)) eqn:Ht; [|discriminate].
  intros H. injection H as H _. subst q. split; [reflexivity | exact Ht].
Qed.

Lemma fetchPrice_thrown now sym e db err db' :
  fetchPrice env now sym e db = (Thrown err, db') -> err = e /\ db' = db.
Proof.
  intros H. pose proof (fetchPrice_db now sym e db) as Hdb.
  rewrite H in Hdb. simpl in Hdb. split; [|exact Hdb].
  revert H. unfold fetchPrice, bind, when_, throw, ret.
  destruct (negb (truthy (getLiveAssetPrice env now sym))
            && negb (truthy (getAssetPrice env now sym))); cbv beta iota;
    [congruence|].
  destruct (orElse _ _) as [q|] eqn:Ho; cbv beta iota; [|congruence].
  destruct (truthy (Some q)); congruence.
Qed.

(** Everything a returning evaluation went through. *)
Lemma evaluatePrediction_returned now pid db out db' :
  evaluatePrediction env now pid db = (Returned out, db') ->
  exists p a e s base,
    find (fun q => Prediction.id q =? pid) (predictions db) = Some p
    /\ Prediction.status p = Active
    /\ find (fun x => Asset.id x =? Prediction.assetId p) (assets db) = Some a
    /\ orElse (getLiveAssetPrice env now (Asset.symbol a))
              (getAssetPrice env now (Asset.symbol a)) = Some e
    /\ truthy (Some e) = true
    /\ Prediction.priceStart p = Some s
    /\ env_getPointsForSlot env (Prediction.duration p)
         (Prediction.slotNumber p) = Some base
    /\ out = {| Evaluation.predictionId := pid;
                Evaluation.isCorrect := judge (Prediction.direction p) e s;
                Evaluation.pointsAwarded :=
                  awardPoints base (judge (Prediction.direction p) e s) e s;
                Evaluation.startPrice := s;
                Evaluation.endPrice := e |}
    /\ db' = snd (creditProfile (Prediction.userId p)
                    (judge (Prediction.direction p) e s)
                    (awardPoints base (judge (Prediction.direction p) e s) e s)
                    (withPredictions db
                       (evaluatedRows now pid
                          (judge (Prediction.direction p) e s)
                          (awardPoints base
                             (judge (Prediction.direction p) e s) e s)
                          e (predictions db)))).
Proof.
  unfold evaluatePrediction, bind at 1, findPrediction, query.
  destruct (find _ (predictions db)) as [p|] eqn:Hp; [|discriminate].
  unfold bind at 1, when_.
  destruct (Prediction.status p) eqn:Hst; simpl; try discriminate.
  unfold bind at 1, findAssetById, query.
  destruct (find _ (assets db)) as [a|] eqn:Ha; [|discriminate].
  unfold bind at 1.
  destruct (fetchPrice env now (Asset.symbol a) EndPriceUnavailable db)
    as [[e|err] db1] eqn:Hf; [|discriminate].
  apply fetchPrice_returned in Hf. destruct Hf as (-> & Ho & Ht).
  destruct (Prediction.priceStart p) as [s|] eqn:Hs; [|discriminate].
  destruct (env_getPointsForSlot env _ _) as [base|] eqn:Hb; [|discriminate].
  unfold bind at 1, modify. unfold bind at 1.
  set (db2 := withPredictions db _).
  destruct (creditProfile _ _ _ db2) as [[u|err] db3] eqn:Hc;
    [|discriminate].
  unfold ret. intros H. injection H as <- <-.
  exists p, a, e, s, base. repeat split; auto.
  fold db2. rewrite Hc. reflexivity.
Qed.

(** A profile is never the reason for a failure. *)
Lemma creditProfile_returns uid c pts db :
  exists db', creditProfile uid c pts db = (Returned tt, db').
Proof.
  unfold creditProfile, bind, findProfile, query, modify, ret.
  destruct (find _ (userProfiles db)); eexists; reflexivity.
Qed.

End EvaluatorFacts.

(** ** Scoring *)

(** C1: a prediction that [evaluatePrediction] evaluates is correct exactly
    when it called up and the settlement price is above the entry price, or
    called down and it is below; equal prices are incorrect either way. A
    correct prediction is awarded the base points of its slot plus 10, 5, 2
    or 0 according to the tightest of the bands 0.1, 0.5, 1.0 (each
    inclusive) that holds the absolute percentage change, which for a
    positive entry price is |end - start| / start * 100. For 1h, slot 1,
    entry 100 and settlement 100.05, an up call is awarded 20. *)
Theorem evaluatePrediction_scoring :
  (forall env now pid db out,
     fst (evaluatePrediction env now pid db) = Returned out ->
     exists p base,
       find (fun q => Prediction.id q =? pid)%string (predictions db) = Some p
       /\ Prediction.priceStart p = Some (Evaluation.startPrice out)
       /\ env_getPointsForSlot env (Prediction.duration p)
            (Prediction.slotNumber p) = Some base
       /\ let s := Evaluation.startPrice out in
          let e := Evaluation.endPrice out in
          let pct := priceChangePercent e s in
          (Evaluation.isCorrect out = true <->
             (Prediction.direction p = Up /\ (s <? e)%float = true)
             \/ (Prediction.direction p = Down /\ (e <? s)%float = true))
          /\ ((e =? s)%float = true -> Evaluation.isCorrect out = false)
          /\ ((0 <? s)%float = true -> pct = (abs (e - s) / s * 100)%float)
          /\ (Evaluation.isCorrect out = true ->
              Evaluation.pointsAwarded out
              = base + (if (pct <=? 0.1)%float then 10
                        else if (pct <=? 0.5)%float then 5
                        else if (pct <=? 1.0)%float then 2
                        else 0)))
  /\ (getPointsForSlot D1h 1 = 10
      /\ fst (evaluatePrediction (Scenario.quoting 100.05)
                (Scenario.midnight + Scenario.minutes 15) "p1"
                (Scenario.world [Scenario.hourBet Up] []))
         = Returned {| Evaluation.predictionId := "p1";
                       Evaluation.isCorrect := true;
                       Evaluation.pointsAwarded := 20;
                       Evaluation.startPrice := 100;
                       Evaluation.endPrice := 100.05 |}).
Proof.
  split; [|split; vm_compute; reflexivity].
  intros env now pid db out H.
  destruct (evaluatePrediction env now pid db) as [r db'] eqn:E.
  simpl in H. subst r.
  apply evaluatePrediction_returned in E.
  destruct E as (p & a & e & s & base & Hp & _ & _ & _ & _ & Hs & Hb & -> & _).
  exists p, base. cbn [Evaluation.startPrice Evaluation.endPrice
                        Evaluation.isCorrect Evaluation.pointsAwarded].
  repeat split; auto.
  - unfold judge. destruct (Prediction.direction p); intros H; auto.
  - unfold judge.
    intros [[Hd H]|[Hd H]]; rewrite Hd; try exact H.
  - intros H. apply eqb_not_ltb in H. destruct H as [H1 H2].
    unfold judge. destruct (Prediction.direction p); assumption.
  - intros H. unfold priceChangePercent. apply abs_percent. exact H.
  - intros H. rewrite H. unfold awardPoints.
    destruct (priceChangePercent e s <=? 0.1)%float; [reflexivity|].
    destruct (priceChangePercent e s <=? 0.5)%float; [reflexivity|].
    destruct (priceChangePercent e s <=? 1.0)%float; [reflexivity|].
    lia.
Qed.

(** The 1h bet entered at 100 and settled at 100.05, through the theorem. *)
Lemma evaluatePrediction_scoring_witness :
  exists p base,
    find (fun q => Prediction.id q =? "p1")%string [Scenario.hourBet Up] = Some p
    /\ Prediction.priceStart p = Some 100%float
    /\ Slots.getPointsForSlot (Prediction.duration p) (Prediction.slotNumber p)
       = Some base
    /\ (true = true <->
          (Prediction.direction p = Up /\ (100 <? 100.05)%float = true)
          \/ (Prediction.direction p = Down /\ (100.05 <? 100)%float = true))
    /\ ((100.05 =? 100)%float = true -> true = false)
    /\ ((0 <? 100)%float = true ->
        priceChangePercent 100.05 100 = (abs (100.05 - 100) / 100 * 100)%float)
    /\ (true = true ->
        20 = base + (if (priceChangePercent 100.05 100 <=? 0.1)%float then 10
                     else if (priceChangePercent 100.05 100 <=? 0.5)%float then 5
                     else if (priceChangePercent 100.05 100 <=? 1.0)%float then 2
                     else 0)).
Proof.
  exact (proj1 evaluatePrediction_scoring (Scenario.quoting 100.05)
           (Scenario.midnight + Scenario.minutes 15) "p1"%string
           (Scenario.world [Scenario.hourBet Up] [])
           {| Evaluation.predictionId := "p1";
              Evaluation.isCorrect := true;
              Evaluation.pointsAwarded := 20;
              Evaluation.startPrice := 100;
              Evaluation.endPrice := 100.05 |}
           eq_refl).
Defined.

Lemma getPointsForSlot_in_range d i :
  1 <= i <= intervals (SLOT_CONFIGURATIONS d) ->
  getPointsForSlot d i = nth (Z.to_nat (i - 1)) (points (SLOT_CONFIGURATIONS d)) 0
  /\ 1 <= getPointsForSlot d i.
Proof.
  intros Hi.
  assert (Hcases : i = 1 \/ i = 2 \/ i = 3 \/ i = 4 \/ i = 5 \/ i = 6
                   \/ i = 7 \/ i = 8).
  { destruct d; cbn in Hi; lia. }
  destruct d; cbn in Hi;
    repeat (destruct Hcases as [-> | Hcases]); try subst i;
    try lia; (split; [reflexivity | vm_compute; discriminate]).
Qed.

(** C2: an incorrect prediction is awarded minus max(1, floor(base/2)),
    base being the points of its slot, and that is never zero. The points of
    every slot of the catalog are positive and the penalty shown with a slot
    follows the same rule. For 24h, slot 8 (1 point), the award is -1. *)
Theorem incorrect_prediction_penalty :
  (forall env now pid db out,
     fst (evaluatePrediction env now pid db) = Returned out ->
     Evaluation.isCorrect out = false ->
     exists p base,
       find (fun q => Prediction.id q =? pid)%string (predictions db) = Some p
       /\ env_getPointsForSlot env (Prediction.duration p)
            (Prediction.slotNumber p) = Some base
       /\ Evaluation.pointsAwarded out = - Z.max 1 (base / 2)
       /\ Evaluation.pointsAwarded out <= -1)
  /\ (forall d i,
        1 <= i <= intervals (SLOT_CONFIGURATIONS d) ->
        getPointsForSlot d i
        = nth (Z.to_nat (i - 1)) (points (SLOT_CONFIGURATIONS d)) 0
        /\ penaltyFor (getPointsForSlot d i) = Z.max 1 (getPointsForSlot d i / 2)
        /\ 1 <= penaltyFor (getPointsForSlot d i))
  /\ (forall Berlin date d,
        let slot := getSlotForDate Berlin date d in
        penaltyIfWrong slot = Z.max 1 (pointsIfCorrect slot / 2)
        /\ 1 <= penaltyIfWrong slot)
  /\ (getPointsForSlot D24h 8 = 1
      /\ fst (evaluatePrediction (Scenario.quoting 99)
                (Scenario.midnight + Scenario.minutes 1440) "p8"
                (Scenario.world [Scenario.dayBet Up] []))
         = Returned {| Evaluation.predictionId := "p8";
                       Evaluation.isCorrect := false;
                       Evaluation.pointsAwarded := -1;
                       Evaluation.startPrice := 100;
                       Evaluation.endPrice := 99 |}).
Proof.
  split; [|split; [|split; [|split; vm_compute; reflexivity]]].
  - intros env now pid db out H Hwrong.
    destruct (evaluatePrediction env now pid db) as [r db'] eqn:E.
    simpl in H. subst r.
    apply evaluatePrediction_returned in E.
    destruct E as (p & a & e & s & base & Hp & _ & _ & _ & _ & _ & Hb & -> & _).
    cbn [Evaluation.isCorrect] in Hwrong.
    exists p, base. cbn [Evaluation.pointsAwarded].
    rewrite Hwrong. unfold awardPoints. repeat split; auto; lia.
  - intros d i Hi. destruct (getPointsForSlot_in_range d i Hi) as [H1 H2].
    unfold penaltyFor. repeat split; auto; lia.
  - intros Berlin date d slot. subst slot. unfold getSlotForDate.
    cbn [penaltyIfWrong pointsIfCorrect]. unfold penaltyFor. split; lia.
Qed.

(** The 24h bet in slot 8 settled against its call, through the theorem. *)
Lemma incorrect_prediction_penalty_witness :
  exists p base,
    find (fun q => Prediction.id q =? "p8")%string [Scenario.dayBet Up] = Some p
    /\ Slots.getPointsForSlot (Prediction.duration p) (Prediction.slotNumber p)
       = Some base
    /\ -1 = - Z.max 1 (base / 2)
    /\ -1 <= -1.
Proof.
  exact (proj1 incorrect_prediction_penalty (Scenario.quoting 99)
           (Scenario.midnight + Scenario.minutes 1440) "p8"%string
           (Scenario.world [Scenario.dayBet Up] [])
           {| Evaluation.predictionId := "p8";
              Evaluation.isCorrect := false;
              Evaluation.pointsAwarded := -1;
              Evaluation.startPrice := 100;
              Evaluation.endPrice := 99 |}
           eq_refl eq_refl).
Defined.

(** ** The state machine of a prediction *)

Section LifeCycleFacts.
Variable env : Env.
Open Scope string_scope.

Lemma evaluatePrediction_thrown now pid db err db' :
  evaluatePrediction env now pid db = (Thrown err, db') -> db' = db.
Proof.
  unfold evaluatePrediction, bind at 1, findPrediction, query.
  destruct (find _ (predictions db)) as [p|] eqn:Hp;
    [|unfold throw; congruence].
  unfold bind at 1, when_.
  destruct (Prediction.status p) eqn:Hst; cbn [isActiveStatus negb];
    try (unfold throw; congruence).
  unfold ret at 1. unfold bind at 1, findAssetById, query.
  destruct (find _ (assets db)) as [a|] eqn:Ha; [|unfold throw; congruence].
  unfold bind at 1.
  destruct (fetchPrice env now (Asset.symbol a) EndPriceUnavailable db)
    as [[e|err'] db1] eqn:Hf.
  - apply fetchPrice_returned in Hf. destruct Hf as (-> & _ & _).
    destruct (Prediction.priceStart p) as [s|];
      [|unfold throw; congruence].
    destruct (env_getPointsForSlot env _ _) as [base|];
      [|unfold throw; congruence].
    unfold bind at 1, modify. unfold bind at 1.
    match goal with
    | |- context [creditProfile ?u ?c ?pts ?d] =>
        destruct (creditProfile_returns u c pts d) as [db3 Hc]; rewrite Hc
    end.
    unfold ret. discriminate.
  - apply fetchPrice_thrown in Hf. destruct Hf as [_ ->]. congruence.
Qed.

Lemma creditProfile_predictions uid c pts db :
  predictions (snd (creditProfile uid c pts db)) = predictions db.
Proof.
  unfold creditProfile, bind, findProfile, query, modify, ret.
  destruct (find _ (userProfiles db)); reflexivity.
Qed.

Lemma find_evaluatedRows now pid c pts e ps p :
  find (fun q => Prediction.id q =? pid) ps = Some p ->
  find (fun q => Prediction.id q =? pid) (evaluatedRows now pid c pts e ps)
  = Some (markEvaluated p c pts e now).
Proof.
  induction ps as [|q ps IH]; simpl; [discriminate|].
  destruct (Prediction.id q =? pid) eqn:Hq.
  - intros H. injection H as <-. simpl. rewrite Hq. reflexivity.
  - intros H. rewrite Hq. apply IH. exact H.
Qed.

(** With a primary key, the row found by its key is the only one. *)
Lemma unique_row pid ps p q :
  NoDup (map Prediction.id ps) ->
  find (fun r => Prediction.id r =? pid) ps = Some p ->
  In q ps -> Prediction.id q = pid -> q = p.
Proof.
  induction ps as [|r ps IH]; simpl; [discriminate|].
  intros Hnd Hf Hin Hid. inversion Hnd as [|x l Hnotin Hnd']; subst.
  destruct (Prediction.id r =? Prediction.id q) eqn:Hr.
  - injection Hf as <-. destruct Hin as [->|Hin]; [reflexivity|].
    apply String.eqb_eq in Hr. exfalso. apply Hnotin. rewrite Hr.
    apply in_map. exact Hin.
  - destruct Hin as [->|Hin].
    + rewrite String.eqb_refl in Hr. discriminate.
    + apply IH; auto.
Qed.

Lemma evaluatedRows_step now pid c pts e ps p :
  NoDup (map Prediction.id ps) ->
  find (fun r => Prediction.id r =? pid) ps = Some p ->
  Prediction.status p = Active ->
  Forall2 statusStep ps (evaluatedRows now pid c pts e ps).
Proof.
  intros Hnd Hf Hact.
  assert (Hall : forall q, In q ps -> Prediction.id q = pid -> q = p)
    by (intros q; apply unique_row; assumption).
  clear Hf Hnd. induction ps as [|q ps IH]; simpl; constructor.
  - destruct (Prediction.id q =? pid) eqn:Hq.
    + apply String.eqb_eq in Hq.
      rewrite (Hall q (or_introl eq_refl) Hq).
      split; [reflexivity | right; split; [exact Hact | reflexivity]].
    + split; [reflexivity | left; reflexivity].
  - apply IH. intros r Hr. apply Hall. right. exact Hr.
Qed.

Lemma statusStep_refl ps : Forall2 statusStep ps ps.
Proof.
  induction ps; constructor; auto.
  split; [reflexivity | left; reflexivity].
Qed.

End LifeCycleFacts.

(** C7: [evaluatePrediction] refuses a prediction that is not active with
    "Prediction is not active" and leaves the database as it was; whatever
    it does, every row keeps its status or moves from active to evaluated
    ([id] being the primary key of the table); and after one evaluation a
    second one is refused and changes neither the prediction nor the user's
    scores. *)
Theorem evaluatePrediction_not_active :
  (forall env now pid db p,
     find (fun q => Prediction.id q =? pid)%string (predictions db) = Some p ->
     Prediction.status p <> Active ->
     evaluatePrediction env now pid db = (Thrown PredictionNotActive, db))
  /\ (forall env now pid db,
        uniqueIds db ->
        Forall2 statusStep (predictions db)
          (predictions (snd (evaluatePrediction env now pid db))))
  /\ (forall env now pid db out env' now',
        fst (evaluatePrediction env now pid db) = Returned out ->
        let db' := snd (evaluatePrediction env now pid db) in
        evaluatePrediction env' now' pid db' = (Thrown PredictionNotActive, db')).
Proof.
  split; [|split].
  - intros env now pid db p Hp Hst.
    unfold evaluatePrediction, bind at 1, findPrediction, query. rewrite Hp.
    unfold bind at 1, when_.
    destruct (Prediction.status p); try reflexivity. congruence.
  - intros env now pid db Hu.
    destruct (evaluatePrediction env now pid db) as [[out|err] db'] eqn:E.
    + apply evaluatePrediction_returned in E.
      destruct E as (p & a & e & s & base & Hp & Hst & _ & _ & _ & _ & _ & _ & ->).
      cbn [snd]. rewrite creditProfile_predictions. cbn [predictions withPredictions].
      eapply evaluatedRows_step; eauto.
    + apply evaluatePrediction_thrown in E. subst db'. cbn [snd].
      apply statusStep_refl.
  - intros env now pid db out env' now' H db'. subst db'.
    destruct (evaluatePrediction env now pid db) as [r db'] eqn:E.
    cbn [fst] in H. subst r. cbn [snd].
    apply evaluatePrediction_returned in E.
    destruct E as (p & a & e & s & base & Hp & Hst & _ & _ & _ & _ & _ & _ & ->).
    unfold evaluatePrediction at 1, bind at 1, findPrediction, query.
    rewrite creditProfile_predictions. cbn [predictions withPredictions].
    rewrite (find_evaluatedRows _ _ _ _ _ _ _ Hp).
    reflexivity.
Qed.

(** One evaluation of the 1h bet, then a second one a minute later. *)
Lemma evaluatePrediction_not_active_witness :
  let db := Scenario.world [Scenario.hourBet Up] [Scenario.profile 1 0 0 0] in
  let db' := snd (evaluatePrediction (Scenario.quoting 100.05)
                    (Scenario.midnight + Scenario.minutes 15) "p1" db) in
  evaluatePrediction (Scenario.quoting 99)
    (Scenario.midnight + Scenario.minutes 16) "p1" db'
  = (Thrown PredictionNotActive, db')
  /\ Forall2 statusStep (predictions db) (predictions db').
Proof.
  split.
  - exact (proj2 (proj2 evaluatePrediction_not_active)
             (Scenario.quoting 100.05)
             (Scenario.midnight + Scenario.minutes 15) "p1"%string
             (Scenario.world [Scenario.hourBet Up] [Scenario.profile 1 0 0 0])
             {| Evaluation.predictionId := "p1";
                Evaluation.isCorrect := true;
                Evaluation.pointsAwarded := 20;
                Evaluation.startPrice := 100;
                Evaluation.endPrice := 100.05 |}
             (Scenario.quoting 99)
             (Scenario.midnight + Scenario.minutes 16) eq_refl).
  - apply (proj1 (proj2 evaluatePrediction_not_active)).
    unfold uniqueIds. simpl. constructor; [intros [] | constructor].
Defined.

(** ** What an evaluation writes *)

Section FrameFacts.
Variable env : Env.
Open Scope string_scope.

Lemma fetchPrice_runs now sym err db e :
  orElse (getLiveAssetPrice env now sym) (getAssetPrice env now sym) = Some e ->
  truthy (Some e) = true ->
  fetchPrice env now sym err db = (Returned e, db).
Proof.
  intros Ho Ht. unfold fetchPrice, bind, when_.
  destruct (truthy (getLiveAssetPrice env now sym)) eqn:Hl.
  - cbn [negb andb]. unfold ret at 1. cbv beta iota.
    rewrite Ho, Ht. reflexivity.
  - unfold orElse in Ho. rewrite Hl in Ho. rewrite Ho, Ht.
    cbn [negb andb]. unfold ret at 1. cbv beta iota.
    unfold orElse. rewrite Hl, Ht. reflexivity.
Qed.

(** The converse of [evaluatePrediction_returned]. *)
Lemma evaluatePrediction_runs now pid db p a e s base :
  find (fun q => Prediction.id q =? pid) (predictions db) = Some p ->
  Prediction.status p = Active ->
  find (fun x => Asset.id x =? Prediction.assetId p) (assets db) = Some a ->
  orElse (getLiveAssetPrice env now (Asset.symbol a))
         (getAssetPrice env now (Asset.symbol a)) = Some e ->
  truthy (Some e) = true ->
  Prediction.priceStart p = Some s ->
  env_getPointsForSlot env (Prediction.duration p) (Prediction.slotNumber p)
  = Some base ->
  let c := judge (Prediction.direction p) e s in
  let pts := awardPoints base c e s in
  evaluatePrediction env now pid db
  = (Returned {| Evaluation.predictionId := pid;
                 Evaluation.isCorrect := c;
                 Evaluation.pointsAwarded := pts;
                 Evaluation.startPrice := s;
                 Evaluation.endPrice := e |},
     snd (creditProfile (Prediction.userId p) c pts
            (withPredictions db
               (evaluatedRows now pid c pts e (predictions db))))).
Proof.
  intros Hp Hst Ha Ho Ht Hs Hb c pts.
  unfold evaluatePrediction, bind at 1, findPrediction, query. rewrite Hp.
  unfold bind at 1, when_. rewrite Hst. cbn [isActiveStatus negb].
  unfold ret at 1. unfold bind at 1, findAssetById, query. rewrite Ha.
  unfold bind at 1. rewrite (fetchPrice_runs _ _ _ _ _ Ho Ht).
  rewrite Hs, Hb. unfold bind at 1, modify. unfold bind at 1.
  fold c. fold pts.
  match goal with
  | |- context [creditProfile ?u ?c ?pts ?d] =>
      destruct (creditProfile_returns u c pts d) as [db3 Hc]; rewrite Hc
  end.
  reflexivity.
Qed.

Lemma evaluatedRows_frame now pid c pts e ps :
  Forall2 sameBet ps (evaluatedRows now pid c pts e ps).
Proof.
  induction ps as [|q ps IH]; simpl; constructor; auto.
  destruct (Prediction.id q =? pid); repeat split; reflexivity.
Qed.

Lemma sameBet_refl ps : Forall2 sameBet ps ps.
Proof. induction ps; constructor; auto. repeat split; reflexivity. Qed.

Lemma sameBet_trans ps qs rs :
  Forall2 sameBet ps qs -> Forall2 sameBet qs rs -> Forall2 sameBet ps rs.
Proof.
  intros H. revert rs. induction H as [|p q ps qs Hpq _ IH]; intros rs Hr;
    inversion Hr as [|q' r qs' rs' Hqr Hrest]; subst; constructor.
  - unfold sameBet in *. intuition congruence.
  - apply IH. exact Hrest.
Qed.

Lemma evaluatePrediction_frame now pid db :
  Forall2 sameBet (predictions db)
    (predictions (snd (evaluatePrediction env now pid db))).
Proof.
  destruct (evaluatePrediction env now pid db) as [[out|err] db'] eqn:E.
  - apply evaluatePrediction_returned in E.
    destruct E as (p & a & e & s & base & _ & _ & _ & _ & _ & _ & _ & _ & ->).
    cbn [snd]. rewrite creditProfile_predictions.
    cbn [predictions withPredictions]. apply evaluatedRows_frame.
  - apply evaluatePrediction_thrown in E. subst db'. apply sameBet_refl.
Qed.

Lemma sweep_frame now (todo : list Prediction.t) db :
  Forall2 sameBet (predictions db)
    (predictions
       (fold_left (fun db' p => snd (evaluatePrediction env now (Prediction.id p) db'))
                  todo db)).
Proof.
  revert db. induction todo as [|p todo IH]; intros db; simpl.
  - apply sameBet_refl.
  - eapply sameBet_trans; [apply evaluatePrediction_frame | apply IH].
Qed.

End FrameFacts.

(** C10: when the owner of the prediction has no profile row, an evaluation
    whose other steps succeed returns its outcome, marks the row evaluated
    with its result, points and settlement price, and leaves the profile
    table and every other table as they were. *)
Theorem evaluatePrediction_without_profile :
  forall env now pid db p a e s base,
    find (fun q => Prediction.id q =? pid)%string (predictions db) = Some p ->
    Prediction.status p = Active ->
    find (fun x => Asset.id x =? Prediction.assetId p)%string (assets db)
    = Some a ->
    orElse (getLiveAssetPrice env now (Asset.symbol a))
           (getAssetPrice env now (Asset.symbol a)) = Some e ->
    truthy (Some e) = true ->
    Prediction.priceStart p = Some s ->
    env_getPointsForSlot env (Prediction.duration p) (Prediction.slotNumber p)
    = Some base ->
    find (fun u => UserProfile.userId u =? Prediction.userId p)%string
         (userProfiles db) = None ->
    let c := judge (Prediction.direction p) e s in
    let pts := awardPoints base c e s in
    let db' := snd (evaluatePrediction env now pid db) in
    fst (evaluatePrediction env now pid db)
    = Returned {| Evaluation.predictionId := pid;
                  Evaluation.isCorrect := c;
                  Evaluation.pointsAwarded := pts;
                  Evaluation.startPrice := s;
                  Evaluation.endPrice := e |}
    /\ userProfiles db' = userProfiles db
    /\ users db' = users db
    /\ assets db' = assets db
    /\ predictions db' = evaluatedRows now pid c pts e (predictions db)
    /\ exists p',
         find (fun q => Prediction.id q =? pid)%string (predictions db') = Some p'
         /\ Prediction.status p' = Evaluated
         /\ Prediction.result p' = (if c then Correct else Incorrect)
         /\ Prediction.pointsAwarded p' = Some pts
         /\ Prediction.priceEnd p' = Some e
         /\ Prediction.evaluatedAt p' = Some now.
Proof.
  intros env now pid db p a e s base Hp Hst Ha Ho Ht Hs Hb Hnone c pts db'.
  subst db'.
  rewrite (evaluatePrediction_runs env now pid db p a e s base Hp Hst Ha Ho Ht Hs Hb).
  fold c. fold pts. cbn [fst snd].
  unfold creditProfile, bind, findProfile, query.
  cbn [userProfiles withPredictions]. rewrite Hnone.
  unfold ret. cbn [snd userProfiles users assets predictions withPredictions].
  repeat split; auto.
  exists (markEvaluated p c pts e now). split.
  - apply find_evaluatedRows. exact Hp.
  - repeat split; reflexivity.
Qed.

(** The 1h bet evaluated in a world without profiles. *)
Lemma evaluatePrediction_without_profile_witness :
  fst (evaluatePrediction (Scenario.quoting 100.05)
         (Scenario.midnight + Scenario.minutes 15) "p1"
         (Scenario.world [Scenario.hourBet Up] []))
  = Returned {| Evaluation.predictionId := "p1";
                Evaluation.isCorrect := true;
                Evaluation.pointsAwarded := 20;
                Evaluation.startPrice := 100;
                Evaluation.endPrice := 100.05 |}
  /\ userProfiles (snd (evaluatePrediction (Scenario.quoting 100.05)
                          (Scenario.midnight + Scenario.minutes 15) "p1"
                          (Scenario.world [Scenario.hourBet Up] []))) = [].
Proof.
  destruct (evaluatePrediction_without_profile (Scenario.quoting 100.05)
              (Scenario.midnight + Scenario.minutes 15) "p1"%string
              (Scenario.world [Scenario.hourBet Up] [])
              (Scenario.hourBet Up) Scenario.btc 100.05%float 100%float 10
              eq_refl eq_refl eq_refl eq_refl eq_refl eq_refl eq_refl eq_refl)
    as (H1 & H2 & _).
  split; [exact H1 | exact H2].
Defined.

Section AdminFacts.
Open Scope string_scope.

Lemma overrideRows_frame pred res body now id ps :
  Forall2 sameButPrice ps
    (map (fun p => if Prediction.id p =? id
                   then Routes.overrideRow pred res body now p else p) ps).
Proof.
  induction ps as [|q ps IH]; simpl; constructor; auto.
  destruct (Prediction.id q =? id); repeat split; reflexivity.
Qed.

Lemma overrideRows_others pred res body now id ps :
  Forall2 (fun q q' => Prediction.id q <> id -> q' = q) ps
    (map (fun p => if Prediction.id p =? id
                   then Routes.overrideRow pred res body now p else p) ps).
Proof.
  induction ps as [|q ps IH]; simpl; constructor; auto.
  intros Hq. destruct (Prediction.id q =? id) eqn:E; [|reflexivity].
  apply String.eqb_eq in E. contradiction.
Qed.

Lemma sameButPrice_refl ps : Forall2 sameButPrice ps ps.
Proof. induction ps; constructor; auto. repeat split; reflexivity. Qed.

Lemma overrideRows_price pred res body now id ps :
  NoDup (map Prediction.id ps) ->
  find (fun r => Prediction.id r =? id) ps = Some pred ->
  Forall2 (fun q q' =>
             Prediction.priceStart q' =
             if (Prediction.id q =? id) && truthy (Routes.priceStart body)
             then Routes.priceStart body else Prediction.priceStart q)
    ps
    (map (fun p => if Prediction.id p =? id
                   then Routes.overrideRow pred res body now p else p) ps).
Proof.
  intros Hnd Hf.
  assert (Hall : forall q, In q ps -> Prediction.id q = id -> q = pred)
    by (intros q; apply unique_row; assumption).
  clear Hf Hnd. induction ps as [|q ps IH]; simpl; constructor.
  - destruct (Prediction.id q =? id) eqn:Hq; [|reflexivity].
    apply String.eqb_eq in Hq.
    rewrite (Hall q (or_introl eq_refl) Hq). cbn [andb Routes.overrideRow
      Prediction.priceStart].
    destruct (truthy (Routes.priceStart body)); reflexivity.
  - apply IH. intros r Hr. apply Hall. right. exact Hr.
Qed.

Lemma adminEvaluate_answer now id body db :
  (snd (Routes.adminEvaluate now id body db) = db
   /\ answeredOk (fst (Routes.adminEvaluate now id body db)) = false)
  \/ (answeredOk (fst (Routes.adminEvaluate now id body db)) = true
      /\ exists pred res,
       find (fun r => Prediction.id r =? id) (predictions db) = Some pred
       /\ predictions (snd (Routes.adminEvaluate now id body db))
          = map (fun p => if Prediction.id p =? id
                          then Routes.overrideRow pred res body now p else p)
                (predictions db)).
Proof.
  unfold Routes.adminEvaluate.
  destruct (Routes.parseResult (Routes.result body)) as [res|];
    [|left; split; reflexivity].
  destruct (find _ (predictions db)) as [pred|] eqn:Hf;
    [|left; split; reflexivity].
  right. split; [reflexivity|]. exists pred, res. split; [reflexivity|].
  cbn [snd].
  destruct (Routes.pointsAwarded body) as [pts|]; [|reflexivity].
  destruct (negb _); reflexivity.
Qed.

Lemma Forall2_same {A} (P : A -> A -> Prop) (l : list A) :
  (forall x, P x x) -> Forall2 P l l.
Proof. intros H. induction l; constructor; auto. Qed.

End AdminFacts.

(** C9 fails for the administrator's route: a request that carries an entry
    price rewrites [priceStart]. *)
Lemma admin_override_rewrites_priceStart :
  let db := Scenario.world [Scenario.hourBet Up] [] in
  let body := {| Routes.result := Some "correct"%string;
                 Routes.pointsAwarded := Some 10;
                 Routes.priceStart := Some 250%float;
                 Routes.priceEnd := None |} in
  ~ Forall2 sameBet (predictions db)
      (predictions (snd (Routes.adminEvaluate
                           (Scenario.midnight + Scenario.minutes 20) "p1"
                           body db))).
Proof.
  intros db body H. vm_compute in H.
  inversion H as [|q q' l l' Hq _]; subst.
  destruct Hq as (_ & _ & _ & _ & _ & _ & _ & _ & _ & _ & Hprice).
  cbn in Hprice. discriminate Hprice.
Qed.

(** The entry price 0 in a request counts as none: the stored 100 stays. *)
Lemma admin_priceStart_zero_is_ignored :
  let db := Scenario.world [Scenario.hourBet Up] [] in
  let body := {| Routes.result := Some "correct"%string;
                 Routes.pointsAwarded := Some 10;
                 Routes.priceStart := Some 0%float;
                 Routes.priceEnd := None |} in
  map Prediction.priceStart
    (predictions (snd (Routes.adminEvaluate
                         (Scenario.midnight + Scenario.minutes 20) "p1"
                         body db)))
  = [Some 100%float].
Proof. reflexivity. Qed.

(** C9, amended: [evaluatePrediction] and the periodic sweep leave the entry
    price, direction, duration, slot number, slot start and slot end of every
    prediction (and its keys and time stamps) unchanged: they write status,
    result, points, exit price and evaluation time only. The administrator's
    route, whatever it answers, leaves direction, duration, slot number, slot
    start and slot end (and the keys and time stamps) of every prediction
    unchanged and leaves the predictions with another id as they are; when
    it does not answer 200 it changes nothing at all. With unique ids, the
    entry price of a prediction afterwards is the one of the request when
    the prediction has the given id, the answer is 200 and the entry price
    of the request is truthy (a number that is neither 0 nor NaN), and the
    stored one in every other case. *)
Theorem evaluation_frame :
  (forall env now pid db,
     Forall2 sameBet (predictions db)
       (predictions (snd (evaluatePrediction env now pid db))))
  /\ (forall env now db,
        Forall2 sameBet (predictions db)
          (predictions (snd (evaluateExpiredPredictions env now db))))
  /\ (forall now id body db,
        let answer := fst (Routes.adminEvaluate now id body db) in
        let after := snd (Routes.adminEvaluate now id body db) in
        Forall2 sameButPrice (predictions db) (predictions after)
        /\ Forall2 (fun q q' => Prediction.id q <> id -> q' = q)
             (predictions db) (predictions after)
        /\ (answeredOk answer = false -> after = db)
        /\ (uniqueIds db ->
            Forall2 (fun q q' =>
                       Prediction.priceStart q' =
                       if (Prediction.id q =? id)%string
                          && answeredOk answer
                          && truthy (Routes.priceStart body)
                       then Routes.priceStart body
                       else Prediction.priceStart q)
              (predictions db) (predictions after))).
Proof.
  split; [|split].
  - intros. apply evaluatePrediction_frame.
  - intros env now db. unfold evaluateExpiredPredictions. cbn [snd].
    apply sweep_frame.
  - intros now id body db answer after. subst answer after.
    destruct (adminEvaluate_answer now id body db)
      as [[Hdb Hno] | (Hok & pred & res & Hf & Hps)].
    + rewrite Hdb, Hno. repeat split.
      * apply sameButPrice_refl.
      * apply Forall2_same. reflexivity.
      * intros _. apply Forall2_same. intros q.
        rewrite andb_false_r. reflexivity.
    + rewrite Hps, Hok. split; [|split; [|split]].
      * apply overrideRows_frame.
      * apply overrideRows_others.
      * discriminate.
      * intros Hu.
        eapply Forall2_impl; [|apply overrideRows_price; eassumption].
        cbv beta. intros q q' ->. rewrite andb_true_r. reflexivity.
Qed.

(** An administrator's request for a prediction that is not there changes
    nothing, and one with the entry price 0 keeps the stored entry price. *)
Lemma evaluation_frame_witness :
  let db := Scenario.world [Scenario.hourBet Up] [] in
  let now := Scenario.midnight + Scenario.minutes 20 in
  let body := {| Routes.result := Some "correct"%string;
                 Routes.pointsAwarded := Some 10;
                 Routes.priceStart := Some 0%float;
                 Routes.priceEnd := Some 101%float |} in
  snd (Routes.adminEvaluate now "p2" body db) = db
  /\ Forall2 (fun q q' =>
                Prediction.priceStart q' =
                if (Prediction.id q =? "p1")%string
                   && answeredOk (fst (Routes.adminEvaluate now "p1" body db))
                   && truthy (Routes.priceStart body)
                then Routes.priceStart body else Prediction.priceStart q)
       (predictions db)
       (predictions (snd (Routes.adminEvaluate now "p1" body db))).
Proof.
  intros db now body. split.
  - apply (proj1 (proj2 (proj2 (proj2 (proj2 evaluation_frame)
             now "p2"%string body db)))).
    reflexivity.
  - apply (proj2 (proj2 (proj2 (proj2 (proj2 evaluation_frame)
             now "p1"%string body db)))).
    unfold uniqueIds. simpl. constructor; [intros [] | constructor].
Defined.

(** ** Creation *)

Section CreateFacts.
Variable env : Env.
Open Scope string_scope.

Lemma DurationKey_eqb_eq a b : DurationKey_eqb a b = true <-> a = b.
Proof. destruct a, b; simpl; split; (reflexivity || discriminate). Qed.

Lemma sameSlotBooking_spec uid aid d slot q :
  sameSlotBooking uid aid d slot q = true <->
  Prediction.userId q = uid /\ Prediction.assetId q = aid
  /\ Prediction.duration q = d
  /\ Prediction.slotNumber q = as_slotNumber slot
  /\ Prediction.slotStart q = as_slotStart slot.
Proof.
  unfold sameSlotBooking.
  rewrite !andb_true_iff, !String.eqb_eq, !Z.eqb_eq, DurationKey_eqb_eq.
  tauto.
Qed.

Lemma sameSlotBooking_ext uid aid d s1 s2 q :
  as_slotNumber s1 = as_slotNumber s2 ->
  as_slotStart s1 = as_slotStart s2 ->
  sameSlotBooking uid aid d s1 q = sameSlotBooking uid aid d s2 q.
Proof. intros H1 H2. unfold sameSlotBooking. rewrite H1, H2. reflexivity. Qed.

Lemma find_none_app {A} (f : A -> bool) l1 l2 :
  find f l1 = None -> find f (l1 ++ l2) = find f l2.
Proof.
  induction l1 as [|x l1 IH]; simpl; [reflexivity|].
  destruct (f x); [discriminate | exact IH].
Qed.

Lemma find_none_filter {A} (f : A -> bool) l :
  find f l = None -> filter f l = [].
Proof.
  induction l as [|x l IH]; simpl; [reflexivity|].
  destruct (f x); [discriminate | exact IH].
Qed.

Lemma find_none_of_forall {A} (f : A -> bool) l :
  (forall x, In x l -> f x = false) -> find f l = None.
Proof.
  induction l as [|x l IH]; simpl; [reflexivity|]. intros H.
  rewrite (H x (or_introl eq_refl)). apply IH. intros y Hy. apply H.
  right. exact Hy.
Qed.

Lemma countPrediction_frame uid db :
  exists db', countPrediction uid db = (Returned tt, db')
              /\ predictions db' = predictions db
              /\ users db' = users db /\ assets db' = assets db.
Proof.
  unfold countPrediction, bind, findProfile, query, modify.
  destruct (find _ (userProfiles db)); eexists; repeat split.
Qed.

Lemma createPrediction_thrown now fid input db err db' :
  createPrediction env now fid input db = (Thrown err, db') -> db' = db.
Proof.
  unfold createPrediction, bind at 1, findUser, query.
  destruct (find _ (users db)) as [user|]; [|unfold throw; congruence].
  unfold bind at 1, when_.
  destruct (User.emailVerified user); cbn [negb];
    [|unfold throw; congruence].
  unfold ret at 1. unfold bind at 1, findAssetBySymbol, query.
  destruct (find _ (assets db)) as [asset|]; [|unfold throw; congruence].
  unfold bind at 1, when_.
  destruct (Asset.isActive asset); cbn [negb]; [|unfold throw; congruence].
  unfold ret at 1. unfold bind at 1.
  destruct (env_isSlotValid env now _ _); cbn [negb];
    [|unfold throw; congruence].
  unfold ret at 1. unfold bind at 1, query.
  destruct (find _ (predictions db)); [unfold throw; congruence|].
  unfold bind at 1.
  destruct (env_isWithinActiveSlot env now now _); cbn [negb];
    [|unfold throw; congruence].
  unfold ret at 1. unfold bind at 1.
  destruct (fetchPrice env now _ PriceUnavailable db)
    as [[price|err'] db1] eqn:Hf.
  - unfold bind at 1, insertPrediction, bind at 1, modify, ret at 1.
    unfold bind at 1.
    match goal with
    | |- context [countPrediction ?u ?d] =>
        destruct (countPrediction_frame u d) as (db3 & Hc & _); rewrite Hc
    end.
    unfold ret. discriminate.
  - apply fetchPrice_thrown in Hf. destruct Hf as [_ ->]. congruence.
Qed.

(** Everything a returning creation went through. *)
Lemma createPrediction_returned now fid input db p db' :
  createPrediction env now fid input db = (Returned p, db') ->
  let d := CreatePredictionInput.duration input in
  let slot := env_getCurrentActiveSlot env now d in
  exists user asset price,
    find (fun u => User.id u =? CreatePredictionInput.userId input) (users db)
    = Some user
    /\ User.emailVerified user = true
    /\ find (fun a => Asset.symbol a =? CreatePredictionInput.assetSymbol input)
            (assets db) = Some asset
    /\ Asset.isActive asset = true
    /\ env_isSlotValid env now d (as_slotNumber slot) = true
    /\ find (sameSlotBooking (CreatePredictionInput.userId input)
               (Asset.id asset) d slot) (predictions db) = None
    /\ env_isWithinActiveSlot env now now d = true
    /\ p = newPrediction fid now (CreatePredictionInput.userId input)
             (Asset.id asset) (CreatePredictionInput.direction input) d slot
             price
    /\ predictions db' = (predictions db ++ [p])%list
    /\ users db' = users db /\ assets db' = assets db.
Proof.
  intros H d slot. revert H.
  unfold createPrediction, bind at 1, findUser, query.
  destruct (find _ (users db)) as [user|] eqn:Hu; [|discriminate].
  unfold bind at 1, when_.
  destruct (User.emailVerified user) eqn:Hv; cbn [negb]; [|discriminate].
  unfold ret at 1. unfold bind at 1, findAssetBySymbol, query.
  destruct (find _ (assets db)) as [asset|] eqn:Ha; [|discriminate].
  unfold bind at 1, when_.
  destruct (Asset.isActive asset) eqn:Hact; cbn [negb]; [|discriminate].
  unfold ret at 1. unfold bind at 1. fold d. fold slot.
  destruct (env_isSlotValid env now d (as_slotNumber slot)) eqn:Hval;
    cbn [negb]; [|discriminate].
  unfold ret at 1. unfold bind at 1, query.
  destruct (find _ (predictions db)) eqn:Hdup; [discriminate|].
  unfold bind at 1.
  destruct (env_isWithinActiveSlot env now now d) eqn:Hw; cbn [negb];
    [|discriminate].
  unfold ret at 1. unfold bind at 1.
  destruct (fetchPrice env now _ PriceUnavailable db)
    as [[price|err'] db1] eqn:Hf; [|discriminate].
  apply fetchPrice_returned in Hf. destruct Hf as (-> & _ & _).
  unfold bind at 1, insertPrediction, bind at 1, modify, ret at 1.
  unfold bind at 1.
  match goal with
  | |- context [countPrediction ?u ?d] =>
      destruct (countPrediction_frame u d) as (db3 & Hc & Hp3 & Hu3 & Ha3);
      rewrite Hc
  end.
  unfold ret. intros H. injection H as <- <-.
  exists user, asset, price. repeat split; auto.
Qed.

(** The duplicate check, run forward. *)
Lemma createPrediction_duplicate now fid input db user asset q :
  let d := CreatePredictionInput.duration input in
  let slot := env_getCurrentActiveSlot env now d in
  find (fun u => User.id u =? CreatePredictionInput.userId input) (users db)
  = Some user ->
  User.emailVerified user = true ->
  find (fun a => Asset.symbol a =? CreatePredictionInput.assetSymbol input)
       (assets db) = Some asset ->
  Asset.isActive asset = true ->
  env_isSlotValid env now d (as_slotNumber slot) = true ->
  find (sameSlotBooking (CreatePredictionInput.userId input)
          (Asset.id asset) d slot) (predictions db) = Some q ->
  createPrediction env now fid input db = (Thrown DuplicatePrediction, db).
Proof.
  intros d slot Hu Hv Ha Hact Hval Hdup.
  unfold createPrediction, bind at 1, findUser, query. rewrite Hu.
  unfold bind at 1, when_. rewrite Hv. cbn [negb].
  unfold ret at 1. unfold bind at 1, findAssetBySymbol, query. rewrite Ha.
  unfold bind at 1, when_. rewrite Hact. cbn [negb].
  unfold ret at 1. unfold bind at 1. fold d. fold slot. rewrite Hval.
  cbn [negb]. unfold ret at 1. unfold bind at 1, query. rewrite Hdup.
  reflexivity.
Qed.

End CreateFacts.

(** C6: creation keeps the store at no more than one active prediction per
    user, asset, duration, slot number and slot start; and when a creation
    has succeeded, the same request made again while the slot is the same
    one (same number, same start, and still held valid by [isSlotValid]) is
    refused with "You already have a prediction for this asset in the
    current slot", changes nothing, and leaves exactly one prediction stored
    for that user, asset, duration and slot. *)
Theorem createPrediction_once_per_slot :
  (forall env now fid input db,
     atMostOneActive db ->
     atMostOneActive (snd (createPrediction env now fid input db)))
  /\ (forall env now fid input db p now' fid',
        fst (createPrediction env now fid input db) = Returned p ->
        let d := CreatePredictionInput.duration input in
        let slot := env_getCurrentActiveSlot env now d in
        let slot' := env_getCurrentActiveSlot env now' d in
        as_slotNumber slot' = as_slotNumber slot ->
        as_slotStart slot' = as_slotStart slot ->
        env_isSlotValid env now' d (as_slotNumber slot') = true ->
        let db1 := snd (createPrediction env now fid input db) in
        createPrediction env now' fid' input db1
        = (Thrown DuplicatePrediction, db1)
        /\ filter (sameSlotBooking (CreatePredictionInput.userId input)
                     (Prediction.assetId p) d slot) (predictions db1) = [p]).
Proof.
  split.
  - intros env now fid input db Hinv.
    destruct (createPrediction env now fid input db) as [[p|err] db'] eqn:E.
    + apply createPrediction_returned in E. cbv zeta in E.
      destruct E as (user & asset & price & _ & _ & _ & _ & _ & Hnone & _
                     & Hp & Hps & _).
      cbn [snd]. intros uid aid d slot. rewrite Hps, filter_app, length_app.
      cbn [filter].
      destruct (sameSlotBooking uid aid d slot p
                && isActiveStatus (Prediction.status p)) eqn:Hk.
      * apply andb_true_iff in Hk. destruct Hk as [Hk _].
        apply sameSlotBooking_spec in Hk.
        destruct Hk as (Hu & Ha & Hd & Hn & Hs).
        rewrite Hp in Hu, Ha, Hd, Hn, Hs.
        cbn [newPrediction Prediction.userId Prediction.assetId
             Prediction.duration Prediction.slotNumber Prediction.slotStart]
          in Hu, Ha, Hd, Hn, Hs.
        subst uid aid d.
        rewrite (find_none_filter _ (predictions db)); [simpl; lia|].
        apply find_none_of_forall. intros q Hq.
        pose proof (find_none _ _ Hnone q Hq) as Hq'. cbv beta in Hq'.
        rewrite (sameSlotBooking_ext _ _ _ slot _ q
                   (eq_sym Hn) (eq_sym Hs)).
        rewrite Hq'. reflexivity.
      * specialize (Hinv uid aid d slot). simpl. lia.
    + apply createPrediction_thrown in E. subst db'. exact Hinv.
  - intros env now fid input db p now' fid' H d slot slot' Hn Hs Hval db1.
    subst db1.
    destruct (createPrediction env now fid input db) as [r db1] eqn:E.
    cbn [fst] in H. subst r. cbn [snd].
    apply createPrediction_returned in E. cbv zeta in E. fold d slot in E.
    destruct E as (user & asset & price & Hu & Hv & Ha & Hact & _ & Hnone & _
                   & Hp & Hps & Hus & Has).
    assert (Hkey : sameSlotBooking (CreatePredictionInput.userId input)
                     (Asset.id asset) d slot p = true).
    { apply sameSlotBooking_spec. rewrite Hp. repeat split; reflexivity. }
    assert (Haid : Prediction.assetId p = Asset.id asset)
      by (rewrite Hp; reflexivity).
    split.
    + eapply createPrediction_duplicate with (user := user) (asset := asset)
                                              (q := p).
      * rewrite Hus. exact Hu.
      * exact Hv.
      * rewrite Has. exact Ha.
      * exact Hact.
      * exact Hval.
      * fold d. fold slot'. rewrite Hps.
        rewrite find_none_app.
        -- simpl. rewrite (sameSlotBooking_ext _ _ _ slot' slot p Hn Hs), Hkey.
           reflexivity.
        -- apply find_none_of_forall. intros q Hq.
           rewrite (sameSlotBooking_ext _ _ _ slot' slot q Hn Hs).
           exact (find_none _ _ Hnone q Hq).
    + rewrite Haid, Hps, filter_app.
      rewrite (find_none_filter _ _ Hnone). simpl. rewrite Hkey. reflexivity.
Qed.

(** Alice asks twice within the first slot of the hour. *)
Lemma createPrediction_once_per_slot_witness :
  let env := Scenario.quoting 100 in
  let db1 := snd (createPrediction env (Scenario.midnight + Scenario.minutes 5)
                    "p1" (Scenario.request D1h) (Scenario.world [] [])) in
  createPrediction env (Scenario.midnight + Scenario.minutes 6) "p2"
    (Scenario.request D1h) db1
  = (Thrown DuplicatePrediction, db1)
  /\ List.length (predictions db1) = 1%nat
  /\ atMostOneActive db1.
Proof.
  intros env db1. split; [|split].
  - refine (proj1 (proj2 createPrediction_once_per_slot env
              (Scenario.midnight + Scenario.minutes 5) "p1"%string
              (Scenario.request D1h) (Scenario.world [] [])
              (newPrediction "p1" (Scenario.midnight + Scenario.minutes 5)
                 "alice" "asset-btc" Up D1h
                 (env_getCurrentActiveSlot env
                    (Scenario.midnight + Scenario.minutes 5) D1h) 100)
              (Scenario.midnight + Scenario.minutes 6) "p2"%string
              _ _ _ _)); vm_compute; reflexivity.
  - vm_compute. reflexivity.
  - apply (proj1 createPrediction_once_per_slot).
    intros uid aid d slot. simpl. lia.
Defined.

(** ** The calendar *)

Section CalendarFacts.
Import Calendar.

Lemma holdsOnRange_spec k lo f :
  holdsOnRange k lo f = true ->
  forall x, lo <= x < lo + 2 ^ Z.of_nat k -> f x = true.
Proof.
  revert lo. induction k as [|k IH]; intros lo H x Hx.
  - simpl in H. change (2 ^ Z.of_nat 0) with 1 in Hx.
    replace x with lo by lia. exact H.
  - cbn [holdsOnRange] in H. apply andb_true_iff in H. destruct H as [H1 H2].
    rewrite Nat2Z.inj_succ, Z.pow_succ_r in Hx by lia.
    destruct (Z_lt_ge_dec x (lo + 2 ^ Z.of_nat k)).
    + apply (IH lo H1). lia.
    + apply (IH _ H2). lia.
Qed.

Lemma eraDays_checked :
  holdsOnRange 17 0 eraDayOK && holdsOnRange 14 131072 eraDayOK = true.
Proof. vm_compute. reflexivity. Qed.

Lemma eraDayOK_all doe : 0 <= doe < 146097 -> eraDayOK doe = true.
Proof.
  intros H. pose proof eraDays_checked as C.
  apply andb_true_iff in C. destruct C as [C1 C2].
  destruct (Z_lt_ge_dec doe 131072).
  - apply (holdsOnRange_spec 17 0 eraDayOK C1).
    change (2 ^ Z.of_nat 17) with 131072. lia.
  - apply (holdsOnRange_spec 14 131072 eraDayOK C2).
    change (2 ^ Z.of_nat 14) with 16384. lia.
Qed.

(** The civil date of a day number is a date, and its day number is the one
    it came from. *)
Lemma civil_roundtrip z :
  dayFromCivil (yearOf z) (monthOf z) (dateOf z) = z
  /\ 1 <= monthOf z <= 12 /\ 1 <= dateOf z <= 31.
Proof.
  unfold yearOf, monthOf, dateOf, civilFromDay.
  set (z' := z + 719468).
  set (era := z' / 146097).
  set (doe := z' - era * 146097).
  assert (Hdoe : 0 <= doe < 146097).
  { subst doe era. pose proof (Z.mod_pos_bound z' 146097 ltac:(lia)).
    rewrite Z.mod_eq in H by lia. lia. }
  pose proof (eraDayOK_all doe Hdoe) as Hok. unfold eraDayOK in Hok.
  apply orb_true_iff in Hok. destruct Hok as [Hok|Hok]; [lia|].
  cbv zeta in Hok.
  set (yoe := (doe - doe / 1460 + doe / 36524 - doe / 146096) / 365) in *.
  set (doy := doe - (365 * yoe + yoe / 4 - yoe / 100)) in *.
  set (mp := (5 * doy + 2) / 153) in *.
  set (d := doy - (153 * mp + 2) / 5 + 1) in *.
  set (m := if mp <? 10 then mp + 3 else mp - 9) in *.
  rewrite !andb_true_iff in Hok.
  destruct Hok as [[[[[[[H0 H1] H2] H3] H4] H5] H6] H7].
  apply Z.leb_le in H0, H2, H3, H4, H5. apply Z.ltb_lt in H1.
  apply Z.eqb_eq in H6, H7.
  cbn [fst snd]. split; [|lia].
  unfold dayFromCivil.
  assert (Hy : (if m <=? 2
                then (if m <=? 2 then yoe + era * 400 + 1 else yoe + era * 400) - 1
                else (if m <=? 2 then yoe + era * 400 + 1 else yoe + era * 400))
               = yoe + era * 400).
  { destruct (m <=? 2); lia. }
  rewrite Hy.
  assert (He : (yoe + era * 400) / 400 = era).
  { symmetry. apply (Z.div_unique _ 400 era yoe); lia. }
  rewrite He, H6.
  replace (yoe + era * 400 - era * 400) with yoe by lia.
  subst doe. lia.
Qed.

End CalendarFacts.

(** ** Dates on a server without daylight saving *)

Section DateFacts.
Import Calendar JSDate.

Lemma dayFromCivil_date y m d k :
  dayFromCivil y m (d + k) = dayFromCivil y m d + k.
Proof. unfold dayFromCivil. lia. Qed.

(** Setting the day of the month moves by whole days. *)
Lemma MakeDay_fields t k :
  MakeDay (YearFromTime t) (MonthFromTime t) (DateFromTime t + k) = Day t + k.
Proof.
  unfold MakeDay, YearFromTime, MonthFromTime, DateFromTime.
  destruct (civil_roundtrip (Day t)) as (Hr & Hm & Hd).
  rewrite Z.div_small, Z.mod_small by lia.
  replace (monthOf (Day t) - 1 + 1) with (monthOf (Day t)) by lia.
  replace (yearOf (Day t) + 0) with (yearOf (Day t)) by lia.
  pose proof (dayFromCivil_date (yearOf (Day t)) (monthOf (Day t)) 1
                (dateOf (Day t) - 1)) as H1.
  replace (1 + (dateOf (Day t) - 1)) with (dateOf (Day t)) in H1 by lia.
  lia.
Qed.

Lemma newDate_today tz t :
  newDate tz (getFullYear tz t) (getMonth tz t) (getDate tz t)
  = startOfLocalDay tz t.
Proof.
  unfold newDate, getFullYear, getMonth, getDate, startOfLocalDay.
  pose proof (MakeDay_fields (LocalTime tz t) 0) as H.
  rewrite Z.add_0_r in H. rewrite Z.add_0_r in H. rewrite H. reflexivity.
Qed.

Lemma Day_MakeDate day time :
  0 <= time < msPerDay -> Day (MakeDate day time) = day.
Proof.
  intros H. unfold Day, MakeDate. symmetry.
  apply (Z.div_unique _ msPerDay day time); unfold msPerDay in *; lia.
Qed.

Lemma TimeWithinDay_MakeDate day time :
  0 <= time < msPerDay -> TimeWithinDay (MakeDate day time) = time.
Proof.
  intros H. unfold TimeWithinDay, MakeDate. symmetry.
  apply (Z.mod_unique _ msPerDay day time); unfold msPerDay in *; lia.
Qed.

Lemma TimeWithinDay_bound t : 0 <= TimeWithinDay t < msPerDay.
Proof. unfold TimeWithinDay, msPerDay. apply Z.mod_pos_bound. lia. Qed.

Lemma startOfLocalDay_fixed m t :
  startOfLocalDay (fixedZone m) t
  = Day (t + m * msPerMinute) * msPerDay - m * msPerMinute.
Proof. unfold startOfLocalDay, UTC, LocalTime, MakeDate. simpl. lia. Qed.

Lemma startOfLocalDay_le m t : startOfLocalDay (fixedZone m) t <= t.
Proof.
  rewrite startOfLocalDay_fixed. unfold Day, msPerDay.
  pose proof (Z.mul_div_le (t + m * msPerMinute) 86400000 ltac:(lia)). lia.
Qed.

Lemma setHours_fixed m t h mi sec ms :
  setHours (fixedZone m) t h mi sec ms
  = startOfLocalDay (fixedZone m) t + MakeTime h mi sec ms.
Proof.
  unfold setHours, startOfLocalDay, UTC, LocalTime, MakeDate. simpl. lia.
Qed.

Lemma minutes_split x :
  0 <= x -> MakeTime (x / 60) (Z.rem x 60) 0 0 = x * msPerMinute.
Proof.
  intros H. unfold MakeTime, msPerHour, msPerMinute.
  rewrite Z.rem_mod_nonneg by lia.
  pose proof (Z.div_mod x 60 ltac:(lia)). lia.
Qed.

Lemma minutes_split_end x :
  0 <= x -> MakeTime (x / 60) (Z.rem x 60) 59 999 = x * msPerMinute + 59999.
Proof.
  intros H. unfold MakeTime, msPerHour, msPerMinute.
  rewrite Z.rem_mod_nonneg by lia.
  pose proof (Z.div_mod x 60 ltac:(lia)). lia.
Qed.

End DateFacts.

Section SlotTimesFacts.
Import Calendar JSDate.
Variable Berlin : Luxon.Zone.
Variable m : Z.
Let tz := fixedZone m.

Lemma midnight_fields D :
  HourFromTime (MakeDate D 0) = 0
  /\ MinFromTime (MakeDate D 0) = 0
  /\ SecFromTime (MakeDate D 0) = 0.
Proof.
  unfold HourFromTime, MinFromTime, SecFromTime, MakeDate, msPerDay,
    msPerHour, msPerMinute.
  rewrite Z.add_0_r.
  replace (D * 86400000) with (D * 24 * 3600000) at 1 by lia.
  replace (D * 86400000) with (D * 24 * 60 * 60000) at 1 by lia.
  replace (D * 86400000) with (D * 1440 * 60 * 1000) by lia.
  rewrite !Z.div_mul by lia. rewrite !Z.mod_mul by lia. auto.
Qed.

Lemma LocalTime_UTC x : LocalTime tz (UTC tz x) = x.
Proof. unfold LocalTime, UTC, tz. simpl. lia. Qed.

Lemma setDate_fixed t k :
  setDate tz t (getDate tz t + k)
  = UTC tz (MakeDate (Day (LocalTime tz t) + k) (TimeWithinDay (LocalTime tz t))).
Proof. unfold setDate, getDate. rewrite MakeDay_fields. reflexivity. Qed.

(** The day slots of a week, Sunday first. *)
Lemma weekSlot_fixed t n :
  let times := getSlotTimes Berlin tz t D1w n in
  start times = startOfLocalWeek tz t + (n - 1) * msPerDay
  /\ end_ times = startOfLocalWeek tz t + n * msPerDay - 1.
Proof.
  cbn [getSlotTimes start end_]. unfold getCurrentCESTTime, Luxon.toJSDate,
    Luxon.fromJSDate. cbn [Luxon.ts].
  set (L := LocalTime tz t).
  assert (Hstart0 : setDate tz t (getDate tz t - getDay tz t + n - 1)
                    = UTC tz (MakeDate (Day L - WeekDay L + n - 1)
                                       (TimeWithinDay L))).
  { replace (getDate tz t - getDay tz t + n - 1)
      with (getDate tz t + (- getDay tz t + n - 1)) by lia.
    rewrite setDate_fixed. unfold getDay. fold L. f_equal. f_equal. lia. }
  rewrite Hstart0.
  set (D' := Day L - WeekDay L + n - 1).
  assert (Hstart : setHours tz (UTC tz (MakeDate D' (TimeWithinDay L))) 0 0 0 0
                   = UTC tz (MakeDate D' 0)).
  { unfold setHours. rewrite LocalTime_UTC.
    rewrite Day_MakeDate by apply TimeWithinDay_bound. reflexivity. }
  rewrite Hstart.
  assert (Hend0 : setDate tz (UTC tz (MakeDate D' 0))
                    (getDate tz (UTC tz (MakeDate D' 0)) + 1)
                  = UTC tz (MakeDate (D' + 1) 0)).
  { rewrite setDate_fixed, LocalTime_UTC.
    rewrite Day_MakeDate, TimeWithinDay_MakeDate by (unfold msPerDay; lia).
    reflexivity. }
  rewrite Hend0.
  unfold setMilliseconds. rewrite LocalTime_UTC.
  destruct (midnight_fields (D' + 1)) as (-> & -> & ->).
  rewrite Day_MakeDate by (unfold msPerDay; lia).
  unfold startOfLocalWeek. fold L. subst D'.
  unfold UTC, MakeDate, MakeTime, tz, msPerDay. simpl. lia.
Qed.

(** The slots of the durations below a week, counted from local midnight. *)
Lemma daySlot_fixed t d n :
  match d with D1h | D3h | D6h | D24h | D48h => True | _ => False end ->
  1 <= n ->
  let times := getSlotTimes Berlin tz t d n in
  start times = startOfLocalDay tz t + (n - 1) * slotMillis d
  /\ end_ times = startOfLocalDay tz t + n * slotMillis d - 1.
Proof.
  intros Hd Hn.
  destruct d; try contradiction; cbn [getSlotTimes start end_];
    unfold getCurrentCESTTime, Luxon.toJSDate, Luxon.fromJSDate;
    cbn [Luxon.ts]; unfold tz; rewrite !setHours_fixed;
    rewrite ?minutes_split, ?minutes_split_end by lia;
    unfold slotMillis, MakeTime, msPerHour, msPerMinute; simpl; lia.
Qed.

Lemma slotTimes_fixed t d n :
  fixedLength d = true -> 1 <= n ->
  let times := getSlotTimes Berlin tz t d n in
  start times = legacyAnchor tz t d + (n - 1) * slotMillis d
  /\ end_ times = legacyAnchor tz t d + n * slotMillis d - 1.
Proof.
  intros Hd Hn.
  destruct d; try discriminate Hd;
    try (apply daySlot_fixed; [exact I | exact Hn]).
  apply weekSlot_fixed.
Qed.

End SlotTimesFacts.

(** ** The slot clock *)

Section SlotClockFacts.
Import Calendar.

Lemma config_positive d :
  0 < intervalDuration (SLOT_CONFIGURATIONS d)
  /\ 1 <= intervals (SLOT_CONFIGURATIONS d).
Proof. destruct d; simpl; lia. Qed.

Lemma clamp_range x n : 1 <= n -> 1 <= Z.min (Z.max x 1) n <= n.
Proof. lia. Qed.

Lemma clamp_mono x y n : x <= y -> Z.min (Z.max x 1) n <= Z.min (Z.max y 1) n.
Proof. lia. Qed.

Lemma slotIndex_mono a b len :
  0 < len -> a <= b -> a / (len * msPerMinute) <= b / (len * msPerMinute).
Proof.
  intros Hl Hab. apply Z.div_le_mono; [unfold msPerMinute; lia | exact Hab].
Qed.

(** Rounding the elapsed minutes down before dividing changes nothing. *)
Lemma whole_minutes ms len :
  0 < len -> ms / msPerMinute / len = ms / (len * msPerMinute).
Proof.
  intros Hl. rewrite Z.div_div by (unfold msPerMinute; lia).
  f_equal. lia.
Qed.

End SlotClockFacts.

(** The slot number that [getSlotForDate] returns is the elapsed minutes
    since the period start of the duration, divided by the slot length,
    rounded down, plus one, clamped to 1..slotCount; it lies in 1..slotCount
    and does not decrease between two instants of one period.
    [getCurrentSlot] follows the same formula from the server's local
    midnight, whatever the duration, and has no lower clamp of its own (none
    is needed once midnight is not after the instant). *)
Theorem slot_number_formula :
  (forall Berlin date d,
     let config := SLOT_CONFIGURATIONS d in
     let periodStart :=
       Luxon.ts (periodStartFor (Luxon.fromJSDate date Berlin) d) in
     let elapsedMinutes := (date - periodStart) / 60000 in
     let n := slotNumber (getSlotForDate Berlin date d) in
     n = Z.min (Z.max (elapsedMinutes / intervalDuration config + 1) 1)
               (intervals config)
     /\ 1 <= n <= intervals config)
  /\ (forall Berlin d t1 t2,
        t1 <= t2 ->
        Luxon.ts (periodStartFor (Luxon.fromJSDate t1 Berlin) d)
        = Luxon.ts (periodStartFor (Luxon.fromJSDate t2 Berlin) d) ->
        slotNumber (getSlotForDate Berlin t1 d)
        <= slotNumber (getSlotForDate Berlin t2 d))
  /\ (forall tz clock d,
        let config := SLOT_CONFIGURATIONS d in
        let elapsedMinutes := (clock - startOfLocalDay tz clock) / 60000 in
        getCurrentSlot tz clock d
        = Z.min (elapsedMinutes / intervalDuration config + 1)
                (intervals config)
        /\ (startOfLocalDay tz clock <= clock ->
            getCurrentSlot tz clock d
            = Z.min (Z.max (elapsedMinutes / intervalDuration config + 1) 1)
                    (intervals config)
            /\ 1 <= getCurrentSlot tz clock d <= intervals config))
  /\ (forall tz d t1 t2,
        t1 <= t2 ->
        startOfLocalDay tz t1 = startOfLocalDay tz t2 ->
        getCurrentSlot tz t1 d <= getCurrentSlot tz t2 d).
Proof.
  split; [|split; [|split]].
  - intros Berlin date d config periodStart elapsedMinutes n.
    destruct (config_positive d) as [Hlen Hcount]. fold config in Hlen, Hcount.
    subst n elapsedMinutes. unfold getSlotForDate. cbn [slotNumber].
    unfold slotNumberFor, Luxon.diffMillis. cbn [Luxon.ts Luxon.fromJSDate].
    fold config. fold periodStart.
    change 60000 with Calendar.msPerMinute.
    rewrite whole_minutes by exact Hlen.
    split; [reflexivity | apply clamp_range; exact Hcount].
  - intros Berlin d t1 t2 Hle Hsame.
    destruct (config_positive d) as [Hlen Hcount].
    unfold getSlotForDate. cbn [slotNumber].
    unfold slotNumberFor, Luxon.diffMillis. cbn [Luxon.ts Luxon.fromJSDate].
    rewrite Hsame. apply clamp_mono.
    apply Z.add_le_mono_r. apply slotIndex_mono; [exact Hlen | lia].
  - intros tz clock d config elapsedMinutes.
    destruct (config_positive d) as [Hlen Hcount]. fold config in Hlen, Hcount.
    assert (E : getCurrentSlot tz clock d
                = Z.min (elapsedMinutes / intervalDuration config + 1)
                        (intervals config)).
    { unfold getCurrentSlot. rewrite newDate_today. fold config.
      subst elapsedMinutes. change 60000 with Calendar.msPerMinute.
      rewrite whole_minutes by exact Hlen.
      replace (intervalDuration config * 60 * 1000)
        with (intervalDuration config * Calendar.msPerMinute)
        by (unfold Calendar.msPerMinute; lia).
      reflexivity. }
    split; [exact E|]. intros Hge. rewrite E.
    assert (0 <= elapsedMinutes / intervalDuration config).
    { apply Z.div_pos; [|exact Hlen]. subst elapsedMinutes.
      apply Z.div_pos; lia. }
    split; lia.
  - intros tz d t1 t2 Hle Hsame.
    destruct (config_positive d) as [Hlen Hcount].
    unfold getCurrentSlot. rewrite !newDate_today, Hsame.
    apply Z.min_le_compat_r. apply Z.add_le_mono_r.
    apply Z.div_le_mono; lia.
Qed.

(** Five and twenty minutes past midnight: slots 1 and 2 of 1h. *)
Lemma slot_number_formula_example :
  slotNumber (getSlotForDate Luxon.EuropeBerlin
                (Scenario.midnight + Scenario.minutes 5) D1h)
  <= slotNumber (getSlotForDate Luxon.EuropeBerlin
                   (Scenario.midnight + Scenario.minutes 20) D1h)
  /\ 1 <= getCurrentSlot Scenario.serverZone
            (Scenario.midnight + Scenario.minutes 20) D1h <= 4
  /\ getCurrentSlot Scenario.serverZone
       (Scenario.midnight + Scenario.minutes 5) D24h
     <= getCurrentSlot Scenario.serverZone
          (Scenario.midnight + Scenario.minutes 200) D24h.
Proof.
  split; [|split].
  - apply (proj1 (proj2 slot_number_formula)); [vm_compute; discriminate|].
    vm_compute. reflexivity.
  - apply (proj1 (proj2 (proj2 slot_number_formula))
             Scenario.serverZone (Scenario.midnight + Scenario.minutes 20) D1h).
    vm_compute. discriminate.
  - apply (proj2 (proj2 (proj2 slot_number_formula)));
      [vm_compute; discriminate | vm_compute; reflexivity].
Defined.

(** ** The bounds of a slot *)

Section MinuteFacts.
Import Calendar.

(** Within a minute the hour and the minute of a time value stay. *)
Lemma minute_fields k r :
  0 <= r < msPerMinute ->
  (k * msPerMinute + r) / msPerMinute = k
  /\ (k * msPerMinute + r) / msPerHour = k / 60
  /\ (k * msPerMinute + r) / msPerDay = k / 1440.
Proof.
  intros Hr. unfold msPerMinute, msPerHour, msPerDay in *.
  assert (H1 : (k * 60000 + r) / 60000 = k)
    by (symmetry; apply (Z.div_unique _ 60000 k r); lia).
  split; [exact H1|]. split.
  - replace 3600000 with (60000 * 60) by lia.
    rewrite <- Z.div_div by lia. rewrite H1. reflexivity.
  - replace 86400000 with (60000 * 1440) by lia.
    rewrite <- Z.div_div by lia. rewrite H1. reflexivity.
Qed.

(** Europe/Berlin changes its offset on the minute. *)
Lemma EuropeBerlin_minute k r :
  0 <= r < msPerMinute ->
  Luxon.EuropeBerlin (k * msPerMinute + r) = Luxon.EuropeBerlin (k * msPerMinute).
Proof.
  intros Hr. unfold Luxon.EuropeBerlin, Day.
  destruct (minute_fields k r Hr) as (_ & _ & ->).
  destruct (minute_fields k 0 ltac:(unfold msPerMinute; lia)) as (_ & _ & H0).
  rewrite Z.add_0_r in H0. rewrite H0. cbv zeta.
  generalize (Luxon.lastSundayOf (yearOf (k / 1440)) 3).
  generalize (Luxon.lastSundayOf (yearOf (k / 1440)) 10).
  intros b a. unfold msPerDay, msPerHour, msPerMinute in *.
  destruct (Z.leb_spec (a * 86400000 + 3600000) (k * 60000 + r));
    destruct (Z.leb_spec (a * 86400000 + 3600000) (k * 60000));
    destruct (Z.ltb_spec (k * 60000 + r) (b * 86400000 + 3600000));
    destruct (Z.ltb_spec (k * 60000) (b * 86400000 + 3600000));
    try reflexivity; exfalso; lia.
Qed.

(** What luxon shows of an instant is what it shows of the start of its
    minute. *)
Lemma toFormatHHmm_minute k r :
  0 <= r < msPerMinute ->
  Luxon.toFormatHHmm {| Luxon.ts := k * msPerMinute + r;
                        Luxon.zone := Luxon.EuropeBerlin |}
  = Luxon.toFormatHHmm {| Luxon.ts := k * msPerMinute;
                          Luxon.zone := Luxon.EuropeBerlin |}.
Proof.
  intros Hr. unfold Luxon.toFormatHHmm, Luxon.hour, Luxon.minute,
    Luxon.localTS, Luxon.offset. cbn [Luxon.ts Luxon.zone].
  rewrite (EuropeBerlin_minute k r Hr).
  generalize (Luxon.EuropeBerlin (k * msPerMinute)). intros o.
  replace (k * msPerMinute + r + o * msPerMinute)
    with ((k + o) * msPerMinute + r) by lia.
  replace (k * msPerMinute + o * msPerMinute)
    with ((k + o) * msPerMinute + 0) by lia.
  destruct (minute_fields (k + o) r Hr) as (-> & -> & _).
  destruct (minute_fields (k + o) 0 ltac:(unfold msPerMinute; lia))
    as (-> & -> & _).
  reflexivity.
Qed.

(** A period starts on a minute. *)
Lemma fixOffset_minute D o z :
  exists k, Luxon.fixOffset (D * msPerDay) o z = k * msPerMinute.
Proof.
  unfold Luxon.fixOffset. cbv zeta.
  destruct (o =? z (D * msPerDay - o * msPerMinute)).
  - exists (D * 1440 - o). unfold msPerDay, msPerMinute. lia.
  - set (o2 := z (D * msPerDay - o * msPerMinute)).
    destruct (o2 =? z _).
    + exists (D * 1440 - o - (o2 - o)). unfold msPerDay, msPerMinute. lia.
    + match goal with |- context [Z.min ?a ?b] =>
        exists (D * 1440 - Z.min a b) end.
      unfold msPerDay, msPerMinute. lia.
Qed.

Lemma periodStart_minute z date d :
  exists k,
    Luxon.ts (periodStartFor (Luxon.fromJSDate date z) d) = k * msPerMinute.
Proof.
  destruct d; unfold periodStartFor, Luxon.startOf, Luxon.ofLocal;
    cbn [Luxon.ts]; apply fixOffset_minute.
Qed.

End MinuteFacts.

(** X28: the bounds that [getSlotForDate] shows are those of the slot formula
    in Europe/Berlin, for every date and every duration: the slot number n
    lies in 1..slotCount, the start shown is the time of day of
    periodStart + (n-1)*slotLength, and the end shown is the time of day of
    periodStart + n*slotLength - 1ms (the function computes the last whole
    minute of the slot, which reads the same as its last millisecond). *)
Theorem getSlotForDate_bounds :
  forall date d,
    let periodStart :=
      Luxon.ts (periodStartFor (Luxon.fromJSDate date Luxon.EuropeBerlin) d) in
    let slot := getSlotForDate Luxon.EuropeBerlin date d in
    let n := slotNumber slot in
    let shown (t : Z) :=
      Luxon.toFormatHHmm {| Luxon.ts := t; Luxon.zone := Luxon.EuropeBerlin |} in
    1 <= n <= intervals (SLOT_CONFIGURATIONS d)
    /\ startTime slot = shown (periodStart + (n - 1) * slotMillis d)
    /\ endTime slot = shown (periodStart + n * slotMillis d - 1).
Proof.
  intros date d periodStart slot n shown.
  split; [apply clamp_range; apply config_positive|].
  subst slot n shown. unfold getSlotForDate. cbn [slotNumber startTime endTime].
  set (n := slotNumberFor _ _ _).
  unfold slotStartFor, slotEndFor, Luxon.plusMinutes. cbn [Luxon.ts Luxon.zone].
  unfold periodStartFor at 2 4.
  assert (Hz : forall u, Luxon.zone (periodStartFor
                 (Luxon.fromJSDate date Luxon.EuropeBerlin) u)
               = Luxon.EuropeBerlin).
  { intros u. destruct u; reflexivity. }
  fold (periodStartFor (Luxon.fromJSDate date Luxon.EuropeBerlin) d).
  rewrite Hz. fold periodStart.
  destruct (periodStart_minute Luxon.EuropeBerlin date d) as [k Hk].
  fold periodStart in Hk. rewrite Hk. unfold slotMillis.
  set (len := intervalDuration (SLOT_CONFIGURATIONS d)).
  split.
  - f_equal. f_equal. ring.
  - replace (k * Calendar.msPerMinute + n * (len * Calendar.msPerMinute) - 1)
      with ((k + (n * len - 1)) * Calendar.msPerMinute + 59999)
      by (unfold Calendar.msPerMinute; ring).
    rewrite (toFormatHHmm_minute (k + (n * len - 1)) 59999)
      by (unfold Calendar.msPerMinute; lia).
    f_equal. f_equal. ring.
Qed.

(** X29: on a server whose zone has a constant offset, [getSlotTimes] lays
    out the slots of 1h, 3h, 6h, 24h, 48h and 1w from its own anchor, the
    local midnight of the server (for 1w: of the Sunday on or before today):
    slot n from 1 on starts at anchor + (n-1)*slotLength and ends at
    anchor + n*slotLength - 1ms, the next slot starts one millisecond after,
    and slots 1..slotCount reach slotCount*slotLength from the anchor on,
    which is a day for 24h and a week for 1w, but one, three and six hours
    for 1h, 3h and 6h, and two days for 48h. *)
Theorem getSlotTimes_constant_offset :
  (forall Berlin m t d n,
     fixedLength d = true -> 1 <= n ->
     let tz := JSDate.fixedZone m in
     let anchor := legacyAnchor tz t d in
     let slot := getSlotTimes Berlin tz t d in
     start (slot n) = anchor + (n - 1) * slotMillis d
     /\ end_ (slot n) = anchor + n * slotMillis d - 1
     /\ start (slot n) <= end_ (slot n)
     /\ end_ (slot n) + 1 = start (slot (n + 1))
     /\ start (slot 1) = anchor
     /\ end_ (slot (intervals (SLOT_CONFIGURATIONS d)))
        = anchor + intervals (SLOT_CONFIGURATIONS d) * slotMillis d - 1)
  /\ (intervals (SLOT_CONFIGURATIONS D24h) * slotMillis D24h = Calendar.msPerDay
      /\ intervals (SLOT_CONFIGURATIONS D1w) * slotMillis D1w
         = 7 * Calendar.msPerDay
      /\ intervals (SLOT_CONFIGURATIONS D1h) * slotMillis D1h
         = Calendar.msPerHour
      /\ intervals (SLOT_CONFIGURATIONS D3h) * slotMillis D3h
         = 3 * Calendar.msPerHour
      /\ intervals (SLOT_CONFIGURATIONS D6h) * slotMillis D6h
         = 6 * Calendar.msPerHour
      /\ intervals (SLOT_CONFIGURATIONS D48h) * slotMillis D48h
         = 2 * Calendar.msPerDay).
Proof.
  split.
  - intros Berlin m t d n Hd Hn tz anchor slot. subst slot anchor tz.
    destruct (config_positive d) as [Hlen Hcount].
    assert (Hms : 0 < slotMillis d)
      by (unfold slotMillis, Calendar.msPerMinute; lia).
    destruct (slotTimes_fixed Berlin m t d n Hd Hn) as [Hs He].
    destruct (slotTimes_fixed Berlin m t d (n + 1) Hd ltac:(lia)) as [Hs' _].
    destruct (slotTimes_fixed Berlin m t d 1 Hd ltac:(lia)) as [Hs1 _].
    destruct (slotTimes_fixed Berlin m t d _ Hd Hcount) as [_ Hec].
    cbv zeta in *. rewrite Hs, He, Hs', Hs1, Hec. repeat split; lia.
  - vm_compute. repeat split; reflexivity.
Qed.

(** The last two slots of 24h on a server at UTC+1. *)
Lemma getSlotTimes_constant_offset_witness :
  let slot := getSlotTimes Luxon.EuropeBerlin Scenario.serverZone
                (Scenario.midnight + Scenario.minutes 5) D24h in
  start (slot 8) = Scenario.midnight + 7 * slotMillis D24h
  /\ end_ (slot 8) = Scenario.midnight + 8 * slotMillis D24h - 1
  /\ end_ (slot 7) + 1 = start (slot 8).
Proof.
  intros slot.
  destruct (proj1 getSlotTimes_constant_offset Luxon.EuropeBerlin 60
              (Scenario.midnight + Scenario.minutes 5) D24h 8
              eq_refl ltac:(lia)) as (H1 & H2 & _).
  destruct (proj1 getSlotTimes_constant_offset Luxon.EuropeBerlin 60
              (Scenario.midnight + Scenario.minutes 5) D24h 7
              eq_refl ltac:(lia)) as (_ & _ & _ & H3 & _).
  split; [exact H1 | split; [exact H2 | exact H3]].
Defined.

(** C4 fails in [getSlotTimes]: its slots are not laid out from the period
    start of the duration in the reference zone, and they need not be
    disjoint.
    - The clock change. On 2024-03-31 at 03:30 in Berlin, on a server in
      Europe/Berlin, the period of 24h began at 00:00 and [getSlotForDate]
      is in slot 1, which it shows to end at 03:59. Slot 1 of
      [getSlotTimes] ends where the claim has it, three hours after the
      period start, but slot 2 starts an hour before that: the instant lies
      in both.
    - The zone. On a server in UTC, at 00:30 in Berlin on Monday 2024-01-15,
      slot 1 of 24h starts 23 hours before the day in Berlin does and has
      ended before the instant; slot 8 ends one hour into the day.
    - The week. On Wednesday 2024-01-17 at noon in Berlin the period of 1w
      began on Monday the 15th at 00:00, [getSlotForDate] is in slot 3, and
      the bounds of the claim for slot 3 hold the instant. [getSlotTimes],
      on a server in Europe/Berlin, counts the days from Sunday: its slot 3
      is the Tuesday and ended twelve hours ago, its slot 1 is the Sunday
      before the period, and its slot 7 ends with the Saturday, a day before
      the period does. *)
Theorem getSlotTimes_leaves_the_period :
  (let t := Scenario.springForward + Scenario.minutes 150 in
   let periodStart :=
     Luxon.ts (periodStartFor (Luxon.fromJSDate t Luxon.EuropeBerlin) D24h) in
   let day := getSlotTimes Luxon.EuropeBerlin Scenario.berlinServer t D24h in
   periodStart = Scenario.springForward
   /\ slotNumber (getSlotForDate Luxon.EuropeBerlin t D24h) = 1
   /\ endTime (getSlotForDate Luxon.EuropeBerlin t D24h) = "03:59"%string
   /\ start (day 1) = periodStart
   /\ end_ (day 1) = periodStart + 1 * slotMillis D24h - 1
   /\ start (day 2) = periodStart + 1 * slotMillis D24h - Calendar.msPerHour
   /\ start (day 2) <> periodStart + (2 - 1) * slotMillis D24h
   /\ start (day 2) <= t
   /\ t <= end_ (day 1))
  /\ (let t := Scenario.midnight + Scenario.minutes 30 in
      let periodStart :=
        Luxon.ts (periodStartFor (Luxon.fromJSDate t Luxon.EuropeBerlin) D24h) in
      let day := getSlotTimes Luxon.EuropeBerlin (JSDate.fixedZone 0) t D24h in
      periodStart = Scenario.midnight
      /\ slotNumber (getSlotForDate Luxon.EuropeBerlin t D24h) = 1
      /\ start (day 1) = periodStart - 23 * Calendar.msPerHour
      /\ end_ (day 1) = periodStart - 20 * Calendar.msPerHour - 1
      /\ end_ (day 1) < t
      /\ end_ (day 8) = periodStart + Calendar.msPerHour - 1)
  /\ (let t := Scenario.wednesdayNoon in
      let periodStart :=
        Luxon.ts (periodStartFor (Luxon.fromJSDate t Luxon.EuropeBerlin) D1w) in
      let week := getSlotTimes Luxon.EuropeBerlin Scenario.berlinServer t D1w in
      periodStart = Scenario.midnight
      /\ slotNumber (getSlotForDate Luxon.EuropeBerlin t D1w) = 3
      /\ periodStart + (3 - 1) * slotMillis D1w <= t
      /\ t <= periodStart + 3 * slotMillis D1w - 1
      /\ start (week 3) = periodStart + (2 - 1) * slotMillis D1w
      /\ end_ (week 3) = periodStart + 2 * slotMillis D1w - 1
      /\ end_ (week 3) < t
      /\ start (week 1) = periodStart - slotMillis D1w
      /\ end_ (week 7) = periodStart + 6 * slotMillis D1w - 1).
Proof.
  repeat split; vm_compute; first [reflexivity | discriminate].
Qed.

(** C3 fails in [getCurrentSlot] for the durations whose period is longer
    than a day. On Wednesday 2024-01-17 at noon in Berlin the week began
    2.5 days ago and the month 16.5 days ago: the formula gives slot 3 of 1w
    and slot 3 of 1m, and so does [getSlotForDate]; [getCurrentSlot], on a
    server at UTC+1, counts from midnight of the day and returns 1 for
    both. *)
Theorem getCurrentSlot_ignores_period :
  slotNumber (getSlotForDate Luxon.EuropeBerlin Scenario.wednesdayNoon D1w) = 3
  /\ Luxon.ts (periodStartFor
                 (Luxon.fromJSDate Scenario.wednesdayNoon Luxon.EuropeBerlin) D1w)
     = Scenario.midnight
  /\ (Scenario.wednesdayNoon - Scenario.midnight) / 60000
       / intervalDuration (SLOT_CONFIGURATIONS D1w) + 1 = 3
  /\ getCurrentSlot Scenario.serverZone Scenario.wednesdayNoon D1w = 1
  /\ slotNumber (getSlotForDate Luxon.EuropeBerlin Scenario.wednesdayNoon D1m) = 3
  /\ getCurrentSlot Scenario.serverZone Scenario.wednesdayNoon D1m = 1.
Proof. repeat split; vm_compute; reflexivity. Qed.

(** ** The lock gate and creation *)

Section LockFacts.
Variable env : Env.
Open Scope string_scope.

(** The ways a creation fails, and what the two timing checks saw. *)
Lemma createPrediction_thrown_kind now fid input db err :
  fst (createPrediction env now fid input db) = Thrown err ->
  let d := CreatePredictionInput.duration input in
  In err [UserNotFound; EmailVerificationRequired; AssetNotFound;
          AssetNotAvailable; SlotNotValid; DuplicatePrediction; NoActiveSlot;
          PriceUnavailable]
  /\ (err = SlotNotValid ->
      env_isSlotValid env now d
        (as_slotNumber (env_getCurrentActiveSlot env now d)) = false)
  /\ (err = NoActiveSlot -> env_isWithinActiveSlot env now now d = false).
Proof.
  intros H d. revert H.
  unfold createPrediction, bind at 1, findUser, query.
  destruct (find _ (users db)) as [user|];
    [|cbn; intros [= <-]; repeat split; (tauto || discriminate)].
  unfold bind at 1, when_.
  destruct (User.emailVerified user); cbn [negb];
    [|cbn; intros [= <-]; repeat split; (tauto || discriminate)].
  unfold ret at 1. unfold bind at 1, findAssetBySymbol, query.
  destruct (find _ (assets db)) as [asset|];
    [|cbn; intros [= <-]; repeat split; (tauto || discriminate)].
  unfold bind at 1, when_.
  destruct (Asset.isActive asset); cbn [negb];
    [|cbn; intros [= <-]; repeat split; (tauto || discriminate)].
  unfold ret at 1. unfold bind at 1. fold d.
  destruct (env_isSlotValid env now d _) eqn:Hval; cbn [negb];
    [|cbn; intros [= <-]; repeat split; (tauto || discriminate || auto)].
  unfold ret at 1. unfold bind at 1, query.
  destruct (find _ (predictions db));
    [cbn; intros [= <-]; repeat split; (tauto || discriminate)|].
  unfold bind at 1.
  destruct (env_isWithinActiveSlot env now now d) eqn:Hw; cbn [negb];
    [|cbn; intros [= <-]; repeat split; (tauto || discriminate || auto)].
  unfold ret at 1. unfold bind at 1.
  destruct (fetchPrice env now _ PriceUnavailable db)
    as [[price|err'] db1] eqn:Hf.
  - unfold bind at 1, insertPrediction, bind at 1, modify, ret at 1.
    unfold bind at 1.
    match goal with
    | |- context [countPrediction ?u ?d] =>
        destruct (countPrediction_frame u d) as (db3 & Hc & _); rewrite Hc
    end.
    unfold ret. cbn. discriminate.
  - apply fetchPrice_thrown in Hf. destruct Hf as [-> _].
    cbn; intros [= <-]; repeat split; (tauto || discriminate).
Qed.

End LockFacts.


(** What the code does: [isSlotLocked] is true when the start of the slot is
    no more than five minutes away (or past) and false when it is further
    away. [createPrediction] does not consult it: when it refuses a request
    the reason is one of its own eight, the two about time being that
    [isSlotValid] or [isWithinActiveSlot] said no. A request for 1h made ten
    minutes before the boundary of the slot succeeds; the same request made
    four minutes before the boundary succeeds as well on the same store,
    and made after the first one it is refused as a duplicate. *)
Theorem lock_gate_and_creation :
  (forall Berlin tz clock d n,
     let slotStart := start (getSlotTimes Berlin tz clock d n) in
     (slotStart - clock <= 5 * 60 * 1000 ->
      isSlotLocked Berlin tz clock d n = true)
     /\ (5 * 60 * 1000 < slotStart - clock ->
         isSlotLocked Berlin tz clock d n = false))
  /\ (forall env now fid input db err,
        fst (createPrediction env now fid input db) = Thrown err ->
        let d := CreatePredictionInput.duration input in
        In err [UserNotFound; EmailVerificationRequired; AssetNotFound;
                AssetNotAvailable; SlotNotValid; DuplicatePrediction;
                NoActiveSlot; PriceUnavailable]
        /\ (err = SlotNotValid ->
            env_isSlotValid env now d
              (as_slotNumber (env_getCurrentActiveSlot env now d)) = false)
        /\ (err = NoActiveSlot -> env_isWithinActiveSlot env now now d = false))
  /\ (let env := Scenario.quoting 100 in
      let early := Scenario.midnight + Scenario.minutes 5 in
      let late := Scenario.midnight + Scenario.minutes 11 in
      let slot1 := {| as_slotNumber := 1;
                      as_slotStart := Scenario.midnight;
                      as_slotEnd := Scenario.midnight + Scenario.minutes 15 - 1 |} in
      let first := createPrediction env early "p1" (Scenario.request D1h)
                     (Scenario.world [] []) in
      isSlotLocked Luxon.EuropeBerlin Scenario.serverZone early D1h 2 = false
      /\ fst first
         = Returned (newPrediction "p1" early "alice" "asset-btc" Up D1h slot1 100)
      /\ isSlotLocked Luxon.EuropeBerlin Scenario.serverZone late D1h 2 = true
      /\ fst (createPrediction env late "p1" (Scenario.request D1h)
                (Scenario.world [] []))
         = Returned (newPrediction "p1" late "alice" "asset-btc" Up D1h slot1 100)
      /\ createPrediction env late "p2" (Scenario.request D1h) (snd first)
         = (Thrown DuplicatePrediction, snd first)).
Proof.
  split; [|split].
  - intros Berlin tz clock d n slotStart. subst slotStart.
    unfold isSlotLocked, getCurrentCESTTime, Luxon.toJSDate, Luxon.fromJSDate,
      LOCK_BEFORE_START_MINUTES. cbn [Luxon.ts].
    split; intros H; [apply Z.leb_le | apply Z.leb_gt]; lia.
  - intros env now fid input db err H.
    exact (createPrediction_thrown_kind env now fid input db err H).
  - repeat split; vm_compute; reflexivity.
Qed.

(** The second slot of 1h seen from 00:11 and from 00:05, and a request at
    noon, when the clamped slot of 1h is long over. *)
Lemma lock_gate_and_creation_example :
  isSlotLocked Luxon.EuropeBerlin Scenario.serverZone
    (Scenario.midnight + Scenario.minutes 11) D1h 2 = true
  /\ isSlotLocked Luxon.EuropeBerlin Scenario.serverZone
       (Scenario.midnight + Scenario.minutes 5) D1h 2 = false
  /\ env_isWithinActiveSlot (Scenario.quoting 100)
       (Scenario.midnight + Scenario.minutes 720)
       (Scenario.midnight + Scenario.minutes 720) D1h = false.
Proof.
  split; [|split].
  - apply (proj1 (proj1 lock_gate_and_creation Luxon.EuropeBerlin
                    Scenario.serverZone
                    (Scenario.midnight + Scenario.minutes 11) D1h 2)).
    vm_compute. discriminate.
  - apply (proj2 (proj1 lock_gate_and_creation Luxon.EuropeBerlin
                    Scenario.serverZone
                    (Scenario.midnight + Scenario.minutes 5) D1h 2)).
    vm_compute. reflexivity.
  - apply (proj1 (proj2 lock_gate_and_creation) (Scenario.quoting 100)
             (Scenario.midnight + Scenario.minutes 720) "p1"%string
             (Scenario.request D1h) (Scenario.world [] []) NoActiveSlot).
    + vm_compute. reflexivity.
    + reflexivity.
Defined.

(** ** The zone of the slot clock *)

(** C8 fails in the legacy functions. At 2024-01-14 23:30 UTC, half past
    midnight in Berlin, [getSlotForDate] finds slot 1 of 24h;
    [getCurrentSlot] returns 8 on a server whose zone is UTC and 3 on one
    whose zone is UTC+9. The hand-made "CEST" clock adds two hours in
    winter too: read on a UTC server it shows 01:30 when Berlin has 00:30. *)
Theorem getCurrentSlot_follows_server_zone :
  let t := Scenario.midnight + Scenario.minutes 30 in
  slotNumber (getSlotForDate Luxon.EuropeBerlin t D24h) = 1
  /\ getCurrentSlot (JSDate.fixedZone 0) t D24h = 8
  /\ getCurrentSlot (JSDate.fixedZone 540) t D24h = 3
  /\ Luxon.EuropeBerlin t = 60
  /\ Luxon.toFormatHHmm (Luxon.fromJSDate t Luxon.EuropeBerlin) = "00:30"%string
  /\ (let cest := LegacySlotService.getCurrentCESTTime (JSDate.fixedZone 0) t in
      JSDate.getHours (JSDate.fixedZone 0) cest = 1
      /\ JSDate.getMinutes (JSDate.fixedZone 0) cest = 30).
Proof. repeat split; vm_compute; reflexivity. Qed.

(* ================================================================== *)
(** * Further properties of the slot service *)

(** ** The points table *)

Section TableFacts.

Lemma points_length d :
  Z.of_nat (List.length (points (SLOT_CONFIGURATIONS d)))
  = intervals (SLOT_CONFIGURATIONS d).
Proof. destruct d; reflexivity. Qed.

Lemma slot_cases d n :
  1 <= n <= intervals (SLOT_CONFIGURATIONS d) ->
  n = 1 \/ n = 2 \/ n = 3 \/ n = 4 \/ n = 5 \/ n = 6 \/ n = 7 \/ n = 8.
Proof. destruct d; cbn; lia. Qed.

Lemma getPointsForSlot_outside d n :
  n < 1 \/ intervals (SLOT_CONFIGURATIONS d) < n -> getPointsForSlot d n = 0.
Proof.
  intros H. unfold getPointsForSlot. rewrite points_length.
  destruct (n <? 1) eqn:H1; [reflexivity|].
  destruct (n >? intervals (SLOT_CONFIGURATIONS d)) eqn:H2; [reflexivity|].
  apply Z.ltb_ge in H1. rewrite Z.gtb_ltb in H2. apply Z.ltb_ge in H2. lia.
Qed.

Lemma getPointsForSlot_zero d n :
  getPointsForSlot d n = 0
  <-> (n < 1 \/ intervals (SLOT_CONFIGURATIONS d) < n).
Proof.
  split; [|apply getPointsForSlot_outside].
  intros H.
  destruct (Z_lt_ge_dec n 1); [left; assumption|].
  destruct (Z_lt_ge_dec (intervals (SLOT_CONFIGURATIONS d)) n);
    [right; assumption|].
  destruct (getPointsForSlot_in_range d n ltac:(lia)) as [_ Hpos]. lia.
Qed.

Lemma pointsAt_getPointsForSlot d n :
  1 <= n <= intervals (SLOT_CONFIGURATIONS d) ->
  pointsAt (SLOT_CONFIGURATIONS d) (n - 1) = getPointsForSlot d n.
Proof.
  intros H. destruct (getPointsForSlot_in_range d n H) as [-> _].
  unfold pointsAt. destruct (n - 1 <? 0) eqn:E; [|reflexivity].
  apply Z.ltb_lt in E. lia.
Qed.

End TableFacts.

(** X1: every duration has as many point values as slots; a slot number outside
    1..slotCount has 0 points and no other has; and within one duration an
    earlier slot always carries more points than a later one. *)
Theorem getPointsForSlot_table :
  forall d,
    Z.of_nat (List.length (points (SLOT_CONFIGURATIONS d)))
    = intervals (SLOT_CONFIGURATIONS d)
    /\ (forall n, getPointsForSlot d n = 0
                  <-> (n < 1 \/ intervals (SLOT_CONFIGURATIONS d) < n))
    /\ (forall n n',
          1 <= n -> n < n' -> n' <= intervals (SLOT_CONFIGURATIONS d) ->
          getPointsForSlot d n' < getPointsForSlot d n).
Proof.
  intros d. split; [apply points_length|]. split; [apply getPointsForSlot_zero|].
  intros n n' H1 H2 H3.
  pose proof (slot_cases d n ltac:(lia)) as Hn.
  pose proof (slot_cases d n' ltac:(lia)) as Hn'.
  destruct d; cbn in H3;
    repeat (destruct Hn as [-> | Hn]); try subst n; try lia;
    repeat (destruct Hn' as [-> | Hn']); try subst n'; try lia;
    vm_compute; reflexivity.
Qed.

(** Slots 2 and 5 of 3h. *)
Lemma getPointsForSlot_table_witness :
  getPointsForSlot D3h 5 < getPointsForSlot D3h 2.
Proof.
  apply (proj2 (proj2 (getPointsForSlot_table D3h)) 2 5); vm_compute;
    (reflexivity || discriminate).
Defined.

(** ** The lock status *)

(** X2: the lock status that [getSlotLockStatus] reports agrees with
    [isSlotLocked]; its two times are never negative; the slot is locked
    exactly when the time until the lock is zero; and for a slot that is not
    locked the start is the lock plus five minutes away, both counted from
    the clock. *)
Theorem getSlotLockStatus_consistent :
  forall Berlin tz clock d n,
    let status := getSlotLockStatus Berlin tz clock d n in
    let slotStart := start (getSlotTimes Berlin tz clock d n) in
    isLocked status = isSlotLocked Berlin tz clock d n
    /\ 0 <= timeUntilUnlock status <= timeUntilStart status
    /\ (isLocked status = true <-> timeUntilUnlock status = 0)
    /\ (isLocked status = false ->
        timeUntilStart status = slotStart - clock
        /\ timeUntilStart status = timeUntilUnlock status + 5 * 60 * 1000).
Proof.
  intros Berlin tz clock d n status slotStart. subst status slotStart.
  unfold getSlotLockStatus, isSlotLocked, getCurrentCESTTime, Luxon.toJSDate,
    Luxon.fromJSDate, LOCK_BEFORE_START_MINUTES.
  cbn [Luxon.ts isLocked timeUntilStart timeUntilUnlock].
  set (s := start (getSlotTimes Berlin tz clock d n)).
  split; [reflexivity|]. split; [lia|]. split.
  - rewrite Z.leb_le. lia.
  - intros H. apply Z.leb_gt in H. lia.
Qed.

(** The second slot of 1h, ten minutes ahead. *)
Lemma getSlotLockStatus_consistent_witness :
  let status := getSlotLockStatus Luxon.EuropeBerlin Scenario.serverZone
                  (Scenario.midnight + Scenario.minutes 5) D1h 2 in
  timeUntilStart status = Scenario.minutes 10
  /\ timeUntilStart status = timeUntilUnlock status + 5 * 60 * 1000.
Proof.
  intros status.
  destruct (getSlotLockStatus_consistent Luxon.EuropeBerlin Scenario.serverZone
              (Scenario.midnight + Scenario.minutes 5) D1h 2)
    as (_ & _ & _ & H).
  destruct (H ltac:(vm_compute; reflexivity)) as [H1 H2].
  split; [exact H1 | exact H2].
Defined.

(** ** Validation of a slot selection *)

(** X3: [validateSlotSelection] answers "invalid slot number" exactly for the
    numbers outside 1..slotCount, "past slot" exactly for the numbers in
    range below the current slot of [getSlotForDate], and accepts exactly
    the numbers in range, not below the current slot, whose start by
    [getSlotTimes] is more than five minutes ahead; the status it hands back
    is the one of [getSlotLockStatus]. *)
Theorem validateSlotSelection_answers :
  forall Berlin tz clock d n,
    let count := intervals (SLOT_CONFIGURATIONS d) in
    let current := slotNumber (getSlotForDate Berlin clock d) in
    let slotStart := start (getSlotTimes Berlin tz clock d n) in
    let answer := validateSlotSelection Berlin tz clock d n in
    (answer = InvalidSlotNumber <-> (n < 1 \/ count < n))
    /\ (answer = PastSlot <-> (1 <= n <= count /\ n < current))
    /\ (forall l, answer = ValidSelection l <->
          (1 <= n <= count /\ current <= n
           /\ 5 * 60 * 1000 < slotStart - clock
           /\ l = getSlotLockStatus Berlin tz clock d n))
    /\ (forall l, answer = SlotIsLocked l <->
          (1 <= n <= count /\ current <= n
           /\ slotStart - clock <= 5 * 60 * 1000
           /\ l = getSlotLockStatus Berlin tz clock d n)).
Proof.
  intros Berlin tz clock d n count current slotStart answer.
  subst answer. unfold validateSlotSelection.
  pose proof (getPointsForSlot_zero d n) as Hz. fold count in Hz.
  assert (Hv : isSlotValid Berlin clock d n = (n >=? current)) by reflexivity.
  assert (Hl : isLocked (getSlotLockStatus Berlin tz clock d n)
               = (slotStart - clock <=? 5 * 60 * 1000)) by reflexivity.
  rewrite Hv, Hl.
  assert (Hin : getPointsForSlot d n <> 0 -> 1 <= n <= count)
    by (destruct Hz as [_ Hz]; lia).
  destruct (getPointsForSlot d n =? 0) eqn:E0;
    [apply Z.eqb_eq in E0; apply Hz in E0
    |apply Z.eqb_neq in E0; apply Hin in E0;
     destruct (n >=? current) eqn:Ec; cbn [negb];
     rewrite Z.geb_leb in Ec;
     [apply Z.leb_le in Ec;
      destruct (slotStart - clock <=? 5 * 60 * 1000) eqn:El;
      [apply Z.leb_le in El | apply Z.leb_gt in El]
     |apply Z.leb_gt in Ec]];
    repeat split; intros;
    repeat match goal with
           | H : _ /\ _ |- _ => destruct H
           | H : ValidSelection _ = ValidSelection _ |- _ => injection H as <-
           | H : SlotIsLocked _ = SlotIsLocked _ |- _ => injection H as <-
           end;
    subst; try discriminate; try lia; try reflexivity;
    repeat split; try lia; try reflexivity.
Qed.

(** The second slot of 1h is accepted at 00:05 in Berlin. *)
Lemma validateSlotSelection_answers_witness :
  validateSlotSelection Luxon.EuropeBerlin Scenario.serverZone
    (Scenario.midnight + Scenario.minutes 5) D1h 2
  = ValidSelection (getSlotLockStatus Luxon.EuropeBerlin Scenario.serverZone
                      (Scenario.midnight + Scenario.minutes 5) D1h 2).
Proof.
  apply (proj1 (proj2 (proj2 (validateSlotSelection_answers Luxon.EuropeBerlin
                                Scenario.serverZone
                                (Scenario.midnight + Scenario.minutes 5) D1h 2)))).
  repeat split; vm_compute; (reflexivity || discriminate).
Defined.

(** ** The legacy slot queries *)

Section LegacyFacts.
Import Calendar JSDate.

Lemma getCurrentSlot_le tz clock d :
  getCurrentSlot tz clock d <= intervals (SLOT_CONFIGURATIONS d).
Proof. unfold getCurrentSlot. lia. Qed.

(** On a server without daylight saving the clock is within the day that
    began at local midnight. *)
Lemma startOfLocalDay_within m t :
  0 <= t - startOfLocalDay (fixedZone m) t < msPerDay.
Proof.
  rewrite startOfLocalDay_fixed. unfold Day, msPerDay.
  pose proof (Z.mod_pos_bound (t + m * msPerMinute) 86400000 ltac:(lia)) as H.
  rewrite Z.mod_eq in H by lia. lia.
Qed.

Lemma getCurrentSlot_fixed m t d :
  getCurrentSlot (fixedZone m) t d
  = Z.min ((t - startOfLocalDay (fixedZone m) t) / slotMillis d + 1)
          (intervals (SLOT_CONFIGURATIONS d)).
Proof.
  unfold getCurrentSlot. rewrite newDate_today. unfold slotMillis, msPerMinute.
  replace (intervalDuration (SLOT_CONFIGURATIONS d) * 60 * 1000)
    with (intervalDuration (SLOT_CONFIGURATIONS d) * 60000) by lia.
  reflexivity.
Qed.

Lemma slotMillis_positive d : 0 < slotMillis d.
Proof.
  destruct (config_positive d) as [H _]. unfold slotMillis, msPerMinute. lia.
Qed.

Lemma getCurrentSlot_range m t d :
  1 <= getCurrentSlot (fixedZone m) t d <= intervals (SLOT_CONFIGURATIONS d).
Proof.
  rewrite getCurrentSlot_fixed.
  destruct (config_positive d) as [_ Hc].
  pose proof (startOfLocalDay_within m t) as Hw.
  pose proof (slotMillis_positive d) as Hp.
  assert (0 <= (t - startOfLocalDay (fixedZone m) t) / slotMillis d)
    by (apply Z.div_pos; lia).
  lia.
Qed.

(** The window that [getSlotTimes] gives to the slot of [getCurrentSlot]. *)
Lemma current_window m Berlin t d :
  match d with D1h | D3h | D6h | D24h | D48h => True | _ => False end ->
  let tz := fixedZone m in
  let n := getCurrentSlot tz t d in
  let times := getSlotTimes Berlin tz t d n in
  let elapsed := t - startOfLocalDay tz t in
  let span := intervals (SLOT_CONFIGURATIONS d) * slotMillis d in
  start times <= t
  /\ (elapsed < span -> t <= end_ times /\ t < start times + slotMillis d)
  /\ (span <= elapsed ->
      end_ times < t /\ n = intervals (SLOT_CONFIGURATIONS d)).
Proof.
  intros Hd tz n times elapsed span.
  pose proof (getCurrentSlot_range m t d) as Hr. fold tz n in Hr.
  destruct (daySlot_fixed Berlin m t d n Hd ltac:(lia)) as [Hs He].
  fold tz in Hs, He. fold times in Hs, He. rewrite Hs, He.
  pose proof (slotMillis_positive d) as Hp.
  pose proof (startOfLocalDay_within m t) as Hw. fold tz elapsed in Hw.
  assert (Hn : n = Z.min (elapsed / slotMillis d + 1)
                         (intervals (SLOT_CONFIGURATIONS d)))
    by (apply getCurrentSlot_fixed).
  set (L := slotMillis d) in *.
  set (I := intervals (SLOT_CONFIGURATIONS d)) in *.
  pose proof (Z.mul_div_le elapsed L Hp) as Hq1.
  pose proof (Z.mul_succ_div_gt elapsed L Hp) as Hq2.
  set (q := elapsed / L) in *.
  subst span. fold elapsed.
  split; [|split].
  - assert ((n - 1) * L <= q * L) by (apply Z.mul_le_mono_nonneg_r; lia). lia.
  - intros Hlt.
    assert (q < I).
    { destruct (Z_lt_ge_dec q I); [assumption|].
      assert (I * L <= q * L) by (apply Z.mul_le_mono_nonneg_r; lia). lia. }
    replace n with (q + 1) by lia. lia.
  - intros Hge.
    assert (I <= q).
    { destruct (Z_lt_ge_dec q I); [|lia].
      assert ((q + 1) * L <= I * L) by (apply Z.mul_le_mono_nonneg_r; lia).
      lia. }
    assert (n = I) by lia. split; [|assumption]. subst n. rewrite H0. lia.
Qed.

End LegacyFacts.

(** X4: of [isSlotActive], [isSlotUpcoming] and [isSlotExpired] exactly one
    holds for every slot number; a number above the slot count is always
    upcoming, and on a server without daylight saving a number below 1 is
    always expired. *)
Theorem slot_state_trichotomy :
  forall tz clock d n,
    let a := isSlotActive tz clock d n in
    let u := isSlotUpcoming tz clock d n in
    let e := isSlotExpired tz clock d n in
    ((a = true /\ u = false /\ e = false)
     \/ (a = false /\ u = true /\ e = false)
     \/ (a = false /\ u = false /\ e = true))
    /\ (intervals (SLOT_CONFIGURATIONS d) < n -> u = true)
    /\ (forall m, tz = JSDate.fixedZone m -> n < 1 -> e = true).
Proof.
  intros tz clock d n a u e. subst a u e.
  unfold isSlotActive, isSlotUpcoming, isSlotExpired.
  pose proof (getCurrentSlot_le tz clock d) as Hle.
  set (c := getCurrentSlot tz clock d) in *.
  rewrite Z.gtb_ltb.
  split; [|split].
  - destruct (Z.lt_trichotomy c n) as [H|[H|H]].
    + right; left. rewrite (proj2 (Z.eqb_neq _ _)), (proj2 (Z.ltb_lt _ _)),
        (proj2 (Z.ltb_ge _ _)) by lia. auto.
    + left. rewrite (proj2 (Z.eqb_eq _ _)), (proj2 (Z.ltb_ge c n)),
        (proj2 (Z.ltb_ge n c)) by lia. auto.
    + right; right. rewrite (proj2 (Z.eqb_neq _ _)), (proj2 (Z.ltb_ge c n)),
        (proj2 (Z.ltb_lt n c)) by lia. auto.
  - intros H. apply Z.ltb_lt. lia.
  - intros m -> H. apply Z.ltb_lt.
    pose proof (getCurrentSlot_range m clock d). fold c in H0. lia.
Qed.

(** Slot 9 of 24h, and slot 0, seen from a server at UTC+1. *)
Lemma slot_state_trichotomy_witness :
  isSlotUpcoming Scenario.serverZone Scenario.wednesdayNoon D24h 9 = true
  /\ isSlotExpired Scenario.serverZone Scenario.wednesdayNoon D24h 0 = true.
Proof.
  destruct (slot_state_trichotomy Scenario.serverZone Scenario.wednesdayNoon
              D24h 9) as (_ & H & _).
  destruct (slot_state_trichotomy Scenario.serverZone Scenario.wednesdayNoon
              D24h 0) as (_ & _ & H').
  split; [apply H; vm_compute; reflexivity
         |apply (H' 60); [reflexivity | vm_compute; reflexivity]].
Defined.

(** X5: on a server without daylight saving, for the durations up to 48h: the
    current slot of [getCurrentSlot] lies in 1..slotCount and its window by
    [getSlotTimes] has begun; the window holds the clock exactly while the
    time since local midnight is within the span that the slots cover, which
    is always so for 24h and 48h; once the span is over, the current slot is
    the last one and its window has ended. *)
Theorem current_slot_window :
  forall Berlin m t d,
    match d with D1h | D3h | D6h | D24h | D48h => True | _ => False end ->
    let tz := JSDate.fixedZone m in
    let n := getCurrentSlot tz t d in
    let times := getSlotTimes Berlin tz t d n in
    let elapsed := t - startOfLocalDay tz t in
    let span := intervals (SLOT_CONFIGURATIONS d) * slotMillis d in
    1 <= n <= intervals (SLOT_CONFIGURATIONS d)
    /\ start times <= t
    /\ (t <= end_ times <-> elapsed < span)
    /\ (d = D24h \/ d = D48h -> t <= end_ times)
    /\ (span <= elapsed -> n = intervals (SLOT_CONFIGURATIONS d)).
Proof.
  intros Berlin m t d Hd tz n times elapsed span.
  destruct (current_window m Berlin t d Hd) as (Hs & Hin & Hout).
  fold tz n times elapsed span in Hs, Hin, Hout.
  pose proof (startOfLocalDay_within m t) as Hw. fold tz elapsed in Hw.
  split; [apply getCurrentSlot_range|]. split; [exact Hs|].
  split; [|split].
  - split; intros H.
    + destruct (Z_lt_ge_dec elapsed span); [assumption|].
      destruct (Hout ltac:(lia)). lia.
    + apply Hin. exact H.
  - intros Hdd. apply Hin. subst span.
    unfold Calendar.msPerDay in Hw.
    destruct Hdd as [-> | ->];
      [change (intervals (SLOT_CONFIGURATIONS D24h) * slotMillis D24h)
         with 86400000
      |change (intervals (SLOT_CONFIGURATIONS D48h) * slotMillis D48h)
         with 172800000]; lia.
  - intros H. apply Hout. exact H.
Qed.

(** 00:20 lies in slot 2 of 1h; at noon the last slot of 1h is long over. *)
Lemma current_slot_window_witness :
  let tz := Scenario.serverZone in
  let t := Scenario.midnight + Scenario.minutes 20 in
  let noon := Scenario.midnight + Scenario.minutes 720 in
  (start (getSlotTimes Luxon.EuropeBerlin tz t D1h (getCurrentSlot tz t D1h))
   <= t)
  /\ getCurrentSlot tz noon D1h = 4.
Proof.
  intros tz t noon.
  destruct (current_slot_window Luxon.EuropeBerlin 60 t D1h I)
    as (_ & H & _).
  destruct (current_slot_window Luxon.EuropeBerlin 60 noon D1h I)
    as (_ & _ & _ & _ & H').
  split; [exact H | apply H'; vm_compute; discriminate].
Defined.

(** X6: on a server without daylight saving, for the durations up to 48h, the
    slot that [getCurrentSlot] names is always locked: its start by
    [getSlotTimes] is never ahead of the clock. So is every earlier slot,
    and [validateSlotSelection] accepts none of them. *)
Theorem current_slot_is_locked :
  forall Berlin m t d n,
    match d with D1h | D3h | D6h | D24h | D48h => True | _ => False end ->
    let tz := JSDate.fixedZone m in
    1 <= n <= getCurrentSlot tz t d ->
    isSlotLocked Berlin tz t d n = true
    /\ timeUntilStart (getSlotLockStatus Berlin tz t d n) = 0
    /\ forall l, validateSlotSelection Berlin tz t d n <> ValidSelection l.
Proof.
  intros Berlin m t d n Hd tz Hn.
  destruct (current_window m Berlin t d Hd) as (Hs & _).
  fold tz in Hs.
  destruct (daySlot_fixed Berlin m t d n Hd ltac:(lia)) as [Hsn _].
  destruct (daySlot_fixed Berlin m t d (getCurrentSlot tz t d) Hd ltac:(lia))
    as [Hsc _].
  fold tz in Hsn, Hsc. cbv zeta in Hsn, Hsc, Hs. rewrite Hsc in Hs.
  pose proof (slotMillis_positive d) as Hp.
  assert ((n - 1) * slotMillis d <= (getCurrentSlot tz t d - 1) * slotMillis d)
    by (apply Z.mul_le_mono_nonneg_r; lia).
  assert (Hlocked : isSlotLocked Berlin tz t d n = true).
  { unfold isSlotLocked, getCurrentCESTTime, Luxon.toJSDate, Luxon.fromJSDate,
      LOCK_BEFORE_START_MINUTES.
    cbn [Luxon.ts]. rewrite Hsn. apply Z.leb_le. lia. }
  split; [exact Hlocked|]. split.
  - unfold getSlotLockStatus, getCurrentCESTTime, Luxon.toJSDate,
      Luxon.fromJSDate. cbn [Luxon.ts timeUntilStart]. rewrite Hsn. lia.
  - intros l. unfold validateSlotSelection.
    destruct (getPointsForSlot d n =? 0); [discriminate|].
    destruct (negb (isSlotValid Berlin t d n)); [discriminate|].
    change (isLocked (getSlotLockStatus Berlin tz t d n))
      with (isSlotLocked Berlin tz t d n).
    rewrite Hlocked. discriminate.
Qed.

(** At 00:20 the current slot of 1h is slot 2, and it is locked. *)
Lemma current_slot_is_locked_witness :
  isSlotLocked Luxon.EuropeBerlin Scenario.serverZone
    (Scenario.midnight + Scenario.minutes 20) D1h 2 = true.
Proof.
  apply (proj1 (current_slot_is_locked Luxon.EuropeBerlin 60
                  (Scenario.midnight + Scenario.minutes 20) D1h 2 I
                  ltac:(vm_compute; split; discriminate))).
Defined.

(** ** The slot table *)

Section SeedFacts.

(** The row that [initializeSlotConfigs] writes for slot [n] of [d]. *)
Lemma findSlotConfig_seeded d n :
  1 <= n <= intervals (SLOT_CONFIGURATIONS d) ->
  findSlotConfig allSlots d n
  = Some {| SlotConfig.duration := d;
            SlotConfig.slotNumber := n;
            SlotConfig.startTime := fst (slotLabels d (n - 1));
            SlotConfig.endTime := snd (slotLabels d (n - 1));
            SlotConfig.pointsIfCorrect := getPointsForSlot d n;
            SlotConfig.penaltyIfWrong := penaltyFor (getPointsForSlot d n) |}.
Proof.
  intros H. pose proof (slot_cases d n H) as Hn.
  destruct d; cbn in H;
    repeat (destruct Hn as [-> | Hn]); try subst n; try lia;
    vm_compute; reflexivity.
Qed.

Lemma seeded_rows c :
  In c allSlots ->
  1 <= SlotConfig.slotNumber c
    <= intervals (SLOT_CONFIGURATIONS (SlotConfig.duration c))
  /\ findSlotConfig allSlots (SlotConfig.duration c) (SlotConfig.slotNumber c)
     = Some c.
Proof.
  intros H. vm_compute in H.
  repeat (destruct H as [<- | H]; [vm_compute; repeat split; discriminate|]).
  contradiction.
Qed.

Lemma findSlotConfig_found cs d n c :
  findSlotConfig cs d n = Some c ->
  In c cs /\ SlotConfig.duration c = d /\ SlotConfig.slotNumber c = n.
Proof.
  intros H. apply find_some in H. destruct H as [Hin H].
  apply andb_true_iff in H. destruct H as [H1 H2].
  apply DurationKey_eqb_eq in H1. apply Z.eqb_eq in H2. auto.
Qed.

Lemma orderBySlotNumber_seeded d :
  orderBySlotNumber
    (filter (fun c => DurationKey_eqb (SlotConfig.duration c) d) allSlots)
  = slotsOf d.
Proof. destruct d; vm_compute; reflexivity. Qed.

End SeedFacts.

(** X7: [initializeSlotConfigs] leaves a table that has rows as it is, so that
    running it twice is running it once. On the empty table it writes 56
    rows: for every duration and every slot number in 1..slotCount exactly
    the row whose points are those of [getPointsForSlot] and whose penalty
    is max(1, floor(points/2)), and no row for any other number. *)
Theorem initializeSlotConfigs_seeds :
  (forall slotConfigs,
     slotConfigs <> [] -> initializeSlotConfigs slotConfigs = slotConfigs)
  /\ (forall slotConfigs,
        initializeSlotConfigs (initializeSlotConfigs slotConfigs)
        = initializeSlotConfigs slotConfigs)
  /\ List.length (initializeSlotConfigs []) = 56%nat
  /\ (forall d n,
        1 <= n <= intervals (SLOT_CONFIGURATIONS d) ->
        exists c,
          findSlotConfig (initializeSlotConfigs []) d n = Some c
          /\ SlotConfig.duration c = d /\ SlotConfig.slotNumber c = n
          /\ SlotConfig.pointsIfCorrect c = getPointsForSlot d n
          /\ SlotConfig.penaltyIfWrong c = Z.max 1 (getPointsForSlot d n / 2)
          /\ 1 <= SlotConfig.penaltyIfWrong c <= SlotConfig.pointsIfCorrect c
          /\ List.length (filter (fun c' =>
                 DurationKey_eqb (SlotConfig.duration c') d
                 && (SlotConfig.slotNumber c' =? n))
               (initializeSlotConfigs [])) = 1%nat)
  /\ (forall d n c,
        findSlotConfig (initializeSlotConfigs []) d n = Some c ->
        1 <= n <= intervals (SLOT_CONFIGURATIONS d)).
Proof.
  split; [|split; [|split; [|split]]].
  - intros [|c cs] H; [congruence | reflexivity].
  - intros [|c cs]; [|reflexivity]. vm_compute. reflexivity.
  - vm_compute. reflexivity.
  - intros d n H. change (initializeSlotConfigs []) with allSlots.
    rewrite (findSlotConfig_seeded d n H). eexists. split; [reflexivity|].
    cbn [SlotConfig.duration SlotConfig.slotNumber SlotConfig.pointsIfCorrect
         SlotConfig.penaltyIfWrong].
    destruct (getPointsForSlot_in_range d n H) as [_ Hp].
    unfold penaltyFor.
    assert (getPointsForSlot d n / 2 <= getPointsForSlot d n)
      by (apply Z.div_le_upper_bound; lia).
    repeat split; try lia.
    pose proof (slot_cases d n H) as Hn.
    destruct d; cbn in H;
      repeat (destruct Hn as [-> | Hn]); try subst n; try lia;
      vm_compute; reflexivity.
  - intros d n c H. change (initializeSlotConfigs []) with allSlots in H.
    apply findSlotConfig_found in H. destruct H as (Hin & <- & <-).
    apply seeded_rows. exact Hin.
Qed.

(** Slot 3 of 6h in the table written on an empty database. *)
Lemma initializeSlotConfigs_seeds_witness :
  exists c,
    findSlotConfig (initializeSlotConfigs []) D6h 3 = Some c
    /\ SlotConfig.pointsIfCorrect c = 15 /\ SlotConfig.penaltyIfWrong c = 7.
Proof.
  destruct (proj1 (proj2 (proj2 (proj2 initializeSlotConfigs_seeds))) D6h 3)
    as (c & H1 & _ & _ & H2 & H3 & _).
  - vm_compute. split; discriminate.
  - exists c. split; [exact H1|]. split; [exact H2 | exact H3].
Defined.

(** X8: on the table that [initializeSlotConfigs] writes and a server without
    daylight saving, [getActiveSlot] always finds its row: the slot it
    returns is the one of [getCurrentSlot], with the bounds of
    [getSlotTimes], the points of [getPointsForSlot], the penalty
    max(1, floor(points/2)) and a remaining time that is never negative;
    for the durations up to 48h the remaining time is zero exactly when the
    span that the slots cover is over. On an empty table it returns null. *)
Theorem getActiveSlot_seeded :
  forall Berlin m t d,
    let tz := JSDate.fixedZone m in
    let n := getCurrentSlot tz t d in
    let times := getSlotTimes Berlin tz t d n in
    getActiveSlot Berlin tz [] t d = None
    /\ exists slot,
         getActiveSlot Berlin tz (initializeSlotConfigs []) t d = Some slot
         /\ LegacyActiveSlot.slotNumber slot = n
         /\ LegacyActiveSlot.startTime slot = start times
         /\ LegacyActiveSlot.endTime slot = end_ times
         /\ LegacyActiveSlot.pointsIfCorrect slot = getPointsForSlot d n
         /\ LegacyActiveSlot.penaltyIfWrong slot
            = Z.max 1 (getPointsForSlot d n / 2)
         /\ 0 <= LegacyActiveSlot.timeRemaining slot
         /\ (match d with D1h | D3h | D6h | D24h | D48h => True | _ => False end ->
             let span := intervals (SLOT_CONFIGURATIONS d) * slotMillis d in
             (span <= t - startOfLocalDay tz t ->
              LegacyActiveSlot.timeRemaining slot = 0)
             /\ (t - startOfLocalDay tz t < span ->
                 LegacyActiveSlot.timeRemaining slot = end_ times - t
                 /\ LegacyActiveSlot.timeRemaining slot < slotMillis d)).
Proof.
  intros Berlin m t d tz n times. split; [reflexivity|].
  pose proof (getCurrentSlot_range m t d) as Hr. fold tz n in Hr.
  unfold getActiveSlot. fold tz n. fold times.
  change (initializeSlotConfigs []) with allSlots.
  rewrite (findSlotConfig_seeded d n Hr). eexists. split; [reflexivity|].
  cbn [LegacyActiveSlot.slotNumber LegacyActiveSlot.startTime
       LegacyActiveSlot.endTime LegacyActiveSlot.pointsIfCorrect
       LegacyActiveSlot.penaltyIfWrong LegacyActiveSlot.timeRemaining
       SlotConfig.slotNumber SlotConfig.pointsIfCorrect
       SlotConfig.penaltyIfWrong].
  unfold getCurrentCESTTime, Luxon.toJSDate, Luxon.fromJSDate. cbn [Luxon.ts].
  do 5 (split; [reflexivity|]). split; [lia|]. intros Hd.
  destruct (current_window m Berlin t d Hd) as (Hbegun & Hin & Hout).
  fold tz n times in Hbegun, Hin, Hout.
  split; intros H.
  - destruct (Hout H). lia.
  - destruct (Hin H) as [H1 H2].
    destruct (daySlot_fixed Berlin m t d n Hd ltac:(lia)) as [Hs He].
    fold tz in Hs, He. fold times in Hs, He. lia.
Qed.

(** Noon of a day on a server at UTC+1: slot 5 of 24h has three hours left,
    less one millisecond. *)
Lemma getActiveSlot_seeded_witness :
  exists slot,
    getActiveSlot Luxon.EuropeBerlin Scenario.serverZone
      (initializeSlotConfigs []) Scenario.wednesdayNoon D24h = Some slot
    /\ LegacyActiveSlot.slotNumber slot = 5
    /\ LegacyActiveSlot.timeRemaining slot = Scenario.minutes 180 - 1.
Proof.
  destruct (getActiveSlot_seeded Luxon.EuropeBerlin 60 Scenario.wednesdayNoon
              D24h) as (_ & slot & H1 & H2 & _ & _ & _ & _ & _ & H3).
  exists slot. split; [exact H1|]. split; [exact H2|].
  destruct (H3 I) as [_ H4].
  exact (proj1 (H4 ltac:(vm_compute; reflexivity))).
Defined.

(** X9: on the table that [initializeSlotConfigs] writes and a server without
    daylight saving, [getNextSlot] finds the slot after the current one, and
    slot 1 after the last one. For the durations up to 48h the time until
    the next slot is positive and at most one slot length while the current
    slot is not the last; once the last slot is current, the next slot is
    slot 1 of the same day, whose start is not ahead of the clock, and the
    time until it is zero. *)
Theorem getNextSlot_seeded :
  forall Berlin m t d,
    let tz := JSDate.fixedZone m in
    let n := getCurrentSlot tz t d in
    let count := intervals (SLOT_CONFIGURATIONS d) in
    exists slot,
      getNextSlot Berlin tz (initializeSlotConfigs []) t d = Some slot
      /\ LegacyActiveSlot.slotNumber slot = (if n =? count then 1 else n + 1)
      /\ 1 <= LegacyActiveSlot.slotNumber slot <= count
      /\ LegacyActiveSlot.pointsIfCorrect slot
         = getPointsForSlot d (LegacyActiveSlot.slotNumber slot)
      /\ (match d with D1h | D3h | D6h | D24h | D48h => True | _ => False end ->
          (n < count ->
           LegacyActiveSlot.timeRemaining slot
           = LegacyActiveSlot.startTime slot - t
           /\ 0 < LegacyActiveSlot.timeRemaining slot <= slotMillis d)
          /\ (n = count ->
              LegacyActiveSlot.startTime slot <= t
              /\ LegacyActiveSlot.timeRemaining slot = 0)).
Proof.
  intros Berlin m t d tz n count.
  pose proof (getCurrentSlot_range m t d) as Hr. fold tz n count in Hr.
  unfold getNextSlot. fold tz n count.
  set (next := if n =? count then 1 else n + 1).
  assert (Hnext : 1 <= next <= count).
  { subst next. destruct (n =? count) eqn:E; [lia|].
    apply Z.eqb_neq in E. lia. }
  change (initializeSlotConfigs []) with allSlots.
  rewrite (findSlotConfig_seeded d next Hnext). eexists.
  split; [reflexivity|].
  cbn [LegacyActiveSlot.slotNumber LegacyActiveSlot.startTime
       LegacyActiveSlot.pointsIfCorrect LegacyActiveSlot.timeRemaining
       SlotConfig.slotNumber SlotConfig.pointsIfCorrect].
  unfold getCurrentCESTTime, Luxon.toJSDate, Luxon.fromJSDate. cbn [Luxon.ts].
  do 3 (split; [reflexivity || exact Hnext|]). intros Hd.
  destruct (daySlot_fixed Berlin m t d next Hd ltac:(lia)) as [Hs _].
  fold tz in Hs. cbv zeta in Hs. rewrite Hs.
  pose proof (startOfLocalDay_within m t) as Hw. fold tz in Hw.
  pose proof (slotMillis_positive d) as Hp.
  assert (Hn : n = Z.min ((t - startOfLocalDay tz t) / slotMillis d + 1) count)
    by (apply getCurrentSlot_fixed).
  pose proof (Z.mul_div_le (t - startOfLocalDay tz t) _ Hp) as Hq1.
  pose proof (Z.mul_succ_div_gt (t - startOfLocalDay tz t) _ Hp) as Hq2.
  set (q := (t - startOfLocalDay tz t) / slotMillis d) in *.
  split; intros H.
  - assert (En : (n =? count) = false) by (apply Z.eqb_neq; lia).
    subst next. rewrite En. replace n with (q + 1) by lia.
    replace (q + 1 + 1 - 1) with (Z.succ q) by lia. lia.
  - assert (En : (n =? count) = true) by (apply Z.eqb_eq; lia).
    subst next. rewrite En. lia.
Qed.

(** At noon slot 5 of 24h is current and slot 6 three hours away; at 23:00
    the last slot is current and the next one is slot 1, not ahead. *)
Lemma getNextSlot_seeded_witness :
  (exists slot,
     getNextSlot Luxon.EuropeBerlin Scenario.serverZone
       (initializeSlotConfigs []) Scenario.wednesdayNoon D24h = Some slot
     /\ LegacyActiveSlot.slotNumber slot = 6
     /\ 0 < LegacyActiveSlot.timeRemaining slot <= slotMillis D24h)
  /\ (exists slot,
        getNextSlot Luxon.EuropeBerlin Scenario.serverZone
          (initializeSlotConfigs [])
          (Scenario.midnight + Scenario.minutes 1380) D24h = Some slot
        /\ LegacyActiveSlot.slotNumber slot = 1
        /\ LegacyActiveSlot.timeRemaining slot = 0).
Proof.
  split.
  - destruct (getNextSlot_seeded Luxon.EuropeBerlin 60 Scenario.wednesdayNoon
                D24h) as (slot & H1 & H2 & _ & _ & H3).
    exists slot. split; [exact H1|]. split; [exact H2|].
    destruct (H3 I) as [H4 _].
    exact (proj2 (H4 ltac:(vm_compute; reflexivity))).
  - destruct (getNextSlot_seeded Luxon.EuropeBerlin 60
                (Scenario.midnight + Scenario.minutes 1380) D24h)
      as (slot & H1 & H2 & _ & _ & H3).
    exists slot. split; [exact H1|]. split; [exact H2|].
    destruct (H3 I) as [_ H4].
    exact (proj2 (H4 ltac:(vm_compute; reflexivity))).
Defined.

(** X10: on the table that [initializeSlotConfigs] writes, [getAllSlots] lists
    the slots 1..slotCount of the duration in order, each with the points of
    [getPointsForSlot] and the penalty max(1, floor(points/2)), and marks as
    active the slot of [getCurrentSlot] and no other; on a server without
    daylight saving exactly one slot is marked. *)
Theorem getAllSlots_seeded :
  forall tz t d,
    let slots := getAllSlots tz (initializeSlotConfigs []) t d in
    let n := getCurrentSlot tz t d in
    map slotNumber slots
    = map (fun k => Z.of_nat k + 1)
          (seq 0 (Z.to_nat (intervals (SLOT_CONFIGURATIONS d))))
    /\ Forall (fun s =>
                 pointsIfCorrect s = getPointsForSlot d (slotNumber s)
                 /\ penaltyIfWrong s = Z.max 1 (pointsIfCorrect s / 2)
                 /\ isActive s = (slotNumber s =? n)) slots
    /\ (forall m, tz = JSDate.fixedZone m ->
          map slotNumber (filter isActive slots) = [n]).
Proof.
  intros tz t d slots n.
  assert (Hslots : slots
                   = map (fun config =>
                            {| slotNumber := SlotConfig.slotNumber config;
                               startTime := SlotConfig.startTime config;
                               endTime := SlotConfig.endTime config;
                               pointsIfCorrect :=
                                 SlotConfig.pointsIfCorrect config;
                               penaltyIfWrong :=
                                 SlotConfig.penaltyIfWrong config;
                               isActive := SlotConfig.slotNumber config =? n |})
                         (slotsOf d)).
  { subst slots. unfold getAllSlots. fold n.
    change (initializeSlotConfigs []) with allSlots.
    rewrite orderBySlotNumber_seeded. reflexivity. }
  rewrite Hslots. clear Hslots slots.
  split; [|split].
  - rewrite map_map. cbn [slotNumber]. unfold slotsOf. rewrite map_map.
    reflexivity.
  - apply Forall_forall. intros s Hs. apply in_map_iff in Hs.
    destruct Hs as (c & <- & Hc). cbn [pointsIfCorrect penaltyIfWrong
      slotNumber isActive].
    assert (Hall : In c allSlots).
    { unfold allSlots. apply in_flat_map. exists d. split; [|exact Hc].
      destruct d; simpl; tauto. }
    assert (Hd : SlotConfig.duration c = d).
    { unfold slotsOf in Hc. apply in_map_iff in Hc.
      destruct Hc as (k & <- & _). reflexivity. }
    destruct (seeded_rows c Hall) as [Hr Hf]. rewrite Hd in Hr, Hf.
    rewrite (findSlotConfig_seeded d _ Hr) in Hf. injection Hf as Hf.
    rewrite <- Hf. cbn [SlotConfig.pointsIfCorrect SlotConfig.penaltyIfWrong
      SlotConfig.slotNumber]. repeat split; reflexivity.
  - intros m ->. pose proof (getCurrentSlot_range m t d) as Hr. fold n in Hr.
    pose proof (slot_cases d n Hr) as Hn. clearbody n.
    destruct d; cbn in Hr;
      repeat (destruct Hn as [-> | Hn]); try subst n; try lia;
      vm_compute; reflexivity.
Qed.

(** At noon on a server at UTC+1 the one active slot of 24h is slot 5. *)
Lemma getAllSlots_seeded_witness :
  map slotNumber
    (filter isActive
       (getAllSlots Scenario.serverZone (initializeSlotConfigs [])
          Scenario.wednesdayNoon D24h))
  = [getCurrentSlot Scenario.serverZone Scenario.wednesdayNoon D24h].
Proof.
  exact (proj2 (proj2 (getAllSlots_seeded Scenario.serverZone
                         Scenario.wednesdayNoon D24h)) 60 eq_refl).
Defined.

(** ** The slots still open *)

Section ValidSlotsFacts.
Variable Berlin : Luxon.Zone.

Lemma getSlotForDate_range clock d :
  1 <= slotNumber (getSlotForDate Berlin clock d)
    <= intervals (SLOT_CONFIGURATIONS d).
Proof.
  unfold getSlotForDate. cbn [slotNumber]. unfold slotNumberFor.
  apply clamp_range. apply config_positive.
Qed.

End ValidSlotsFacts.

(** X11: [getValidSlotsForDuration] lists the slots from the current one of
    [getSlotForDate] to the last one, in order and without gaps; the list is
    never empty; a slot number is listed exactly when it is at most the slot
    count and [isSlotValid] accepts it; every listed slot carries the points
    of [getPointsForSlot] and the penalty max(1, floor(points/2)), and only
    the current one is marked active. For the durations up to 48h the first
    entry is the slot of [getSlotForDate], marked active. *)
Theorem getValidSlotsForDuration_lists :
  forall Berlin clock d,
    let current := getSlotForDate Berlin clock d in
    let count := intervals (SLOT_CONFIGURATIONS d) in
    let slots := getValidSlotsForDuration Berlin clock d in
    map slotNumber slots
    = map (fun k => slotNumber current + Z.of_nat k)
          (seq 0 (Z.to_nat (count - slotNumber current + 1)))
    /\ (1 <= List.length slots)%nat
    /\ (forall n, In n (map slotNumber slots)
                  <-> (n <= count /\ isSlotValid Berlin clock d n = true))
    /\ Forall (fun s =>
                 pointsIfCorrect s = getPointsForSlot d (slotNumber s)
                 /\ penaltyIfWrong s = Z.max 1 (pointsIfCorrect s / 2)
                 /\ isActive s = (slotNumber s =? slotNumber current)) slots
    /\ (match d with D1h | D3h | D6h | D24h | D48h => True | _ => False end ->
        hd_error slots
        = Some {| slotNumber := slotNumber current;
                  startTime := startTime current;
                  endTime := endTime current;
                  pointsIfCorrect := pointsIfCorrect current;
                  penaltyIfWrong := penaltyIfWrong current;
                  isActive := true |}).
Proof.
  intros Berlin clock d current count slots.
  pose proof (getSlotForDate_range Berlin clock d) as Hr.
  fold current count in Hr.
  assert (Hnum : map slotNumber slots
                 = map (fun k => slotNumber current + Z.of_nat k)
                       (seq 0 (Z.to_nat (count - slotNumber current + 1)))).
  { subst slots. unfold getValidSlotsForDuration.
    change (Luxon.toJSDate (Luxon.fromJSDate clock Berlin)) with clock.
    fold current count. rewrite map_map. cbn [slotNumber].
    replace (count - (slotNumber current - 1))
      with (count - slotNumber current + 1) by lia.
    apply map_ext. intros k. lia. }
  assert (Hlen : List.length slots
                 = Z.to_nat (count - slotNumber current + 1)).
  { rewrite <- (length_map slotNumber slots), Hnum, length_map, length_seq.
    reflexivity. }
  split; [exact Hnum|]. split; [lia|]. split; [|split].
  - intros n. rewrite Hnum, in_map_iff. unfold isSlotValid.
    change (Luxon.toJSDate (Luxon.fromJSDate clock Berlin)) with clock.
    fold current. rewrite Z.geb_leb, Z.leb_le. split.
    + intros (k & <- & Hk). apply in_seq in Hk. lia.
    + intros [H1 H2]. exists (Z.to_nat (n - slotNumber current)).
      split; [lia|]. apply in_seq. lia.
  - apply Forall_forall. intros s Hs. subst slots.
    unfold getValidSlotsForDuration in Hs.
    change (Luxon.toJSDate (Luxon.fromJSDate clock Berlin)) with clock in Hs.
    fold current count in Hs. apply in_map_iff in Hs.
    destruct Hs as (k & <- & Hk). apply in_seq in Hk.
    cbn [pointsIfCorrect penaltyIfWrong slotNumber isActive].
    split; [|split; reflexivity].
    replace (slotNumber current - 1 + Z.of_nat k)
      with (slotNumber current - 1 + Z.of_nat k + 1 - 1) at 1 by lia.
    apply pointsAt_getPointsForSlot. fold count. lia.
  - intros Hd. subst slots. unfold getValidSlotsForDuration.
    change (Luxon.toJSDate (Luxon.fromJSDate clock Berlin)) with clock.
    fold current count.
    destruct (Z.to_nat (count - (slotNumber current - 1))) as [|k] eqn:E;
      [lia|].
    cbn [seq map hd_error]. f_equal.
    replace (slotNumber current - 1 + Z.of_nat 0) with (slotNumber current - 1)
      by lia.
    replace (slotNumber current - 1 + 1) with (slotNumber current) by lia.
    rewrite Z.eqb_refl. subst current. unfold getSlotForDate.
    cbn [slotNumber startTime endTime pointsIfCorrect penaltyIfWrong].
    unfold slotStartFor, slotEndFor.
    destruct d; try contradiction; reflexivity.
Qed.

(** At 00:20 in Berlin the open slots of 1h are 2, 3 and 4. *)
Lemma getValidSlotsForDuration_lists_witness :
  hd_error (getValidSlotsForDuration Luxon.EuropeBerlin
              (Scenario.midnight + Scenario.minutes 20) D1h)
  = Some {| slotNumber := 2; startTime := "00:15"; endTime := "00:29";
            pointsIfCorrect := 5; penaltyIfWrong := 2; isActive := true |}.
Proof.
  exact (proj2 (proj2 (proj2 (proj2
           (getValidSlotsForDuration_lists Luxon.EuropeBerlin
              (Scenario.midnight + Scenario.minutes 20) D1h)))) I).
Defined.

(** ** The hand-made "CEST" clock of the earlier slot service *)

(** X12: on a server whose zone is [m] minutes east of Greenwich all year, the
    date that the earlier [getCurrentCESTTime] returns is the instant of the
    clock moved by two hours less [m] minutes; read on that server it shows
    the wall clock of Greenwich plus two hours. It is the instant of the
    clock, which is what the later [getCurrentCESTTime] returns, exactly on
    a server at UTC+2. *)
Theorem legacy_getCurrentCESTTime_shift :
  forall Berlin m t,
    let tz := JSDate.fixedZone m in
    let cest := LegacySlotService.getCurrentCESTTime tz t in
    cest = t + (120 - m) * Calendar.msPerMinute
    /\ JSDate.LocalTime tz cest = t + 2 * Calendar.msPerHour
    /\ (cest = getCurrentCESTTime Berlin t <-> m = 120).
Proof.
  intros Berlin m t tz cest. subst cest tz.
  unfold LegacySlotService.getCurrentCESTTime, JSDate.getTimezoneOffset,
    JSDate.LocalTime, getCurrentCESTTime, Luxon.toJSDate, Luxon.fromJSDate.
  cbn [Luxon.ts JSDate.utcOffsetAt JSDate.fixedZone].
  unfold Calendar.msPerMinute, Calendar.msPerHour.
  replace (t - (t + m * 60000)) with (- m * 60000) by lia.
  rewrite Z.div_mul by lia. repeat split; lia.
Qed.

(** At 00:30 of a winter night in Berlin, on a server at UTC+2. *)
Lemma legacy_getCurrentCESTTime_shift_witness :
  LegacySlotService.getCurrentCESTTime (JSDate.fixedZone 120)
    (Scenario.midnight + Scenario.minutes 30)
  = getCurrentCESTTime Luxon.EuropeBerlin
      (Scenario.midnight + Scenario.minutes 30).
Proof.
  apply (proj2 (proj2 (legacy_getCurrentCESTTime_shift Luxon.EuropeBerlin 120
                         (Scenario.midnight + Scenario.minutes 30)))).
  reflexivity.
Defined.

(** ** The remaining time in words *)

Section TextFacts.
Open Scope string_scope.

Lemma append_nonempty a b : b <> "" -> a ++ b <> "".
Proof. destruct a; simpl; [auto | discriminate]. Qed.

Lemma last_append a b d :
  b <> "" ->
  last (list_ascii_of_string (a ++ b)) d = last (list_ascii_of_string b) d.
Proof.
  intros Hb. induction a as [|c a IH]; [reflexivity|].
  simpl. rewrite <- IH.
  destruct (list_ascii_of_string (a ++ b)) eqn:E; [|reflexivity].
  exfalso. apply (append_nonempty a b Hb).
  destruct (a ++ b); [reflexivity | discriminate E].
Qed.

End TextFacts.

(** X13: [formatTimeRemaining] says "Expired" exactly when no time is left; below
    one minute it shows the whole seconds alone. *)
Theorem formatTimeRemaining_expired :
  forall milliseconds,
    (formatTimeRemaining milliseconds = "Expired"%string <-> milliseconds <= 0)
    /\ (0 < milliseconds < 60000 ->
        formatTimeRemaining milliseconds
        = (toString (milliseconds / 1000) ++ "s")%string).
Proof.
  intros ms. unfold formatTimeRemaining. split.
  - destruct (ms <=? 0) eqn:E.
    + apply Z.leb_le in E. tauto.
    + apply Z.leb_gt in E. split; [|lia]. intros H. exfalso.
      apply (f_equal (fun s => last (list_ascii_of_string s) Ascii.zero)) in H.
      revert H.
      destruct (ms / 1000 / 60 / 60 / 24 >? 0);
        [|destruct (ms / 1000 / 60 / 60 >? 0);
          [|destruct (ms / 1000 / 60 >? 0)]];
        repeat (rewrite last_append
                  by (repeat apply append_nonempty; discriminate));
        simpl; discriminate.
  - intros H. rewrite (proj2 (Z.leb_gt ms 0)) by lia.
    assert (Hs : 0 <= ms / 1000 < 60).
    { split; [apply Z.div_pos; lia | apply Z.div_lt_upper_bound; lia]. }
    assert (Hm : ms / 1000 / 60 = 0) by (apply Z.div_small; exact Hs).
    rewrite Hm. reflexivity.
Qed.

(** Half a minute. *)
Lemma formatTimeRemaining_expired_witness :
  formatTimeRemaining 30500 = "30s"%string.
Proof.
  exact (proj2 (formatTimeRemaining_expired 30500)
           (conj eq_refl eq_refl)).
Defined.

(** ** The slot of a date *)

(** X14: the slot that [getSlotForDate] finds holds the date whenever the date
    lies within the span that the slots cover from the period start on: the
    slot has begun, the next one has not, and the slot number is the elapsed
    time over the slot length, rounded down, plus one. The end that the slot
    shows is the last whole minute, so the date is at most 59999 ms after it.
    Once the span is over the slot found is the last one and has ended; a
    date before the period start is given slot 1, which has not begun. *)
Theorem getSlotForDate_contains :
  forall Berlin date d,
    let periodStart := periodStartFor (Luxon.fromJSDate date Berlin) d in
    let config := SLOT_CONFIGURATIONS d in
    let n := slotNumber (getSlotForDate Berlin date d) in
    let slotStart := Luxon.ts (slotStartFor periodStart config n) in
    let slotEnd := Luxon.ts (slotEndFor periodStart config n) in
    let elapsed := date - Luxon.ts periodStart in
    let span := intervals config * slotMillis d in
    (0 <= elapsed < span ->
     n = elapsed / slotMillis d + 1
     /\ slotStart <= date < slotStart + slotMillis d
     /\ date <= slotEnd + 59999)
    /\ (span <= elapsed -> n = intervals config /\ slotEnd < date)
    /\ (elapsed < 0 -> n = 1 /\ date < slotStart).
Proof.
  intros Berlin date d periodStart config n slotStart slotEnd elapsed span.
  destruct (config_positive d) as [Hlen Hcount]. fold config in Hlen, Hcount.
  pose proof (slotMillis_positive d) as Hp.
  assert (Hn : n = Z.min (Z.max (elapsed / slotMillis d + 1) 1)
                         (intervals config)) by reflexivity.
  assert (Hs : slotStart = Luxon.ts periodStart + (n - 1) * slotMillis d).
  { subst slotStart. unfold slotStartFor, Luxon.plusMinutes, slotMillis.
    cbn [Luxon.ts]. fold config. lia. }
  assert (He : slotEnd = Luxon.ts periodStart + n * slotMillis d - 60000).
  { subst slotEnd. unfold slotEndFor, Luxon.plusMinutes, slotMillis,
      Calendar.msPerMinute. cbn [Luxon.ts]. fold config. lia. }
  pose proof (Z.mul_div_le elapsed _ Hp) as Hq1.
  pose proof (Z.mul_succ_div_gt elapsed _ Hp) as Hq2.
  set (L := slotMillis d) in *. set (I := intervals config) in *.
  set (q := elapsed / L) in *. subst span. clearbody n slotStart slotEnd q.
  split; [|split].
  - intros [H0 H1].
    assert (0 <= q) by (destruct (Z_lt_ge_dec q 0); [nia | lia]).
    assert (q < I) by (destruct (Z_lt_ge_dec q I); [lia | nia]).
    assert (En : n = q + 1) by lia. rewrite Hs, He, En.
    replace (q + 1 - 1) with q by lia. split; [reflexivity|]. nia.
  - intros H. assert (I <= q) by (destruct (Z_lt_ge_dec q I); [nia | lia]).
    assert (En : n = I) by lia. rewrite He, En. split; [reflexivity|]. nia.
  - intros H. assert (q < 0) by (destruct (Z_lt_ge_dec q 0); [lia | nia]).
    assert (En : n = 1) by lia. rewrite Hs, En. split; [reflexivity|]. nia.
Qed.

(** Noon of Wednesday 2024-01-17 lies in the third day of the week that
    began on Monday the 15th. *)
Lemma getSlotForDate_contains_witness :
  let periodStart :=
    periodStartFor (Luxon.fromJSDate Scenario.wednesdayNoon Luxon.EuropeBerlin)
      D1w in
  let n := slotNumber (getSlotForDate Luxon.EuropeBerlin Scenario.wednesdayNoon
                         D1w) in
  n = 3
  /\ Luxon.ts (slotStartFor periodStart (SLOT_CONFIGURATIONS D1w) n)
     <= Scenario.wednesdayNoon.
Proof.
  intros periodStart n.
  destruct (proj1 (getSlotForDate_contains Luxon.EuropeBerlin
                     Scenario.wednesdayNoon D1w)) as (H1 & [H2 _] & _).
  - vm_compute. split; [discriminate | reflexivity].
  - split; [exact H1 | exact H2].
Defined.

(* ================================================================== *)
(** * Further properties of the prediction service *)

(** ** Profiles *)

Section ProfileFacts.
Open Scope string_scope.

(** An update of the rows of one user, seen through [findFirst]. *)
Lemma find_profile_update uid (g : UserProfile.t -> UserProfile.t) us uid' :
  (forall u, UserProfile.userId (g u) = UserProfile.userId u) ->
  find (fun u => UserProfile.userId u =? uid')
       (map (fun u => if UserProfile.userId u =? uid then g u else u) us)
  = option_map (fun u => if UserProfile.userId u =? uid then g u else u)
      (find (fun u => UserProfile.userId u =? uid') us).
Proof.
  intros Hg. induction us as [|u us IH]; [reflexivity|].
  cbn [map find].
  assert (E : UserProfile.userId
                (if UserProfile.userId u =? uid then g u else u)
              = UserProfile.userId u)
    by (destruct (UserProfile.userId u =? uid); [apply Hg | reflexivity]).
  rewrite E. destruct (UserProfile.userId u =? uid'); [reflexivity | exact IH].
Qed.

Lemma find_profile_id uid us u :
  find (fun u => UserProfile.userId u =? uid) us = Some u ->
  UserProfile.userId u = uid.
Proof.
  intros H. apply find_some in H. destruct H as [_ H].
  apply String.eqb_eq in H. exact H.
Qed.

Lemma creditProfile_profiles uid c pts db u :
  find (fun u => UserProfile.userId u =? uid) (userProfiles db) = Some u ->
  let db' := snd (creditProfile uid c pts db) in
  find (fun u => UserProfile.userId u =? uid) (userProfiles db')
  = Some {| UserProfile.userId := UserProfile.userId u;
            UserProfile.totalPredictions := UserProfile.totalPredictions u + 1;
            UserProfile.correctPredictions :=
              UserProfile.correctPredictions u + (if c then 1 else 0);
            UserProfile.monthlyScore := UserProfile.monthlyScore u + pts;
            UserProfile.totalScore := UserProfile.totalScore u + pts |}
  /\ (forall uid', uid' <> uid ->
        find (fun u => UserProfile.userId u =? uid') (userProfiles db')
        = find (fun u => UserProfile.userId u =? uid') (userProfiles db))
  /\ List.length (userProfiles db') = List.length (userProfiles db)
  /\ users db' = users db /\ assets db' = assets db
  /\ predictions db' = predictions db.
Proof.
  intros Hu db'. subst db'.
  unfold creditProfile, bind, findProfile, query, modify. rewrite Hu.
  cbn [snd userProfiles withUserProfiles users assets predictions].
  pose proof (find_profile_id _ _ _ Hu) as Hid.
  split; [|split; [|split; [apply length_map | auto]]].
  - rewrite find_profile_update by reflexivity. rewrite Hu. cbn [option_map].
    rewrite Hid, String.eqb_refl. reflexivity.
  - intros uid' Hne. rewrite find_profile_update by reflexivity.
    destruct (find (fun u => UserProfile.userId u =? uid') (userProfiles db))
      as [v|] eqn:Hv; [|reflexivity].
    cbn [option_map]. apply find_profile_id in Hv. rewrite Hv.
    destruct (uid' =? uid) eqn:E; [|reflexivity].
    apply String.eqb_eq in E. contradiction.
Qed.

Lemma countPrediction_profiles uid db :
  let db' := snd (countPrediction uid db) in
  find (fun u => UserProfile.userId u =? uid) (userProfiles db')
  = Some {| UserProfile.userId := uid;
            UserProfile.totalPredictions :=
              UserProfile.totalPredictions (profileOf uid db) + 1;
            UserProfile.correctPredictions :=
              UserProfile.correctPredictions (profileOf uid db);
            UserProfile.monthlyScore := UserProfile.monthlyScore (profileOf uid db);
            UserProfile.totalScore := UserProfile.totalScore (profileOf uid db) |}
  /\ (forall uid', uid' <> uid ->
        find (fun u => UserProfile.userId u =? uid') (userProfiles db')
        = find (fun u => UserProfile.userId u =? uid') (userProfiles db))
  /\ users db' = users db /\ assets db' = assets db
  /\ predictions db' = predictions db.
Proof.
  intros db'. subst db'.
  unfold countPrediction, bind, findProfile, query, modify, profileOf.
  destruct (find _ (userProfiles db)) as [u|] eqn:Hu;
    cbn [snd userProfiles withUserProfiles users assets predictions
         UserProfile.totalPredictions UserProfile.correctPredictions
         UserProfile.monthlyScore UserProfile.totalScore].
  - pose proof (find_profile_id _ _ _ Hu) as Hid.
    split; [|split; [|auto]].
    + rewrite find_profile_update by reflexivity. rewrite Hu. cbn [option_map].
      rewrite Hid, String.eqb_refl. reflexivity.
    + intros uid' Hne. rewrite find_profile_update by reflexivity.
      destruct (find (fun u => UserProfile.userId u =? uid') (userProfiles db))
        as [v|] eqn:Hv; [|reflexivity].
      cbn [option_map]. apply find_profile_id in Hv. rewrite Hv.
      destruct (uid' =? uid) eqn:E; [|reflexivity].
      apply String.eqb_eq in E. contradiction.
  - split; [|split; [|auto]].
    + rewrite find_none_app by exact Hu. cbn [find UserProfile.userId].
      rewrite String.eqb_refl. reflexivity.
    + intros uid' Hne.
      destruct (find (fun u => UserProfile.userId u =? uid') (userProfiles db))
        as [v|] eqn:Hv.
      * induction (userProfiles db) as [|w ws IH]; [discriminate|].
        cbn [find app] in Hv |- *.
        destruct (UserProfile.userId w =? uid'); [exact Hv|].
        apply IH; [|exact Hv].
        cbn [find] in Hu. destruct (UserProfile.userId w =? uid);
          [discriminate | exact Hu].
      * rewrite find_none_app by exact Hv. cbn [find UserProfile.userId].
        destruct (uid =? uid') eqn:E; [|reflexivity].
        apply String.eqb_eq in E. congruence.
Qed.

End ProfileFacts.

(** ** What a creation and an evaluation write *)

Section WriteFacts.
Variable env : Env.
Open Scope string_scope.

(** The store after a creation that returned. *)
Lemma createPrediction_stored now fid input db p db' :
  createPrediction env now fid input db = (Returned p, db') ->
  truthy (Prediction.priceStart p) = true
  /\ db' = snd (countPrediction (CreatePredictionInput.userId input)
                  (withPredictions db (predictions db ++ [p])%list)).
Proof.
  unfold createPrediction, bind at 1, findUser, query.
  destruct (find _ (users db)) as [user|] eqn:Hu; [|discriminate].
  unfold bind at 1, when_.
  destruct (User.emailVerified user) eqn:Hv; cbn [negb]; [|discriminate].
  unfold ret at 1. unfold bind at 1, findAssetBySymbol, query.
  destruct (find _ (assets db)) as [asset|] eqn:Ha; [|discriminate].
  unfold bind at 1, when_.
  destruct (Asset.isActive asset) eqn:Hact; cbn [negb]; [|discriminate].
  unfold ret at 1. unfold bind at 1.
  destruct (env_isSlotValid env now _ _) eqn:Hval; cbn [negb]; [|discriminate].
  unfold ret at 1. unfold bind at 1, query.
  destruct (find _ (predictions db)) eqn:Hdup; [discriminate|].
  unfold bind at 1.
  destruct (env_isWithinActiveSlot env now now _) eqn:Hw; cbn [negb];
    [|discriminate].
  unfold ret at 1. unfold bind at 1.
  destruct (fetchPrice env now _ PriceUnavailable db)
    as [[price|err'] db1] eqn:Hf; [|discriminate].
  apply fetchPrice_returned in Hf. destruct Hf as (-> & _ & Ht).
  unfold bind at 1, insertPrediction, bind at 1, modify, ret at 1.
  unfold bind at 1.
  match goal with
  | |- context [countPrediction ?u ?d] =>
      destruct (countPrediction_frame u d) as (db3 & Hc & _);
      pose proof (f_equal snd Hc) as Hsnd; rewrite Hc
  end.
  unfold ret. intros H. injection H as <- <-.
  split; [exact Ht|]. cbn [snd] in Hsnd. symmetry. exact Hsnd.
Qed.

End WriteFacts.

(** X15: a creation that returns has stored one more row and nothing else in the
    table of predictions: the row returned, active, pending, without points,
    with the key given by the database, the slot that [getCurrentActiveSlot]
    named, an expiry equal to the end of that slot and a usable entry price.
    It has counted the row in the profile of the user (a new user gets a
    profile with a count of one and scores of zero) and has left the other
    profiles, the users and the assets as they were. A creation that throws
    leaves the database as it was. *)
Theorem createPrediction_effects :
  (forall env now fid input db p,
     fst (createPrediction env now fid input db) = Returned p ->
     let db' := snd (createPrediction env now fid input db) in
     let uid := CreatePredictionInput.userId input in
     let slot := env_getCurrentActiveSlot env now
                   (CreatePredictionInput.duration input) in
     predictions db' = (predictions db ++ [p])%list
     /\ Prediction.id p = fid
     /\ Prediction.userId p = uid
     /\ Prediction.status p = Active
     /\ Prediction.result p = Pending
     /\ Prediction.pointsAwarded p = None
     /\ Prediction.slotNumber p = as_slotNumber slot
     /\ Prediction.slotStart p = as_slotStart slot
     /\ Prediction.slotEnd p = as_slotEnd slot
     /\ Prediction.timestampExpiration p = as_slotEnd slot
     /\ truthy (Prediction.priceStart p) = true
     /\ find (fun u => UserProfile.userId u =? uid)%string (userProfiles db')
        = Some {| UserProfile.userId := uid;
                  UserProfile.totalPredictions :=
                    UserProfile.totalPredictions (profileOf uid db) + 1;
                  UserProfile.correctPredictions :=
                    UserProfile.correctPredictions (profileOf uid db);
                  UserProfile.monthlyScore :=
                    UserProfile.monthlyScore (profileOf uid db);
                  UserProfile.totalScore :=
                    UserProfile.totalScore (profileOf uid db) |}
     /\ (forall uid', uid' <> uid ->
           find (fun u => UserProfile.userId u =? uid')%string (userProfiles db')
           = find (fun u => UserProfile.userId u =? uid')%string
                  (userProfiles db))
     /\ users db' = users db /\ assets db' = assets db)
  /\ (forall env now fid input db err,
        fst (createPrediction env now fid input db) = Thrown err ->
        snd (createPrediction env now fid input db) = db).
Proof.
  split.
  - intros env now fid input db p H db' uid slot. subst db'.
    destruct (createPrediction env now fid input db) as [r db'] eqn:E.
    cbn [fst] in H. subst r. cbn [snd].
    pose proof (createPrediction_returned env now fid input db p db' E) as R.
    cbv zeta in R. fold uid slot in R.
    destruct R as (user & asset & price & _ & _ & _ & _ & _ & _ & _ & Hp & Hps
                   & Hus & Has).
    destruct (createPrediction_stored env now fid input db p db' E)
      as [Hprice Hdb].
    fold uid in Hdb.
    pose proof (countPrediction_profiles uid
                  (withPredictions db (predictions db ++ [p])%list)) as C.
    cbv zeta in C. rewrite <- Hdb in C.
    destruct C as (C1 & C2 & _).
    split; [exact Hps|].
    rewrite Hp at 1 2 3 4 5 6 7 8 9.
    cbn [newPrediction Prediction.id Prediction.userId Prediction.status
         Prediction.result Prediction.pointsAwarded Prediction.slotNumber
         Prediction.slotStart Prediction.slotEnd
         Prediction.timestampExpiration].
    do 9 (split; [reflexivity|]). split; [exact Hprice|].
    split; [exact C1|]. split; [exact C2|]. split; assumption.
  - intros env now fid input db err H.
    destruct (createPrediction env now fid input db) as [r db'] eqn:E.
    cbn [fst] in H. subst r. cbn [snd].
    exact (createPrediction_thrown env now fid input db err db' E).
Qed.

(** Alice's first bet: a profile with a count of one. *)
Lemma createPrediction_effects_witness :
  let db' := snd (createPrediction (Scenario.quoting 100)
                    (Scenario.midnight + Scenario.minutes 5) "p1"
                    (Scenario.request D1h) (Scenario.world [] [])) in
  List.length (predictions db') = 1%nat
  /\ find (fun u => UserProfile.userId u =? "alice")%string (userProfiles db')
     = Some (Scenario.profile 1 0 0 0).
Proof.
  intros db'.
  destruct (proj1 createPrediction_effects (Scenario.quoting 100)
              (Scenario.midnight + Scenario.minutes 5) "p1"%string
              (Scenario.request D1h) (Scenario.world [] [])
              (newPrediction "p1" (Scenario.midnight + Scenario.minutes 5)
                 "alice" "asset-btc" Up D1h
                 (env_getCurrentActiveSlot (Scenario.quoting 100)
                    (Scenario.midnight + Scenario.minutes 5) D1h) 100)
              ltac:(vm_compute; reflexivity))
    as (H1 & _ & _ & _ & _ & _ & _ & _ & _ & _ & _ & H2 & _).
  split; [fold db' in H1; rewrite H1; reflexivity | exact H2].
Defined.

(** X16: when the owner of the prediction has a profile, an evaluation that
    returns has counted the prediction in it once more, counted it as
    correct if it was, and added the points awarded, which may be negative,
    to the monthly and to the total score; the profiles of the other users,
    the users and the assets are as they were. *)
Theorem evaluatePrediction_credits :
  forall env now pid db out p u,
    fst (evaluatePrediction env now pid db) = Returned out ->
    find (fun q => Prediction.id q =? pid)%string (predictions db) = Some p ->
    find (fun v => UserProfile.userId v =? Prediction.userId p)%string
         (userProfiles db) = Some u ->
    let db' := snd (evaluatePrediction env now pid db) in
    find (fun v => UserProfile.userId v =? Prediction.userId p)%string
         (userProfiles db')
    = Some {| UserProfile.userId := UserProfile.userId u;
              UserProfile.totalPredictions := UserProfile.totalPredictions u + 1;
              UserProfile.correctPredictions :=
                UserProfile.correctPredictions u
                + (if Evaluation.isCorrect out then 1 else 0);
              UserProfile.monthlyScore :=
                UserProfile.monthlyScore u + Evaluation.pointsAwarded out;
              UserProfile.totalScore :=
                UserProfile.totalScore u + Evaluation.pointsAwarded out |}
    /\ (forall uid', uid' <> Prediction.userId p ->
          find (fun v => UserProfile.userId v =? uid')%string (userProfiles db')
          = find (fun v => UserProfile.userId v =? uid')%string
                 (userProfiles db))
    /\ List.length (userProfiles db') = List.length (userProfiles db)
    /\ users db' = users db /\ assets db' = assets db.
Proof.
  intros env now pid db out p u H Hp Hu db'. subst db'.
  destruct (evaluatePrediction env now pid db) as [r db'] eqn:E.
  cbn [fst] in H. subst r. cbn [snd].
  apply evaluatePrediction_returned in E.
  destruct E as (p' & a & e & s & base & Hp' & _ & _ & _ & _ & _ & _ & -> & ->).
  rewrite Hp in Hp'. injection Hp' as <-.
  cbn [Evaluation.isCorrect Evaluation.pointsAwarded].
  set (c := judge (Prediction.direction p) e s).
  set (pts := awardPoints base c e s).
  pose proof (creditProfile_profiles (Prediction.userId p) c pts
                (withPredictions db
                   (evaluatedRows now pid c pts e (predictions db))) u Hu) as C.
  cbv zeta in C. destruct C as (C1 & C2 & C3 & C4 & C5 & _).
  repeat split; assumption.
Qed.

(** The 1h bet, won by alice who had one prediction counted and no points. *)
Lemma evaluatePrediction_credits_witness :
  find (fun v => UserProfile.userId v =? "alice")%string
    (userProfiles
       (snd (evaluatePrediction (Scenario.quoting 100.05)
               (Scenario.midnight + Scenario.minutes 15) "p1"
               (Scenario.world [Scenario.hourBet Up]
                  [Scenario.profile 1 0 0 0]))))
  = Some (Scenario.profile 2 1 20 20).
Proof.
  exact (proj1 (evaluatePrediction_credits (Scenario.quoting 100.05)
                  (Scenario.midnight + Scenario.minutes 15) "p1"%string
                  (Scenario.world [Scenario.hourBet Up]
                     [Scenario.profile 1 0 0 0])
                  {| Evaluation.predictionId := "p1";
                     Evaluation.isCorrect := true;
                     Evaluation.pointsAwarded := 20;
                     Evaluation.startPrice := 100;
                     Evaluation.endPrice := 100.05 |}
                  (Scenario.hourBet Up) (Scenario.profile 1 0 0 0)
                  eq_refl eq_refl eq_refl)).
Defined.

(** X17: one prediction is counted twice: when a creation has returned a row
    under a key that was not in use, and the evaluation of that row returns,
    the total of predictions in the profile of the user is two more than
    before the creation (before which a new user counts as zero), while the
    correct ones grow by at most one and the scores by the points awarded. *)
Theorem prediction_counted_twice :
  forall env now fid input db p env' now' out,
    find (fun q => Prediction.id q =? fid)%string (predictions db) = None ->
    fst (createPrediction env now fid input db) = Returned p ->
    let db1 := snd (createPrediction env now fid input db) in
    fst (evaluatePrediction env' now' fid db1) = Returned out ->
    let db2 := snd (evaluatePrediction env' now' fid db1) in
    let uid := CreatePredictionInput.userId input in
    let before := profileOf uid db in
    find (fun u => UserProfile.userId u =? uid)%string (userProfiles db2)
    = Some {| UserProfile.userId := uid;
              UserProfile.totalPredictions :=
                UserProfile.totalPredictions before + 2;
              UserProfile.correctPredictions :=
                UserProfile.correctPredictions before
                + (if Evaluation.isCorrect out then 1 else 0);
              UserProfile.monthlyScore :=
                UserProfile.monthlyScore before + Evaluation.pointsAwarded out;
              UserProfile.totalScore :=
                UserProfile.totalScore before + Evaluation.pointsAwarded out |}
    /\ List.length (predictions db2) = S (List.length (predictions db)).
Proof.
  intros env now fid input db p env' now' out Hfresh Hc db1 He db2 uid before.
  destruct (createPrediction env now fid input db) as [r db1'] eqn:E.
  cbn [fst] in Hc. subst r. cbn [snd] in db1. subst db1.
  pose proof (createPrediction_returned env now fid input db p db1' E) as R.
  cbv zeta in R.
  destruct R as (user & asset & price & _ & _ & _ & _ & _ & _ & _ & Hp & Hps & _).
  destruct (createPrediction_stored env now fid input db p db1' E) as [_ Hdb].
  fold uid in Hdb.
  pose proof (countPrediction_profiles uid
                (withPredictions db (predictions db ++ [p])%list)) as C.
  cbv zeta in C. rewrite <- Hdb in C. destruct C as (C1 & _).
  change (profileOf uid (withPredictions db (predictions db ++ [p])%list))
    with before in C1.
  assert (Hid : Prediction.id p = fid) by (rewrite Hp; reflexivity).
  assert (Huid : Prediction.userId p = uid) by (rewrite Hp; reflexivity).
  assert (Hfind : find (fun q => Prediction.id q =? fid)%string
                       (predictions db1') = Some p).
  { rewrite Hps, find_none_app by exact Hfresh. cbn [find].
    rewrite Hid, String.eqb_refl. reflexivity. }
  pose proof (evaluatePrediction_frame env' now' fid db1') as Hframe.
  destruct (evaluatePrediction env' now' fid db1') as [r db2'] eqn:E2.
  cbn [fst] in He. subst r. cbn [snd] in db2, Hframe. subst db2.
  destruct (evaluatePrediction_returned env' now' fid db1' out db2' E2)
    as (p' & a & e & s & base & Hp' & _ & _ & _ & _ & _ & _ & Hout & Hdb2).
  rewrite Hfind in Hp'. injection Hp' as <-.
  set (c := judge (Prediction.direction p) e s) in *.
  set (pts := awardPoints base c e s) in *.
  rewrite Huid in Hdb2.
  pose proof (creditProfile_profiles uid c pts
                (withPredictions db1'
                   (evaluatedRows now' fid c pts e (predictions db1')))
                _ C1) as K.
  cbv zeta in K. rewrite <- Hdb2 in K. destruct K as (K1 & _).
  split.
  - rewrite K1, Hout.
    cbn [Evaluation.isCorrect Evaluation.pointsAwarded UserProfile.userId
         UserProfile.totalPredictions UserProfile.correctPredictions
         UserProfile.monthlyScore UserProfile.totalScore].
    f_equal. f_equal. lia.
  - rewrite <- (Forall2_length Hframe), Hps, length_app. cbn [List.length].
    lia.
Qed.

(** Alice's first bet, made at 00:05 and won at 00:15: two predictions in
    her profile. *)
Lemma prediction_counted_twice_witness :
  let db1 := snd (createPrediction (Scenario.quoting 100)
                    (Scenario.midnight + Scenario.minutes 5) "p1"
                    (Scenario.request D1h) (Scenario.world [] [])) in
  let db2 := snd (evaluatePrediction (Scenario.quoting 100.05)
                    (Scenario.midnight + Scenario.minutes 15) "p1" db1) in
  find (fun u => UserProfile.userId u =? "alice")%string (userProfiles db2)
  = Some (Scenario.profile 2 1 20 20)
  /\ List.length (predictions db2) = 1%nat.
Proof.
  exact (prediction_counted_twice (Scenario.quoting 100)
           (Scenario.midnight + Scenario.minutes 5) "p1"%string
           (Scenario.request D1h) (Scenario.world [] [])
           (newPrediction "p1" (Scenario.midnight + Scenario.minutes 5)
              "alice" "asset-btc" Up D1h
              (env_getCurrentActiveSlot (Scenario.quoting 100)
                 (Scenario.midnight + Scenario.minutes 5) D1h) 100)
           (Scenario.quoting 100.05)
           (Scenario.midnight + Scenario.minutes 15)
           {| Evaluation.predictionId := "p1";
              Evaluation.isCorrect := true;
              Evaluation.pointsAwarded := 20;
              Evaluation.startPrice := 100;
              Evaluation.endPrice := 100.05 |}
           eq_refl eq_refl eq_refl).
Defined.

(** ** The count of active predictions *)

Section CountFacts.
Open Scope string_scope.

Lemma evaluatedRows_absent now pid c pts e ps :
  ~ In pid (map Prediction.id ps) ->
  evaluatedRows now pid c pts e ps = ps.
Proof.
  induction ps as [|q ps IH]; [reflexivity|]. cbn [map In evaluatedRows].
  intros H. destruct (Prediction.id q =? pid) eqn:E.
  - apply String.eqb_eq in E. tauto.
  - f_equal. apply IH. tauto.
Qed.

(** With a primary key, an evaluation takes one row out of the active ones
    of its owner. *)
Lemma active_after_evaluation now pid c pts e ps p uid :
  NoDup (map Prediction.id ps) ->
  find (fun q => Prediction.id q =? pid) ps = Some p ->
  Prediction.status p = Active ->
  Z.of_nat (List.length
    (filter (fun q => (Prediction.userId q =? uid)
                      && isActiveStatus (Prediction.status q))
            (evaluatedRows now pid c pts e ps)))
  = Z.of_nat (List.length
      (filter (fun q => (Prediction.userId q =? uid)
                        && isActiveStatus (Prediction.status q)) ps))
    - (if Prediction.userId p =? uid then 1 else 0).
Proof.
  intros Hnd Hf Hact. induction ps as [|q ps IH]; [discriminate|].
  cbn [map] in Hnd. inversion Hnd as [|x l Hnotin Hnd']; subst.
  cbn [find] in Hf. cbn [evaluatedRows map filter].
  destruct (Prediction.id q =? pid) eqn:E.
  - injection Hf as <-. apply String.eqb_eq in E. subst pid.
    fold (evaluatedRows now (Prediction.id q) c pts e ps).
    rewrite (evaluatedRows_absent _ _ _ _ _ _ Hnotin).
    cbn [markEvaluated Prediction.userId Prediction.status isActiveStatus].
    rewrite Hact. cbn [isActiveStatus]. rewrite andb_false_r, andb_true_r.
    destruct (Prediction.userId q =? uid); cbn [List.length]; lia.
  - fold (evaluatedRows now pid c pts e ps).
    specialize (IH Hnd' Hf).
    destruct ((Prediction.userId q =? uid)
              && isActiveStatus (Prediction.status q));
      cbn [List.length]; lia.
Qed.

End CountFacts.

(** X18: [getActivePredictionsCount] reads and never writes. A creation that
    returns raises the count of its user by one and leaves the counts of the
    others; an evaluation that returns lowers the count of the owner of the
    prediction by one and leaves the counts of the others ([id] being the
    primary key of the table). *)
Theorem getActivePredictionsCount_moves :
  (forall uid db, snd (getActivePredictionsCount uid db) = db)
  /\ (forall env now fid input db p uid n,
        fst (createPrediction env now fid input db) = Returned p ->
        fst (getActivePredictionsCount uid db) = Returned n ->
        fst (getActivePredictionsCount uid
               (snd (createPrediction env now fid input db)))
        = Returned (n + (if (CreatePredictionInput.userId input =? uid)%string
                         then 1 else 0)))
  /\ (forall env now pid db out p uid n,
        uniqueIds db ->
        fst (evaluatePrediction env now pid db) = Returned out ->
        find (fun q => Prediction.id q =? pid)%string (predictions db) = Some p ->
        fst (getActivePredictionsCount uid db) = Returned n ->
        fst (getActivePredictionsCount uid
               (snd (evaluatePrediction env now pid db)))
        = Returned (n - (if (Prediction.userId p =? uid)%string then 1 else 0))).
Proof.
  split; [reflexivity|]. split.
  - intros env now fid input db p uid n H Hn.
    destruct (createPrediction env now fid input db) as [r db'] eqn:E.
    cbn [fst] in H. subst r. cbn [snd].
    pose proof (createPrediction_returned env now fid input db p db' E) as R.
    cbv zeta in R.
    destruct R as (user & asset & price & _ & _ & _ & _ & _ & _ & _ & Hp & Hps & _).
    unfold getActivePredictionsCount, query in *. cbn [fst] in *.
    injection Hn as <-. rewrite Hps, filter_app, length_app. f_equal.
    cbn [filter]. rewrite Hp at 1 2.
    cbn [newPrediction Prediction.userId Prediction.status isActiveStatus].
    rewrite andb_true_r.
    destruct (CreatePredictionInput.userId input =? uid)%string;
      cbn [List.length]; lia.
  - intros env now pid db out p uid n Hu H Hp Hn.
    destruct (evaluatePrediction env now pid db) as [r db'] eqn:E.
    cbn [fst] in H. subst r. cbn [snd].
    apply evaluatePrediction_returned in E.
    destruct E as (p' & a & e & s & base & Hp' & Hst & _ & _ & _ & _ & _ & _ & ->).
    rewrite Hp in Hp'. injection Hp' as <-.
    unfold getActivePredictionsCount, query in *. cbn [fst] in *.
    injection Hn as <-. rewrite creditProfile_predictions.
    cbn [predictions withPredictions]. f_equal.
    apply active_after_evaluation; assumption.
Qed.

(** Alice has one active prediction after her bet and none once it is
    evaluated. *)
Lemma getActivePredictionsCount_moves_witness :
  let db1 := snd (createPrediction (Scenario.quoting 100)
                    (Scenario.midnight + Scenario.minutes 5) "p1"
                    (Scenario.request D1h) (Scenario.world [] [])) in
  fst (getActivePredictionsCount "alice" db1) = Returned 1
  /\ fst (getActivePredictionsCount "alice"
            (snd (evaluatePrediction (Scenario.quoting 100.05)
                    (Scenario.midnight + Scenario.minutes 15) "p1"
                    (Scenario.world [Scenario.hourBet Up] []))))
     = Returned 0.
Proof.
  intros db1. split.
  - exact (proj1 (proj2 getActivePredictionsCount_moves) (Scenario.quoting 100)
             (Scenario.midnight + Scenario.minutes 5) "p1"%string
             (Scenario.request D1h) (Scenario.world [] [])
             (newPrediction "p1" (Scenario.midnight + Scenario.minutes 5)
                "alice" "asset-btc" Up D1h
                (env_getCurrentActiveSlot (Scenario.quoting 100)
                   (Scenario.midnight + Scenario.minutes 5) D1h) 100)
             "alice"%string 0 eq_refl eq_refl).
  - refine (proj2 (proj2 getActivePredictionsCount_moves)
              (Scenario.quoting 100.05)
              (Scenario.midnight + Scenario.minutes 15) "p1"%string
              (Scenario.world [Scenario.hourBet Up] [])
              {| Evaluation.predictionId := "p1";
                 Evaluation.isCorrect := true;
                 Evaluation.pointsAwarded := 20;
                 Evaluation.startPrice := 100;
                 Evaluation.endPrice := 100.05 |}
              (Scenario.hourBet Up) "alice"%string 1 _ eq_refl eq_refl eq_refl).
    unfold uniqueIds. simpl. constructor; [intros [] | constructor].
Defined.

(** ** The sweep *)

Section ListFacts.
Context {A B C : Type}.

Lemma Forall2_of_map (f : A -> B) (R : B -> C -> Prop) l l' :
  Forall2 R (map f l) l' -> Forall2 (fun x y => R (f x) y) l l'.
Proof.
  revert l'. induction l as [|x l IH]; intros l' H; inversion H; subst;
    constructor; auto.
Qed.

Lemma Forall2_diag (R : A -> A -> Prop) l :
  (forall x, R x x) -> Forall2 R l l.
Proof. intros H. induction l; constructor; auto. Qed.

Lemma Forall2_impl_in (R R' : A -> C -> Prop) l l' :
  (forall x y, In x l -> R x y -> R' x y) ->
  Forall2 R l l' -> Forall2 R' l l'.
Proof.
  intros H F. induction F as [|x y l l' Hxy F IH]; constructor.
  - apply H; [left; reflexivity | exact Hxy].
  - apply IH. intros a b Ha. apply H. right. exact Ha.
Qed.

Lemma Forall2_in_r (R : A -> C -> Prop) l l' y :
  Forall2 R l l' -> In y l' -> exists x, In x l /\ R x y.
Proof.
  intros F. induction F as [|x y' l l' Hxy F IH]; intros Hy; [contradiction|].
  destruct Hy as [<-|Hy].
  - exists x. split; [left; reflexivity | exact Hxy].
  - destruct (IH Hy) as (x' & Hx' & Hr). exists x'. split; [right|]; assumption.
Qed.

Lemma filter_nil_of_forall (f : A -> bool) l :
  (forall x, In x l -> f x = false) -> filter f l = [].
Proof.
  intros H. induction l as [|x l IH]; [reflexivity|]. cbn [filter].
  rewrite (H x (or_introl eq_refl)). apply IH. intros y Hy. apply H.
  right. exact Hy.
Qed.

Lemma NoDup_map_filter (g : A -> B) (f : A -> bool) l :
  NoDup (map g l) -> NoDup (map g (filter f l)).
Proof.
  induction l as [|x l IH]; [auto|]. cbn [map filter]. intros H.
  inversion H as [|y m Hnotin Hnd]; subst.
  destruct (f x); [|auto]. cbn [map]. constructor; [|auto].
  intros Hin. apply Hnotin. apply in_map_iff in Hin.
  destruct Hin as (z & Hz & Hin). apply filter_In in Hin.
  rewrite <- Hz. apply in_map. tauto.
Qed.

End ListFacts.

Section SweepFacts.
Variable env : Env.
Variable now : Z.
Open Scope string_scope.

Lemma creditProfile_tables uid c pts db :
  users (snd (creditProfile uid c pts db)) = users db
  /\ assets (snd (creditProfile uid c pts db)) = assets db.
Proof.
  unfold creditProfile, bind, findProfile, query, modify, ret.
  destruct (find _ (userProfiles db)); split; reflexivity.
Qed.

Lemma find_evaluatedRows_other pid pid' c pts e ps :
  pid' <> pid ->
  find (fun q => Prediction.id q =? pid') (evaluatedRows now pid c pts e ps)
  = find (fun q => Prediction.id q =? pid') ps.
Proof.
  intros Hne. induction ps as [|q ps IH]; [reflexivity|].
  cbn [evaluatedRows map find]. fold (evaluatedRows now pid c pts e ps).
  destruct (Prediction.id q =? pid) eqn:E.
  - cbn [markEvaluated Prediction.id]. apply String.eqb_eq in E.
    destruct (Prediction.id q =? pid') eqn:E'; [|exact IH].
    apply String.eqb_eq in E'. congruence.
  - destruct (Prediction.id q =? pid'); [reflexivity | exact IH].
Qed.

Lemma find_unique ps t :
  NoDup (map Prediction.id ps) -> In t ps ->
  find (fun q => Prediction.id q =? Prediction.id t) ps = Some t.
Proof.
  intros Hnd Hin.
  destruct (find (fun q => Prediction.id q =? Prediction.id t) ps)
    as [p|] eqn:Hf.
  - f_equal. symmetry. eapply unique_row; eauto.
  - pose proof (find_none _ _ Hf t Hin) as H. cbv beta in H.
    rewrite String.eqb_refl in H. discriminate.
Qed.

(** An evaluation writes to no row but the one with its key. *)
Lemma evaluatePrediction_touches pid db :
  Forall2 (fun q q' => Prediction.id q' = Prediction.id q
                       /\ (Prediction.id q <> pid -> q' = q))
    (predictions db) (predictions (snd (evaluatePrediction env now pid db))).
Proof.
  destruct (evaluatePrediction env now pid db) as [[out|err] db'] eqn:E.
  - apply evaluatePrediction_returned in E.
    destruct E as (p & a & e & s & base & _ & _ & _ & _ & _ & _ & _ & _ & ->).
    cbn [snd]. rewrite creditProfile_predictions.
    cbn [predictions withPredictions].
    induction (predictions db) as [|q ps IH]; cbn [evaluatedRows map];
      constructor; [|exact IH].
    destruct (Prediction.id q =? pid) eqn:Hq.
    + split; [reflexivity|]. apply String.eqb_eq in Hq. tauto.
    + auto.
  - apply evaluatePrediction_thrown in E. subst db'. cbn [snd].
    apply Forall2_diag. auto.
Qed.

Lemma sweep_touches (todo : list Prediction.t) db :
  Forall2 (fun q q' => Prediction.id q' = Prediction.id q
                       /\ (~ In (Prediction.id q) (map Prediction.id todo) ->
                           q' = q))
    (predictions db)
    (predictions
       (fold_left (fun db' p => snd (evaluatePrediction env now (Prediction.id p) db'))
                  todo db)).
Proof.
  revert db. induction todo as [|t todo IH]; intros db; cbn [fold_left map].
  - apply Forall2_diag. auto.
  - specialize (IH (snd (evaluatePrediction env now (Prediction.id t) db))).
    pose proof (evaluatePrediction_touches (Prediction.id t) db) as Hstep.
    revert IH.
    generalize (predictions
                  (fold_left
                     (fun db' p =>
                        snd (evaluatePrediction env now (Prediction.id p) db'))
                     todo (snd (evaluatePrediction env now (Prediction.id t) db)))).
    induction Hstep as [|q q1 ps ps1 [Hid Hsame] _ IHs]; intros l H;
      inversion H as [|x q2 xs l2 [Hid2 Hsame2] Hrest]; subst; constructor.
    + split; [congruence|]. intros Hnot. cbn [In] in Hnot.
      assert (q1 = q) by (apply Hsame; intros Heq; apply Hnot; left; congruence).
      subst q1. apply Hsame2. tauto.
    + apply IHs. exact Hrest.
Qed.

(** The rows that are due get evaluated one after the other. *)
Lemma sweep_runs db0 (todo : list Prediction.t) db1 :
  assets db1 = assets db0 ->
  NoDup (map Prediction.id todo) ->
  (forall t, In t todo ->
     find (fun q => Prediction.id q =? Prediction.id t) (predictions db1)
     = Some t
     /\ Prediction.status t = Active /\ evaluable env now db0 t) ->
  Forall2 (fun q q' =>
             In (Prediction.id q) (map Prediction.id todo) ->
             Prediction.status q' = Evaluated
             /\ Prediction.evaluatedAt q' = Some now)
    (predictions db1)
    (predictions
       (fold_left (fun db' p => snd (evaluatePrediction env now (Prediction.id p) db'))
                  todo db1)).
Proof.
  revert db1. induction todo as [|t todo IH]; intros db1 Ha Hnd Hall;
    cbn [fold_left map].
  - apply Forall2_diag. intros q [].
  - cbn [map] in Hnd. inversion Hnd as [|x l Hnotin Hnd']; subst.
    destruct (Hall t (or_introl eq_refl))
      as (Hf & Hst & a & e & s & base & Hasset & Ho & Ht & Hs & Hb).
    rewrite <- Ha in Hasset.
    pose proof (evaluatePrediction_runs env now (Prediction.id t) db1 t a e s
                  base Hf Hst Hasset Ho Ht Hs Hb) as Hrun.
    cbv zeta in Hrun.
    set (c := judge (Prediction.direction t) e s) in *.
    set (pts := awardPoints base c e s) in *.
    set (db1' := snd (evaluatePrediction env now (Prediction.id t) db1)).
    assert (Hps : predictions db1'
                  = evaluatedRows now (Prediction.id t) c pts e (predictions db1)).
    { subst db1'. rewrite Hrun. cbn [snd].
      rewrite creditProfile_predictions. reflexivity. }
    assert (Ha' : assets db1' = assets db0).
    { subst db1'. rewrite Hrun. cbn [snd].
      rewrite (proj2 (creditProfile_tables _ _ _ _)). exact Ha. }
    assert (Hall' : forall t', In t' todo ->
              find (fun q => Prediction.id q =? Prediction.id t')
                   (predictions db1') = Some t'
              /\ Prediction.status t' = Active /\ evaluable env now db0 t').
    { intros t' Hin. destruct (Hall t' (or_intror Hin)) as (Hf' & Hrest).
      split; [|exact Hrest]. rewrite Hps, find_evaluatedRows_other; [exact Hf'|].
      intros Heq. apply Hnotin. rewrite <- Heq. apply in_map. exact Hin. }
    specialize (IH db1' Ha' Hnd' Hall').
    pose proof (sweep_touches todo db1') as Hkeep.
    revert IH Hkeep. rewrite Hps.
    generalize (predictions
                  (fold_left
                     (fun db' p =>
                        snd (evaluatePrediction env now (Prediction.id p) db'))
                     todo db1')).
    generalize (predictions db1).
    intros ps0. induction ps0 as [|q ps IHps]; intros l H K;
      cbn [evaluatedRows map] in H, K;
      inversion H as [|x q2 xs l2 H1 Hrest]; subst;
      inversion K as [|x' q2' xs' l2' [K1 K2] Krest]; subst;
      constructor.
    + intros [Hq|Hq].
      * rewrite Hq, String.eqb_refl in K2.
        rewrite K2.
        -- split; reflexivity.
        -- cbn [markEvaluated Prediction.id]. rewrite <- Hq. exact Hnotin.
      * apply H1. destruct (Prediction.id q =? Prediction.id t); exact Hq.
    + apply IHps; assumption.
Qed.

Lemma evaluatePrediction_tables pid db :
  users (snd (evaluatePrediction env now pid db)) = users db
  /\ assets (snd (evaluatePrediction env now pid db)) = assets db.
Proof.
  destruct (evaluatePrediction env now pid db) as [[out|err] db'] eqn:E.
  - apply evaluatePrediction_returned in E.
    destruct E as (p & a & e & s & base & _ & _ & _ & _ & _ & _ & _ & _ & ->).
    cbn [snd].
    match goal with
    | |- context [creditProfile ?u ?c ?pts ?d] =>
        destruct (creditProfile_tables u c pts d) as [H1 H2]
    end.
    rewrite H1, H2. split; reflexivity.
  - apply evaluatePrediction_thrown in E. subst db'. auto.
Qed.

Lemma sweep_tables (todo : list Prediction.t) db :
  let db' :=
    fold_left (fun db' p => snd (evaluatePrediction env now (Prediction.id p) db'))
              todo db in
  users db' = users db /\ assets db' = assets db.
Proof.
  revert db. induction todo as [|t todo IH]; intros db; cbn [fold_left];
    [auto|].
  destruct (IH (snd (evaluatePrediction env now (Prediction.id t) db)))
    as [H1 H2].
  destruct (evaluatePrediction_tables (Prediction.id t) db) as [H3 H4].
  cbv zeta. split; congruence.
Qed.

(** With a primary key, the keys of the rows that are due are the keys of
    no other rows. *)
Lemma due_keys ps q :
  NoDup (map Prediction.id ps) -> In q ps ->
  In (Prediction.id q) (map Prediction.id (filter (isDue now) ps))
  <-> isDue now q = true.
Proof.
  intros Hnd Hq. split.
  - intros H. apply in_map_iff in H. destruct H as (t & Hid & Ht).
    apply filter_In in Ht. destruct Ht as [Ht Hdue].
    pose proof (find_unique ps q Hnd Hq) as Hf.
    rewrite <- Hid in Hf.
    pose proof (find_unique ps t Hnd Ht) as Hf'. congruence.
  - intros H. apply in_map. apply filter_In. auto.
Qed.

End SweepFacts.

(** X19: the sweep always returns. With [id] the primary key of the table, it
    keeps every row in its place under its key and leaves the rows that are
    not due (not active, or not yet expired) exactly as they were; it never
    writes to the users or the assets; and when no row is due it changes
    nothing at all. *)
Theorem sweep_leaves_the_rest :
  forall env now db,
    let db' := snd (evaluateExpiredPredictions env now db) in
    fst (evaluateExpiredPredictions env now db) = Returned tt
    /\ users db' = users db /\ assets db' = assets db
    /\ ((forall q, In q (predictions db) -> isDue now q = false) -> db' = db)
    /\ (uniqueIds db ->
        Forall2 (fun q q' => Prediction.id q' = Prediction.id q
                             /\ (isDue now q = false -> q' = q))
          (predictions db) (predictions db')).
Proof.
  intros env now db db'. subst db'. unfold evaluateExpiredPredictions.
  cbn [fst snd]. fold (isDue now).
  split; [reflexivity|].
  destruct (sweep_tables env now (filter (isDue now) (predictions db)) db)
    as [H1 H2].
  split; [exact H1|]. split; [exact H2|]. split.
  - intros H. rewrite (filter_nil_of_forall _ _ H). reflexivity.
  - intros Hu.
    eapply Forall2_impl_in;
      [|apply (sweep_touches env now (filter (isDue now) (predictions db)) db)].
    intros q q' Hq [Hid Hsame]. split; [exact Hid|]. intros Hdue.
    apply Hsame. intros Hin. apply (due_keys now _ _ Hu Hq) in Hin. congruence.
Qed.

(** A bet that has not expired yet is not touched by the sweep. *)
Lemma sweep_leaves_the_rest_witness :
  let db := Scenario.world [Scenario.hourBet Up] [] in
  snd (evaluateExpiredPredictions (Scenario.quoting 100.05)
         (Scenario.midnight + Scenario.minutes 10) db) = db.
Proof.
  intros db.
  apply (proj1 (proj2 (proj2 (proj2
           (sweep_leaves_the_rest (Scenario.quoting 100.05)
              (Scenario.midnight + Scenario.minutes 10) db))))).
  intros q [<-|[]]. vm_compute. reflexivity.
Defined.

(** X20: when nothing stands in the way of evaluating the rows that are due (the
    asset of each is there, a usable price is quoted, the row has an entry
    price and its slot has points) and [id] is the primary key, the sweep
    marks every row that was due as evaluated at the instant of the sweep and
    leaves the other rows as they were; afterwards no row is due, and a
    second sweep at that instant changes nothing. *)
Theorem sweep_settles :
  forall env now db,
    uniqueIds db ->
    (forall q, In q (predictions db) -> isDue now q = true ->
               evaluable env now db q) ->
    let db' := snd (evaluateExpiredPredictions env now db) in
    Forall2 (fun q q' =>
               Prediction.id q' = Prediction.id q
               /\ (isDue now q = true ->
                   Prediction.status q' = Evaluated
                   /\ Prediction.evaluatedAt q' = Some now)
               /\ (isDue now q = false -> q' = q))
      (predictions db) (predictions db')
    /\ (forall q', In q' (predictions db') -> isDue now q' = false)
    /\ (forall env',
          evaluateExpiredPredictions env' now db' = (Returned tt, db')).
Proof.
  intros env now db Hu Hev db'.
  assert (HF : Forall2 (fun q q' =>
               Prediction.id q' = Prediction.id q
               /\ (isDue now q = true ->
                   Prediction.status q' = Evaluated
                   /\ Prediction.evaluatedAt q' = Some now)
               /\ (isDue now q = false -> q' = q))
      (predictions db) (predictions db')).
  { subst db'. unfold evaluateExpiredPredictions. cbn [snd]. fold (isDue now).
    set (todo := filter (isDue now) (predictions db)).
    pose proof (sweep_touches env now todo db) as HT.
    assert (HR : Forall2 (fun q q' =>
                   In (Prediction.id q) (map Prediction.id todo) ->
                   Prediction.status q' = Evaluated
                   /\ Prediction.evaluatedAt q' = Some now)
                 (predictions db)
                 (predictions
                    (fold_left
                       (fun db' p =>
                          snd (evaluatePrediction env now (Prediction.id p) db'))
                       todo db))).
    { apply (sweep_runs env now db todo db); [reflexivity| |].
      - apply NoDup_map_filter. exact Hu.
      - intros t Ht. apply filter_In in Ht. destruct Ht as [Ht Hdue].
        split; [apply find_unique; assumption|].
        split; [|apply Hev; assumption].
        unfold isDue in Hdue. apply andb_true_iff in Hdue.
        destruct Hdue as [Hact _].
        destruct (Prediction.status t); (reflexivity || discriminate). }
    revert HT HR.
    generalize (predictions
                  (fold_left
                     (fun db' p =>
                        snd (evaluatePrediction env now (Prediction.id p) db'))
                     todo db)).
    assert (Hkeys : forall q, In q (predictions db) ->
              (In (Prediction.id q) (map Prediction.id todo)
               <-> isDue now q = true))
      by (intros q Hq; apply due_keys; assumption).
    clearbody todo. revert Hkeys. generalize (predictions db).
    intros ps Hkeys l HT. induction HT as [|q q' ps l [Hid Hsame] _ IH];
      intros HR; inversion HR as [|x y xs ys Hr Hrest]; subst; constructor.
    - split; [exact Hid|]. split.
      + intros Hdue. apply Hr. apply Hkeys; [left; reflexivity | exact Hdue].
      + intros Hdue. apply Hsame. intros Hin.
        apply Hkeys in Hin; [congruence | left; reflexivity].
    - apply IH; [|exact Hrest]. intros r Hr'. apply Hkeys. right. exact Hr'. }
  assert (Hnone : forall q', In q' (predictions db') -> isDue now q' = false).
  { intros q' Hq'. destruct (Forall2_in_r _ _ _ _ HF Hq')
      as (q & Hq & _ & Hdue & Hsame).
    destruct (isDue now q) eqn:E.
    - destruct (Hdue eq_refl) as [Hst _]. unfold isDue. rewrite Hst.
      reflexivity.
    - rewrite (Hsame eq_refl). exact E. }
  split; [exact HF|]. split; [exact Hnone|]. intros env'.
  unfold evaluateExpiredPredictions at 1. fold (isDue now).
  rewrite (filter_nil_of_forall _ _ Hnone). reflexivity.
Qed.

(** The sweep at 00:15 settles the 1h bet on the first quarter of the
    hour. *)
Lemma sweep_settles_witness :
  let db := Scenario.world [Scenario.hourBet Up] [] in
  let now := Scenario.midnight + Scenario.minutes 15 in
  let db' := snd (evaluateExpiredPredictions (Scenario.quoting 100.05) now db) in
  (forall q', In q' (predictions db') -> isDue now q' = false)
  /\ evaluateExpiredPredictions (Scenario.quoting 99) now db'
     = (Returned tt, db').
Proof.
  intros db now db'.
  destruct (sweep_settles (Scenario.quoting 100.05) now db) as (_ & H1 & H2).
  - unfold uniqueIds. simpl. constructor; [intros [] | constructor].
  - intros q [<-|[]] _. exists Scenario.btc, 100.05%float, 100%float, 10.
    repeat split; reflexivity.
  - split; [exact H1 | exact (H2 (Scenario.quoting 99))].
Defined.

(** ** The sentiment chart *)

Section SentimentFacts.

Lemma calls_app dir ps qs : calls dir (ps ++ qs) = calls dir ps + calls dir qs.
Proof. unfold calls. rewrite filter_app, length_app. lia. Qed.

Lemma countInSlot_keys sd p :
  map fst (countInSlot sd p)
  = if existsb (fun e => fst e =? Prediction.slotNumber p) sd
    then map fst sd
    else (map fst sd ++ [Prediction.slotNumber p])%list.
Proof.
  unfold countInSlot. rewrite map_map.
  assert (E : forall l : list (Z * Tally),
            map (fun x => fst (if fst x =? Prediction.slotNumber p
                               then (fst x,
                                     match Prediction.direction p with
                                     | Up => {| up := up (snd x) + 1;
                                                down := down (snd x) |}
                                     | Down => {| up := up (snd x);
                                                  down := down (snd x) + 1 |}
                                     end)
                               else x)) l
            = map fst l).
  { intros l. apply map_ext. intros x.
    destruct (fst x =? Prediction.slotNumber p); reflexivity. }
  rewrite E. destruct (existsb _ sd); [reflexivity|].
  rewrite map_app. reflexivity.
Qed.

Lemma existsb_key (sd : list (Z * Tally)) k :
  existsb (fun e => fst e =? k) sd = true <-> In k (map fst sd).
Proof.
  rewrite existsb_exists, in_map_iff. split.
  - intros (e & He & Hk). apply Z.eqb_eq in Hk. exists e. auto.
  - intros (e & Hk & He). exists e. split; [exact He|]. apply Z.eqb_eq.
    exact Hk.
Qed.

(** What the map holds after the [forEach]. *)
Lemma tally_spec ps :
  let slotData := fold_left countInSlot ps [] in
  NoDup (map fst slotData)
  /\ (forall k, In k (map fst slotData)
                <-> exists p, In p ps /\ Prediction.slotNumber p = k)
  /\ (forall k t, In (k, t) slotData ->
        let inSlot := filter (fun p => Prediction.slotNumber p =? k) ps in
        up t = calls Up inSlot /\ down t = calls Down inSlot).
Proof.
  induction ps as [|p ps IH] using rev_ind.
  - cbn. split; [constructor|]. split; [|intros k t []].
    intros k. split; [intros [] | intros (p & [] & _)].
  - rewrite fold_left_app. cbn [fold_left].
    set (sd := fold_left countInSlot ps []) in *. cbv zeta in IH.
    destruct IH as (Hnd & Hkeys & Hcount). cbv zeta.
    set (key := Prediction.slotNumber p).
    assert (Hk' : forall k, In k (map fst (countInSlot sd p))
                            <-> In k (map fst sd) \/ k = key).
    { intros k. rewrite countInSlot_keys. fold key.
      destruct (existsb (fun e => fst e =? key) sd) eqn:E.
      - apply existsb_key in E. split; [auto|]. intros [H| ->]; assumption.
      - rewrite in_app_iff. cbn [In]. intuition. }
    split; [|split].
    + rewrite countInSlot_keys. fold key.
      destruct (existsb (fun e => fst e =? key) sd) eqn:E; [exact Hnd|].
      assert (Hnot : ~ In key (map fst sd)).
      { intros H. apply existsb_key in H. congruence. }
      clear - Hnd Hnot. induction (map fst sd) as [|x l IHl]; cbn [app].
      * constructor; [intros [] | constructor].
      * inversion Hnd as [|y m Hx Hl]; subst. constructor.
        -- rewrite in_app_iff. cbn [In]. intros [H|[H|[]]]; [tauto|].
           apply Hnot. left. auto.
        -- apply IHl; [exact Hl|]. intros H. apply Hnot. right. exact H.
    + intros k. rewrite Hk', Hkeys. split.
      * intros [(q & Hq & Hs)| ->].
        -- exists q. split; [apply in_or_app; left|]; assumption.
        -- exists p. split; [apply in_or_app; right; left|]; reflexivity.
      * intros (q & Hq & Hs). apply in_app_or in Hq.
        destruct Hq as [Hq|[<-|[]]]; [left; exists q; auto | right; auto].
    + intros k t Hin. rewrite filter_app, !calls_app. cbn [filter].
      fold key. unfold countInSlot in Hin. fold key in Hin.
      apply in_map_iff in Hin. destruct Hin as ([k0 t0] & Heq & Hin0).
      cbn [fst snd] in Heq.
      assert (Hold : In (k0, t0) sd \/ (k0 = key /\ up t0 = 0 /\ down t0 = 0
                                        /\ ~ In key (map fst sd))).
      { destruct (existsb (fun e => fst e =? key) sd) eqn:E; [left; exact Hin0|].
        apply in_app_or in Hin0. destruct Hin0 as [H|[H|[]]]; [left; exact H|].
        right. injection H as <- <-. repeat split.
        intros H. apply existsb_key in H. congruence. }
      assert (Hbase : up t0 = calls Up (filter (fun q => Prediction.slotNumber q =? k0) ps)
                      /\ down t0 = calls Down (filter (fun q => Prediction.slotNumber q =? k0) ps)).
      { destruct Hold as [H|(-> & Hu & Hd & Hnot)]; [exact (Hcount _ _ H)|].
        assert (Hnil : filter (fun q => Prediction.slotNumber q =? key) ps = []).
        { apply filter_nil_of_forall. intros q Hq. apply Z.eqb_neq.
          intros Hs. apply Hnot. apply Hkeys. exists q. auto. }
        rewrite Hnil, Hu, Hd. split; reflexivity. }
      destruct Hbase as [Hu Hd].
      destruct (k0 =? key) eqn:Ek.
      * apply Z.eqb_eq in Ek. injection Heq as <- <-. subst k0.
        rewrite Z.eqb_refl, <- Hu, <- Hd. unfold calls. cbn [filter].
        destruct (Prediction.direction p); cbn; lia.
      * injection Heq as <- <-. rewrite Z.eqb_sym, Ek, <- Hu, <- Hd.
        unfold calls. cbn. lia.
Qed.

Lemma insertSentiment_in x l y :
  In y (insertSentiment x l) <-> y = x \/ In y l.
Proof.
  induction l as [|z l IH]; cbn [insertSentiment In].
  - intuition.
  - destruct (SentimentData.slotNumber x <=? SentimentData.slotNumber z);
      cbn [In]; [intuition | rewrite IH; intuition].
Qed.

Lemma sortBySlotNumber_in l y : In y (sortBySlotNumber l) <-> In y l.
Proof.
  induction l as [|x l IH]; [reflexivity|].
  unfold sortBySlotNumber in *. cbn [fold_right In].
  rewrite insertSentiment_in, IH. intuition.
Qed.

Lemma insertSentiment_sorted x l :
  StronglySorted
    (fun a b => SentimentData.slotNumber a < SentimentData.slotNumber b) l ->
  (forall y, In y l -> SentimentData.slotNumber y <> SentimentData.slotNumber x) ->
  StronglySorted
    (fun a b => SentimentData.slotNumber a < SentimentData.slotNumber b)
    (insertSentiment x l).
Proof.
  intros Hs. induction Hs as [|z l Hl IH Hz]; intros Hx; cbn [insertSentiment].
  - constructor; [constructor | constructor].
  - pose proof (Hx z (or_introl eq_refl)) as Hne.
    destruct (SentimentData.slotNumber x <=? SentimentData.slotNumber z) eqn:E.
    + apply Z.leb_le in E. constructor; [constructor; assumption|].
      constructor; [lia|]. rewrite Forall_forall in Hz |- *.
      intros y Hy. specialize (Hz y Hy). lia.
    + apply Z.leb_gt in E. constructor.
      * apply IH. intros y Hy. apply Hx. right. exact Hy.
      * rewrite Forall_forall in Hz |- *. intros y Hy.
        apply insertSentiment_in in Hy. destruct Hy as [->|Hy]; [lia|].
        apply Hz. exact Hy.
Qed.

Lemma sortBySlotNumber_sorted l :
  NoDup (map SentimentData.slotNumber l) ->
  StronglySorted
    (fun a b => SentimentData.slotNumber a < SentimentData.slotNumber b)
    (sortBySlotNumber l).
Proof.
  induction l as [|x l IH]; cbn [map]; intros Hnd; [constructor|].
  inversion Hnd as [|k m Hnotin Hnd']; subst.
  unfold sortBySlotNumber in *. cbn [fold_right].
  apply insertSentiment_sorted; [apply IH; exact Hnd'|].
  intros y Hy Heq. apply Hnotin. rewrite <- Heq. apply in_map.
  apply (sortBySlotNumber_in l y). exact Hy.
Qed.

End SentimentFacts.

(** X21: [getSentimentData] throws "Asset not found" for a symbol that no asset
    has, and never writes. Otherwise it returns one entry for every slot
    number that a prediction on the asset with the duration carries, and
    none for any other; the entries are in strictly ascending order of their
    slot numbers; and each entry counts the predictions of its slot that
    call up, those that call down, and their total, which is at least one. *)
Theorem getSentimentData_counts :
  forall sym d db,
    snd (getSentimentData sym d db) = db
    /\ (find (fun a => Asset.symbol a =? sym)%string (assets db) = None ->
        fst (getSentimentData sym d db) = Thrown AssetNotFound)
    /\ (forall asset,
          find (fun a => Asset.symbol a =? sym)%string (assets db) = Some asset ->
          let matching := predictionsFor (Asset.id asset) d db in
          exists result,
            fst (getSentimentData sym d db) = Returned result
            /\ StronglySorted
                 (fun a b => SentimentData.slotNumber a
                             < SentimentData.slotNumber b) result
            /\ (forall k, In k (map SentimentData.slotNumber result)
                          <-> exists p, In p matching
                                        /\ Prediction.slotNumber p = k)
            /\ (forall e, In e result ->
                  let inSlot :=
                    filter (fun p => Prediction.slotNumber p
                                     =? SentimentData.slotNumber e) matching in
                  SentimentData.upCount e = calls Up inSlot
                  /\ SentimentData.downCount e = calls Down inSlot
                  /\ SentimentData.totalCount e
                     = Z.of_nat (List.length inSlot)
                  /\ 1 <= SentimentData.totalCount e)).
Proof.
  intros sym d db. unfold getSentimentData, bind, findAssetBySymbol, query.
  destruct (find (fun a => Asset.symbol a =? sym)%string (assets db))
    as [asset|] eqn:Ha.
  - cbn [fst snd ret]. split; [reflexivity|]. split; [discriminate|].
    intros asset' H. injection H as <-.
    set (matching := predictionsFor (Asset.id asset) d db).
    destruct (tally_spec matching) as (Hnd & Hkeys & Hcount).
    cbv zeta in Hnd, Hkeys, Hcount.
    set (sd := fold_left countInSlot matching []) in *.
    set (toData := fun e : Z * Tally =>
                     {| SentimentData.slotNumber := fst e;
                        SentimentData.upCount := up (snd e);
                        SentimentData.downCount := down (snd e);
                        SentimentData.totalCount := up (snd e) + down (snd e) |}).
    assert (Hnums : map SentimentData.slotNumber (map toData sd) = map fst sd)
      by (rewrite map_map; reflexivity).
    eexists. split; [reflexivity|]. split; [|split].
    + apply sortBySlotNumber_sorted. rewrite Hnums. exact Hnd.
    + intros k. rewrite <- Hkeys, <- Hnums, !in_map_iff.
      split; intros (e & He & Hin); exists e; (split; [exact He|]);
        apply sortBySlotNumber_in; exact Hin.
    + intros e He. apply (proj1 (sortBySlotNumber_in _ _)) in He.
      apply in_map_iff in He. destruct He as ([k t] & <- & Hin).
      cbn [toData SentimentData.slotNumber SentimentData.upCount
        SentimentData.downCount SentimentData.totalCount fst snd].
      destruct (Hcount k t Hin) as [Hu Hd]. rewrite Hu, Hd.
      set (l := filter (fun p => Prediction.slotNumber p =? k) matching).
      assert (Hsum : calls Up l + calls Down l = Z.of_nat (List.length l)).
      { unfold calls. clear. induction l as [|p l IH]; [reflexivity|].
        cbn [filter]. destruct (Prediction.direction p); cbn [List.length];
          lia. }
      rewrite Hsum. repeat split.
      assert (Hk : In k (map fst sd))
        by (apply in_map_iff; exists (k, t); auto).
      apply Hkeys in Hk. destruct Hk as (p & Hp & Hs).
      assert (In p l) by (apply filter_In; split; [exact Hp|]; apply Z.eqb_eq; exact Hs).
      destruct l; [contradiction | cbn [List.length]; lia].
  - cbn [fst snd throw]. split; [reflexivity|]. split; [reflexivity|].
    intros asset H. discriminate H.
Qed.

(** Two calls on the first slot of 1h, one up and one down. *)
Lemma getSentimentData_counts_witness :
  exists result,
    fst (getSentimentData "BTC" D1h
           (Scenario.world
              [Scenario.hourBet Up;
               Scenario.bet "p2" D1h 1 Down 100 Scenario.midnight
                 (Scenario.midnight + Scenario.minutes 15 - 1)] []))
    = Returned result
    /\ forall e, In e result ->
         1 <= SentimentData.totalCount e.
Proof.
  destruct (proj2 (proj2 (getSentimentData_counts "BTC" D1h
              (Scenario.world
                 [Scenario.hourBet Up;
                  Scenario.bet "p2" D1h 1 Down 100 Scenario.midnight
                    (Scenario.midnight + Scenario.minutes 15 - 1)] [])))
              Scenario.btc eq_refl) as (result & H1 & _ & _ & H2).
  exists result. split; [exact H1|]. intros e He.
  destruct (H2 e He) as (_ & _ & _ & H3). exact H3.
Defined.

(** ** The administrator's route, again *)

Section OverrideFacts.
Open Scope string_scope.

Lemma find_overridden pred res body now id ps :
  find (fun p => Prediction.id p =? id)
       (map (fun p => if Prediction.id p =? id
                      then Routes.overrideRow pred res body now p else p) ps)
  = option_map (Routes.overrideRow pred res body now)
      (find (fun p => Prediction.id p =? id) ps).
Proof.
  induction ps as [|q ps IH]; [reflexivity|]. cbn [map find].
  destruct (Prediction.id q =? id) eqn:E.
  - cbn [Routes.overrideRow Prediction.id]. rewrite E. reflexivity.
  - rewrite E. exact IH.
Qed.

(** What the route has stored once it answers 200. *)
Lemma adminEvaluate_stored now id body db r res pts :
  fst (Routes.adminEvaluate now id body db) = Routes.EvaluatedOk r res pts ->
  exists pred,
    Routes.parseResult (Routes.result body) = Some res
    /\ find (fun p => Prediction.id p =? id) (predictions db) = Some pred
    /\ r = id /\ pts = Routes.pointsAwarded body
    /\ predictions (snd (Routes.adminEvaluate now id body db))
       = map (fun p => if Prediction.id p =? id
                       then Routes.overrideRow pred res body now p else p)
             (predictions db)
    /\ users (snd (Routes.adminEvaluate now id body db)) = users db
    /\ assets (snd (Routes.adminEvaluate now id body db)) = assets db
    /\ userProfiles (snd (Routes.adminEvaluate now id body db))
       = match Routes.pointsAwarded body with
         | Some n =>
             if Routes.option_Z_eqb (Some n) (Prediction.pointsAwarded pred)
             then userProfiles db
             else map (fun u =>
                         if UserProfile.userId u =? Prediction.userId pred
                         then Routes.adjustProfile res
                                (n - Routes.orZero (Prediction.pointsAwarded pred))
                                u
                         else u)
                      (userProfiles db)
         | None => userProfiles db
         end.
Proof.
  unfold Routes.adminEvaluate.
  destruct (Routes.parseResult (Routes.result body)) as [res'|];
    [|discriminate].
  destruct (find _ (predictions db)) as [pred|] eqn:Hf; [|discriminate].
  cbn [fst snd]. intros H. injection H as <- <- <-.
  exists pred. split; [reflexivity|]. split; [reflexivity|].
  split; [reflexivity|]. split; [reflexivity|].
  destruct (Routes.pointsAwarded body) as [n|]; [|repeat split].
  destruct (Routes.option_Z_eqb (Some n) (Prediction.pointsAwarded pred));
    repeat split.
Qed.

End OverrideFacts.

(** X22: the route answers 400 exactly when the result is none of 'correct',
    'incorrect' and 'pending', and writes nothing unless it answers 200.
    When it answers 200 the row with the key is stored as evaluated at the
    instant of the request, with the result of the request (which may be
    'pending') and the points of the request, or 0 when the request has
    none; the route did not ask what status the row had; afterwards
    [evaluatePrediction] refuses the row as not active. *)
Theorem adminEvaluate_marks_evaluated :
  forall now id body db,
    let answer := fst (Routes.adminEvaluate now id body db) in
    let db' := snd (Routes.adminEvaluate now id body db) in
    (answer = Routes.InvalidResultValue
     <-> Routes.parseResult (Routes.result body) = None)
    /\ ((forall r res pts, answer <> Routes.EvaluatedOk r res pts) -> db' = db)
    /\ (forall r res pts,
          answer = Routes.EvaluatedOk r res pts ->
          exists pred',
            find (fun p => Prediction.id p =? id)%string (predictions db')
            = Some pred'
            /\ Prediction.status pred' = Evaluated
            /\ Prediction.result pred' = res
            /\ Prediction.pointsAwarded pred'
               = Some (Routes.orZero (Routes.pointsAwarded body))
            /\ Prediction.evaluatedAt pred' = Some now
            /\ (forall env now',
                  evaluatePrediction env now' id db'
                  = (Thrown PredictionNotActive, db'))).
Proof.
  intros now id body db answer db'. subst answer db'. split; [|split].
  - unfold Routes.adminEvaluate.
    destruct (Routes.parseResult (Routes.result body)) as [res|];
      [|split; reflexivity].
    destruct (find _ (predictions db)); cbn [fst]; split; discriminate.
  - unfold Routes.adminEvaluate.
    destruct (Routes.parseResult (Routes.result body)) as [res|];
      [|reflexivity].
    destruct (find _ (predictions db)); [|reflexivity].
    cbn [fst snd]. intros H. exfalso. eapply H. reflexivity.
  - intros r res pts H.
    destruct (adminEvaluate_stored now id body db r res pts H)
      as (pred & Hr & Hf & -> & -> & Hps & _).
    exists (Routes.overrideRow pred res body now pred).
    assert (Hfind : find (fun p => Prediction.id p =? id)%string
                      (predictions (snd (Routes.adminEvaluate now id body db)))
                    = Some (Routes.overrideRow pred res body now pred)).
    { rewrite Hps, find_overridden, Hf. reflexivity. }
    split; [exact Hfind|]. do 4 (split; [reflexivity|]).
    intros env now'.
    unfold evaluatePrediction, bind at 1, findPrediction, query.
    rewrite Hfind. reflexivity.
Qed.

(** A request that marks the active 1h bet as 'pending' with no points. *)
Lemma adminEvaluate_marks_evaluated_witness :
  let body := {| Routes.result := Some "pending"%string;
                 Routes.pointsAwarded := None;
                 Routes.priceStart := None;
                 Routes.priceEnd := None |} in
  let now := Scenario.midnight + Scenario.minutes 20 in
  let db := Scenario.world [Scenario.hourBet Up] [] in
  exists pred',
    find (fun p => Prediction.id p =? "p1")%string
         (predictions (snd (Routes.adminEvaluate now "p1" body db)))
    = Some pred'
    /\ Prediction.status pred' = Evaluated
    /\ Prediction.result pred' = Pending
    /\ Prediction.pointsAwarded pred' = Some 0.
Proof.
  intros body now db.
  destruct (proj2 (proj2 (adminEvaluate_marks_evaluated now "p1"%string body db))
              "p1"%string Pending None eq_refl)
    as (pred' & H1 & H2 & H3 & H4 & _).
  exists pred'. repeat split; assumption.
Defined.


(** X24: an evaluation by the service followed by an override with other points:
    the profile of the owner counts the prediction once more, and once more
    as correct when the override says 'correct', so that the one prediction
    is in the total twice; the scores lose the points of the evaluation and
    gain those of the override. An override with the same points leaves the
    profile as the evaluation left it. *)
Theorem override_counts_again :
  forall env now pid db out p u now' body res pts,
    fst (evaluatePrediction env now pid db) = Returned out ->
    find (fun q => Prediction.id q =? pid)%string (predictions db) = Some p ->
    find (fun v => UserProfile.userId v =? Prediction.userId p)%string
         (userProfiles db) = Some u ->
    Routes.parseResult (Routes.result body) = Some res ->
    Routes.pointsAwarded body = Some pts ->
    let db1 := snd (evaluatePrediction env now pid db) in
    let db2 := snd (Routes.adminEvaluate now' pid body db1) in
    let found := fun d =>
      find (fun v => UserProfile.userId v =? Prediction.userId p)%string
           (userProfiles d) in
    (pts = Evaluation.pointsAwarded out -> found db2 = found db1)
    /\ (pts <> Evaluation.pointsAwarded out ->
        found db2
        = Some {| UserProfile.userId := UserProfile.userId u;
                  UserProfile.totalPredictions :=
                    UserProfile.totalPredictions u + 2;
                  UserProfile.correctPredictions :=
                    UserProfile.correctPredictions u
                    + (if Evaluation.isCorrect out then 1 else 0)
                    + (match res with Correct => 1 | _ => 0 end);
                  UserProfile.monthlyScore := UserProfile.monthlyScore u + pts;
                  UserProfile.totalScore := UserProfile.totalScore u + pts |}).
Proof.
  intros env now pid db out p u now' body res pts H Hp Hu Hr Hpts db1 db2 found.
  destruct (evaluatePrediction env now pid db) as [r db1'] eqn:E.
  cbn [fst] in H. subst r. cbn [snd] in db1. subst db1.
  apply evaluatePrediction_returned in E.
  destruct E as (p' & a & e & s & base & Hp' & _ & _ & _ & _ & _ & _ & Hout & Hdb1).
  rewrite Hp in Hp'. injection Hp' as <-.
  set (c := judge (Prediction.direction p) e s) in *.
  set (award := awardPoints base c e s) in *.
  pose proof (creditProfile_profiles (Prediction.userId p) c award
                (withPredictions db
                   (evaluatedRows now pid c award e (predictions db))) u Hu) as C.
  cbv zeta in C. rewrite <- Hdb1 in C. destruct C as (C1 & _ & _ & _ & _ & C6).
  cbn [predictions withPredictions] in C6.
  assert (Hfind : find (fun q => Prediction.id q =? pid)%string (predictions db1')
                  = Some (markEvaluated p c award e now)).
  { rewrite C6. apply find_evaluatedRows. exact Hp. }
  assert (Hans : fst (Routes.adminEvaluate now' pid body db1')
                 = Routes.EvaluatedOk pid res (Some pts)).
  { unfold Routes.adminEvaluate. rewrite Hr, Hfind, Hpts. reflexivity. }
  destruct (adminEvaluate_stored now' pid body db1' _ _ _ Hans)
    as (pred & _ & Hf & _ & _ & _ & _ & _ & Hprof).
  rewrite Hfind in Hf. injection Hf as <-. fold db2 in Hprof.
  rewrite Hpts in Hprof.
  cbn [markEvaluated Prediction.pointsAwarded Prediction.userId
       Routes.option_Z_eqb Routes.orZero] in Hprof.
  assert (Haward : Evaluation.pointsAwarded out = award)
    by (rewrite Hout; reflexivity).
  assert (Hc : Evaluation.isCorrect out = c) by (rewrite Hout; reflexivity).
  rewrite Haward, Hc. subst found. cbv beta. split; intros Hcmp.
  - rewrite Hprof, (proj2 (Z.eqb_eq pts award) Hcmp). reflexivity.
  - rewrite Hprof, (proj2 (Z.eqb_neq pts award) Hcmp).
    rewrite find_profile_update by reflexivity. rewrite C1.
    cbn [option_map UserProfile.userId].
    rewrite (find_profile_id _ _ _ Hu), String.eqb_refl.
    unfold Routes.adjustProfile.
    cbn [UserProfile.userId UserProfile.totalPredictions
         UserProfile.correctPredictions UserProfile.monthlyScore
         UserProfile.totalScore].
    f_equal. f_equal; lia.
Qed.

(** The 1h bet won with 20 points, then set to 'correct' with 5 points by
    the administrator: two more predictions and two more correct ones in
    alice's profile, and 5 points. *)
Lemma override_counts_again_witness :
  let db1 := snd (evaluatePrediction (Scenario.quoting 100.05)
                    (Scenario.midnight + Scenario.minutes 15) "p1"
                    (Scenario.world [Scenario.hourBet Up]
                       [Scenario.profile 1 0 0 0])) in
  let body := {| Routes.result := Some "correct"%string;
                 Routes.pointsAwarded := Some 5;
                 Routes.priceStart := None;
                 Routes.priceEnd := None |} in
  find (fun v => UserProfile.userId v =? "alice")%string
       (userProfiles (snd (Routes.adminEvaluate
                             (Scenario.midnight + Scenario.minutes 20) "p1"
                             body db1)))
  = Some (Scenario.profile 3 2 5 5).
Proof.
  intros db1 body.
  apply (proj2 (override_counts_again (Scenario.quoting 100.05)
                  (Scenario.midnight + Scenario.minutes 15) "p1"%string
                  (Scenario.world [Scenario.hourBet Up]
                     [Scenario.profile 1 0 0 0])
                  {| Evaluation.predictionId := "p1";
                     Evaluation.isCorrect := true;
                     Evaluation.pointsAwarded := 20;
                     Evaluation.startPrice := 100;
                     Evaluation.endPrice := 100.05 |}
                  (Scenario.hourBet Up) (Scenario.profile 1 0 0 0)
                  (Scenario.midnight + Scenario.minutes 20) body Correct 5
                  eq_refl eq_refl eq_refl eq_refl eq_refl)).
  vm_compute. discriminate.
Defined.

(* ================================================================== *)
(** * Further properties of the legacy slot windows *)

(** ** Months and quarters *)

Section MonthFacts.
Import Calendar JSDate.

Lemma firstDays_checked : holdsOnRange 13 0 firstDayOK = true.
Proof. vm_compute. reflexivity. Qed.

(** The civil date of the first of a month is the first of that month. *)
Lemma civil_of_first y n :
  1 <= n <= 12 -> civilFromDay (dayFromCivil y n 1) = (y, n, 1).
Proof.
  intros Hn. unfold dayFromCivil, civilFromDay.
  set (y' := if n <=? 2 then y - 1 else y).
  set (era := y' / 400).
  set (yoe := y' - era * 400).
  set (mp := if n >? 2 then n - 3 else n + 9).
  assert (Hyoe : 0 <= yoe < 400).
  { subst yoe era. pose proof (Z.mod_pos_bound y' 400 ltac:(lia)) as H.
    rewrite Z.mod_eq in H by lia. lia. }
  assert (Hmp : 0 <= mp < 12).
  { subst mp. destruct (n >? 2) eqn:E; [rewrite Z.gtb_ltb in E; apply Z.ltb_lt in E
                                       |rewrite Z.gtb_ltb in E; apply Z.ltb_ge in E];
      lia. }
  pose proof (holdsOnRange_spec 13 0 firstDayOK firstDays_checked
                (yoe * 12 + mp)) as Hok.
  change (2 ^ Z.of_nat 13) with 8192 in Hok. specialize (Hok ltac:(lia)).
  unfold firstDayOK in Hok. apply orb_true_iff in Hok.
  destruct Hok as [Hok|Hok]; [apply Z.leb_le in Hok; lia|].
  assert (Hdiv : (yoe * 12 + mp) / 12 = yoe)
    by (symmetry; apply (Z.div_unique _ 12 yoe mp); lia).
  assert (Hmod : (yoe * 12 + mp) mod 12 = mp)
    by (symmetry; apply (Z.mod_unique _ 12 yoe mp); lia).
  cbv zeta in Hok. rewrite Hdiv, Hmod in Hok.
  replace ((153 * mp + 2) / 5 + 1 - 1) with ((153 * mp + 2) / 5) by lia.
  set (doe := yoe * 365 + yoe / 4 - yoe / 100 + (153 * mp + 2) / 5) in *.
  rewrite !andb_true_iff in Hok. destruct Hok as [[[[H0 H1] H2] H3] H4].
  apply Z.leb_le in H0. apply Z.ltb_lt in H1.
  apply Z.eqb_eq in H2, H3, H4.
  replace (era * 146097 + doe - 719468 + 719468) with (doe + era * 146097)
    by lia.
  assert (He : (doe + era * 146097) / 146097 = era).
  { rewrite Z.div_add by lia. rewrite Z.div_small by lia. lia. }
  rewrite He.
  replace (doe + era * 146097 - era * 146097) with doe by lia.
  rewrite H2. rewrite H2 in H3, H4. rewrite H3. rewrite H3 in H4. rewrite H4.
  assert (Hm : (if mp <? 10 then mp + 3 else mp - 9) = n).
  { subst mp. destruct (n >? 2) eqn:E; rewrite Z.gtb_ltb in E.
    - apply Z.ltb_lt in E. rewrite (proj2 (Z.ltb_lt (n - 3) 10)) by lia. lia.
    - apply Z.ltb_ge in E. rewrite (proj2 (Z.ltb_ge (n + 9) 10)) by lia. lia. }
  rewrite Hm.
  assert (Hy : (if n <=? 2 then yoe + era * 400 + 1 else yoe + era * 400) = y).
  { subst yoe y'. destruct (n <=? 2); lia. }
  rewrite Hy. reflexivity.
Qed.

Lemma MakeDay_first y k :
  MakeDay y k 1 = dayFromCivil (y + k / 12) (k mod 12 + 1) 1.
Proof. unfold MakeDay. lia. Qed.

Lemma fields_of_first y k :
  let t := MakeDate (MakeDay y k 1) 0 in
  YearFromTime t = y + k / 12 /\ MonthFromTime t = k mod 12
  /\ DateFromTime t = 1 /\ TimeWithinDay t = 0 /\ Day t = MakeDay y k 1.
Proof.
  intros t. subst t.
  assert (HD : Day (MakeDate (MakeDay y k 1) 0) = MakeDay y k 1)
    by (apply Day_MakeDate; unfold msPerDay; lia).
  unfold YearFromTime, MonthFromTime, DateFromTime, yearOf, monthOf, dateOf.
  rewrite HD, MakeDay_first.
  pose proof (Z.mod_pos_bound k 12 ltac:(lia)) as Hk.
  rewrite civil_of_first by lia. cbn [fst snd].
  rewrite TimeWithinDay_MakeDate by (unfold msPerDay; lia).
  repeat split; lia.
Qed.

Lemma MakeDay_months y k j : MakeDay (y + k / 12) (k mod 12 + j) 1 = MakeDay y (k + j) 1.
Proof.
  unfold MakeDay.
  pose proof (Z.div_mod k 12 ltac:(lia)) as Hk.
  assert (H1 : (k + j) / 12 = k / 12 + (k mod 12 + j) / 12).
  { replace (k + j) with ((k mod 12 + j) + (k / 12) * 12) by lia.
    rewrite Z.div_add by lia. lia. }
  assert (H2 : (k + j) mod 12 = (k mod 12 + j) mod 12).
  { replace (k + j) with ((k mod 12 + j) + (k / 12) * 12) by lia.
    apply Z.mod_add. lia. }
  rewrite H1, H2. f_equal. f_equal. f_equal. lia.
Qed.

Variable m : Z.
Let tz := fixedZone m.

(** [setMonth] from the first of a month leads to the first of a month. *)
Lemma setMonth_first y k j :
  setMonth tz (firstOfMonth tz y k) (getMonth tz (firstOfMonth tz y k) + j)
  = firstOfMonth tz y (k + j).
Proof.
  unfold setMonth, getMonth, firstOfMonth. rewrite (LocalTime_UTC m).
  destruct (fields_of_first y k) as (Hy & Hm & Hd & Ht & _).
  cbv zeta in Hy, Hm, Hd, Ht. rewrite Hy, Hm, Hd, Ht, MakeDay_months.
  reflexivity.
Qed.

(** [setDate] from the first of a month moves by whole days. *)
Lemma setDate_first y k date :
  0 <= k <= 11 ->
  setDate tz (firstOfMonth tz y k) date
  = firstOfMonth tz y k + (date - 1) * msPerDay.
Proof.
  intros Hk. unfold setDate, firstOfMonth. rewrite (LocalTime_UTC m).
  destruct (fields_of_first y k) as (Hy & Hm & _ & Ht & _).
  cbv zeta in Hy, Hm, Ht. rewrite Hy, Hm, Ht.
  rewrite Z.div_small, Z.mod_small by lia. rewrite Z.add_0_r.
  unfold UTC, MakeDate, tz. cbn [localOffsetAt fixedZone].
  unfold MakeDay. rewrite Z.div_small, Z.mod_small by lia. lia.
Qed.

Lemma newDate_first y k : newDate tz y k 1 = firstOfMonth tz y k.
Proof. reflexivity. Qed.

(** One millisecond before a local midnight. *)
Lemma setMilliseconds_midnight D :
  setMilliseconds tz (UTC tz (MakeDate D 0)) (-1) = UTC tz (MakeDate D 0) - 1.
Proof.
  unfold setMilliseconds. rewrite (LocalTime_UTC m).
  destruct (midnight_fields D) as (-> & -> & ->).
  rewrite Day_MakeDate by (unfold msPerDay; lia).
  unfold UTC, MakeDate, MakeTime, tz. simpl. lia.
Qed.

End MonthFacts.

(** X25: on a server whose zone has a constant offset, the windows that
    [getSlotTimes] gives for the durations counted in months follow the
    calendar of the current year and month, not the period of the duration:
    for 3m and 6m slot n is the n-th calendar month of the current year,
    January first, whatever the quarter of the date; for 1y slot n is the
    n-th quarter of the year; for 1m slot n is the n-th run of seven days of
    the current month, so that four slots cover its first 28 days. Each
    window ends one millisecond before the next one starts. *)
Theorem calendar_slot_times :
  forall Berlin m t n,
    let tz := JSDate.fixedZone m in
    let year := JSDate.getFullYear tz t in
    let month := JSDate.getMonth tz t in
    let slot := getSlotTimes Berlin tz t in
    (forall d, d = D3m \/ d = D6m ->
       start (slot d n) = firstOfMonth tz year (n - 1)
       /\ end_ (slot d n) = firstOfMonth tz year n - 1)
    /\ (start (slot D1y n) = firstOfMonth tz year (3 * (n - 1))
        /\ end_ (slot D1y n) = firstOfMonth tz year (3 * n) - 1)
    /\ (0 <= month <= 11
        /\ start (slot D1m n)
           = firstOfMonth tz year month + (n - 1) * (7 * Calendar.msPerDay)
        /\ end_ (slot D1m n)
           = firstOfMonth tz year month + n * (7 * Calendar.msPerDay) - 1)
    /\ (forall d, d = D1m \/ d = D3m \/ d = D6m \/ d = D1y ->
          end_ (slot d n) + 1 = start (slot d (n + 1))).
Proof.
  intros Berlin m t n tz year month slot.
  assert (Hmonths : forall k j,
            JSDate.setMilliseconds tz
              (JSDate.setMonth tz (firstOfMonth tz year k)
                 (JSDate.getMonth tz (firstOfMonth tz year k) + j)) (-1)
            = firstOfMonth tz year (k + j) - 1).
  { intros k j. unfold tz. rewrite setMonth_first. unfold firstOfMonth.
    apply setMilliseconds_midnight. }
  assert (H3 : forall d k, d = D3m \/ d = D6m ->
            start (slot d k) = firstOfMonth tz year (k - 1)
            /\ end_ (slot d k) = firstOfMonth tz year k - 1).
  { intros d k [-> | ->]; subst slot; cbn [getSlotTimes start end_];
      unfold getCurrentCESTTime, Luxon.toJSDate, Luxon.fromJSDate;
      cbn [Luxon.ts]; fold year;
      unfold tz; rewrite (newDate_first m); fold tz;
      (split; [reflexivity|]); rewrite Hmonths;
      replace (k - 1 + 1) with k by lia; reflexivity. }
  assert (Hy : forall k,
            start (slot D1y k) = firstOfMonth tz year (3 * (k - 1))
            /\ end_ (slot D1y k) = firstOfMonth tz year (3 * k) - 1).
  { intros k. subst slot. cbn [getSlotTimes start end_].
    unfold getCurrentCESTTime, Luxon.toJSDate, Luxon.fromJSDate.
    cbn [Luxon.ts]. fold year.
    unfold tz. rewrite (newDate_first m). fold tz.
    rewrite Hmonths.
    replace ((k - 1) * 3 + 3) with (3 * k) by lia.
    replace ((k - 1) * 3) with (3 * (k - 1)) by lia. split; reflexivity. }
  assert (Hmo : 0 <= month <= 11).
  { subst month. unfold JSDate.getMonth, JSDate.MonthFromTime.
    destruct (civil_roundtrip
                (Calendar.Day (JSDate.LocalTime tz t))) as (_ & Hr & _). lia. }
  assert (Hm : forall k,
            start (slot D1m k)
            = firstOfMonth tz year month + (k - 1) * (7 * Calendar.msPerDay)
            /\ end_ (slot D1m k)
               = firstOfMonth tz year month + k * (7 * Calendar.msPerDay) - 1).
  { intros k. subst slot. cbn [getSlotTimes start end_].
    unfold getCurrentCESTTime, Luxon.toJSDate, Luxon.fromJSDate.
    cbn [Luxon.ts]. fold year month.
    unfold tz. rewrite (newDate_first m).
    rewrite (setDate_first m year month _ Hmo). fold tz.
    split; [lia|].
    set (F := firstOfMonth tz year month).
    set (s := F + ((k - 1) * 7 + 1 - 1) * Calendar.msPerDay).
    assert (Hs : s = JSDate.UTC tz
                       (JSDate.MakeDate
                          (JSDate.MakeDay year month 1 + (k - 1) * 7) 0)).
    { subst s F. unfold firstOfMonth, JSDate.UTC, JSDate.MakeDate, tz.
      cbn [JSDate.localOffsetAt JSDate.fixedZone].
      generalize (JSDate.MakeDay year month 1). intros D0. lia. }
    unfold tz. rewrite (setDate_fixed m). fold tz. rewrite Hs.
    unfold tz. rewrite (LocalTime_UTC m). fold tz.
    rewrite Day_MakeDate, TimeWithinDay_MakeDate
      by (unfold Calendar.msPerDay; lia).
    unfold tz. rewrite setMilliseconds_midnight.
    subst F. unfold firstOfMonth, JSDate.UTC, JSDate.MakeDate, tz.
    cbn [JSDate.localOffsetAt JSDate.fixedZone].
    generalize (JSDate.MakeDay year month 1). intros D0.
    unfold Calendar.msPerDay. lia. }
  split; [intros d Hd; exact (H3 d n Hd)|]. split; [exact (Hy n)|].
  split; [split; [exact Hmo | exact (Hm n)]|].
  intros d [-> | [-> | [-> | ->]]].
  - destruct (Hm n) as [_ ->]. destruct (Hm (n + 1)) as [-> _]. lia.
  - destruct (H3 D3m n (or_introl eq_refl)) as [_ ->].
    destruct (H3 D3m (n + 1) (or_introl eq_refl)) as [-> _].
    replace (n + 1 - 1) with n by lia. lia.
  - destruct (H3 D6m n (or_intror eq_refl)) as [_ ->].
    destruct (H3 D6m (n + 1) (or_intror eq_refl)) as [-> _].
    replace (n + 1 - 1) with n by lia. lia.
  - destruct (Hy n) as [_ ->]. destruct (Hy (n + 1)) as [-> _].
    replace (3 * (n + 1 - 1)) with (3 * n) by lia. lia.
Qed.

(** In January 2024 the second slot of 3m is February 2024, and so it is
    seen from any other day of that year. *)
Lemma calendar_slot_times_witness :
  start (getSlotTimes Luxon.EuropeBerlin Scenario.serverZone
           Scenario.wednesdayNoon D3m 2)
  = firstOfMonth Scenario.serverZone 2024 1.
Proof.
  exact (proj1 (proj1 (calendar_slot_times Luxon.EuropeBerlin 60
                         Scenario.wednesdayNoon 2) D3m (or_introl eq_refl))).
Defined.

(** ** The two slot clocks side by side *)

Section AgreementFacts.
Import Calendar JSDate.

(** The slots of the durations below a week, as local time values of the
    local day of the server, whatever its zone. *)
Lemma daySlot_local Berlin tz t d n :
  match d with D1h | D3h | D6h | D24h | D48h => True | _ => False end ->
  1 <= n ->
  let today := MakeDate (Day (LocalTime tz t)) in
  let times := getSlotTimes Berlin tz t d n in
  start times = UTC tz (today ((n - 1) * slotMillis d))
  /\ end_ times = UTC tz (today (n * slotMillis d - 1)).
Proof.
  intros Hd Hn today times. subst today times.
  destruct d; try contradiction; cbn [getSlotTimes start end_];
    unfold getCurrentCESTTime, Luxon.toJSDate, Luxon.fromJSDate;
    cbn [Luxon.ts]; unfold setHours;
    rewrite ?minutes_split, ?minutes_split_end by lia;
    unfold slotMillis; cbn [intervalDuration SLOT_CONFIGURATIONS];
    unfold MakeTime, msPerHour, msPerMinute;
    split; f_equal; f_equal; lia.
Qed.

End AgreementFacts.

(** X26: for the durations of a week and more the slot length is at least a day,
    and [getCurrentSlot] counts from the midnight of the day: on a server
    whose zone has a constant offset it returns 1 at every instant, so that
    slot 1 is always the active one and no slot from 1 on is ever expired. *)
Theorem getCurrentSlot_long_durations :
  forall m t d,
    1440 <= intervalDuration (SLOT_CONFIGURATIONS d) ->
    let tz := JSDate.fixedZone m in
    getCurrentSlot tz t d = 1
    /\ isSlotActive tz t d 1 = true
    /\ (forall n, 1 <= n -> isSlotExpired tz t d n = false).
Proof.
  intros m t d Hlen tz.
  assert (H1 : getCurrentSlot tz t d = 1).
  { unfold tz. rewrite getCurrentSlot_fixed.
    pose proof (startOfLocalDay_within m t) as Hw.
    destruct (config_positive d) as [_ Hc].
    assert (Hq : (t - startOfLocalDay (JSDate.fixedZone m) t) / slotMillis d = 0).
    { apply Z.div_small. unfold slotMillis, Calendar.msPerMinute.
      unfold Calendar.msPerDay in Hw. lia. }
    rewrite Hq. lia. }
  unfold isSlotActive, isSlotExpired. rewrite H1.
  split; [reflexivity|]. split; [reflexivity|].
  intros n Hn. apply Z.ltb_ge. exact Hn.
Qed.

(** Wednesday noon: [getCurrentSlot] holds slot 1 of 1w. *)
Lemma getCurrentSlot_long_durations_witness :
  getCurrentSlot Scenario.serverZone Scenario.wednesdayNoon D1w = 1.
Proof.
  apply (getCurrentSlot_long_durations 60 Scenario.wednesdayNoon D1w).
  vm_compute. discriminate.
Defined.

(** X27: on a day without a clock change the two slot clocks agree for the
    durations up to 48h when the server runs in the zone that luxon has for
    'Europe/Berlin'. With o the offset of Berlin now: if o is also the
    offset at the midnight that began the local day, and the server reads
    the instant, that midnight and the two bounds of slot n with o, then
    [getCurrentSlot] returns the slot number of [getSlotForDate],
    [getSlotTimes] starts slot n where [getSlotForDate] starts it, and ends
    it 59999 ms after the end that [getSlotForDate] shows, one millisecond
    before the next start. *)
Theorem slot_clocks_agree :
  forall Berlin tz t d n,
    match d with D1h | D3h | D6h | D24h | D48h => True | _ => False end ->
    1 <= n ->
    let o := Berlin t * Calendar.msPerMinute in
    let midnight := Calendar.Day (t + o) * Calendar.msPerDay in
    Berlin (midnight - o) = Berlin t ->
    JSDate.utcOffsetAt tz t = o ->
    JSDate.localOffsetAt tz midnight = o ->
    JSDate.localOffsetAt tz (midnight + (n - 1) * slotMillis d) = o ->
    JSDate.localOffsetAt tz (midnight + n * slotMillis d - 1) = o ->
    let periodStart := periodStartFor (Luxon.fromJSDate t Berlin) d in
    let config := SLOT_CONFIGURATIONS d in
    let times := getSlotTimes Berlin tz t d n in
    getCurrentSlot tz t d = slotNumber (getSlotForDate Berlin t d)
    /\ start times = Luxon.ts (slotStartFor periodStart config n)
    /\ end_ times = Luxon.ts (slotEndFor periodStart config n) + 59999.
Proof.
  intros Berlin tz t d n Hd Hn o midnight Hb Hnow Hmid Hstart Hend
    periodStart config times.
  assert (Hps : Luxon.ts periodStart = midnight - o).
  { assert (E : Luxon.ts (Luxon.startOf (Luxon.fromJSDate t Berlin) Luxon.UDay)
                = midnight - o).
    { unfold Luxon.startOf, Luxon.ofLocal, Luxon.fixOffset, Luxon.localTS,
        Luxon.offset, Luxon.fromJSDate. cbn [Luxon.ts Luxon.zone].
      fold o. fold midnight. rewrite Hb, Z.eqb_refl. reflexivity. }
    subst periodStart. destruct d; try contradiction; exact E. }
  assert (Hlocal : JSDate.LocalTime tz t = t + o)
    by (unfold JSDate.LocalTime; rewrite Hnow; reflexivity).
  assert (Hsod : startOfLocalDay tz t = midnight - o).
  { unfold startOfLocalDay, JSDate.UTC, JSDate.MakeDate. rewrite Hlocal.
    fold midnight. rewrite Z.add_0_r, Hmid. reflexivity. }
  destruct (daySlot_local Berlin tz t d n Hd Hn) as [Hs He].
  fold times in Hs, He. unfold JSDate.UTC, JSDate.MakeDate in Hs, He.
  rewrite Hlocal in Hs, He. fold midnight in Hs, He.
  replace (midnight + (n * slotMillis d - 1))
    with (midnight + n * slotMillis d - 1) in He by lia.
  rewrite Hstart in Hs. rewrite Hend in He.
  pose proof (slotMillis_positive d) as Hp.
  assert (Hw : 0 <= t - (midnight - o)).
  { subst midnight. unfold Calendar.Day, Calendar.msPerDay.
    pose proof (Z.mul_div_le (t + o) 86400000 ltac:(lia)). lia. }
  split; [|split].
  - unfold getCurrentSlot. rewrite newDate_today, Hsod.
    unfold getSlotForDate. cbn [slotNumber]. fold periodStart config.
    unfold slotNumberFor, Luxon.diffMillis. cbn [Luxon.ts Luxon.fromJSDate].
    rewrite Hps. unfold slotMillis in Hp. fold config in Hp.
    replace (intervalDuration config * 60 * 1000)
      with (intervalDuration config * Calendar.msPerMinute)
      by (unfold Calendar.msPerMinute; lia).
    assert (0 <= (t - (midnight - o))
                 / (intervalDuration config * Calendar.msPerMinute))
      by (apply Z.div_pos; lia).
    lia.
  - rewrite Hs. unfold slotStartFor, Luxon.plusMinutes. cbn [Luxon.ts].
    rewrite Hps. unfold slotMillis. fold config. lia.
  - rewrite He. unfold slotEndFor, Luxon.plusMinutes. cbn [Luxon.ts].
    rewrite Hps. unfold slotMillis, Calendar.msPerMinute. fold config. lia.
Qed.

(** At 00:20 on 2024-01-15, with luxon and the server both in Europe/Berlin,
    both clocks are in slot 2 of 1h, which runs from 00:15 to 00:30. *)
Lemma slot_clocks_agree_witness :
  let t := Scenario.midnight + Scenario.minutes 20 in
  let times := getSlotTimes Luxon.EuropeBerlin Scenario.berlinServer t D1h 2 in
  getCurrentSlot Scenario.berlinServer t D1h
  = slotNumber (getSlotForDate Luxon.EuropeBerlin t D1h)
  /\ start times = Scenario.midnight + Scenario.minutes 15
  /\ end_ times = Scenario.midnight + Scenario.minutes 30 - 1.
Proof.
  intros t times.
  destruct (slot_clocks_agree Luxon.EuropeBerlin Scenario.berlinServer t D1h 2 I
              ltac:(lia) eq_refl eq_refl eq_refl eq_refl eq_refl)
    as (H1 & H2 & H3).
  split; [exact H1|]. split.
  - fold times in H2. rewrite H2. vm_compute. reflexivity.
  - fold times in H3. rewrite H3. vm_compute. reflexivity.
Defined.
